(** * product-insight-pipeline: the Lambda stages as Rocq functions

    A shallow embedding of the stage handlers under [src/functions]:
    [fetch_edgar_data], [build_features] with its helper
    [get_latest_fact], [generate_roi_brief] and [analyze_and_notify],
    followed by the properties the specification states about them and
    by further properties of the code.

    Python values are dynamically typed; the documents the stages read
    are decoded JSON.  Every operation of the source that can raise is a
    function into [result], and the handlers, which talk to S3, Bedrock
    and SES, live in a writer monad [M] that records each external call. *)

From Stdlib Require Import ZArith List String Ascii Bool Lia Permutation Sorted.
From Stdlib Require Import SpecFloat DecimalString.
Import ListNotations.

Local Open Scope string_scope.
Local Open Scope Z_scope.

(** ** Exceptions and fallible computations *)

Inductive exn : Type :=
| TypeError
| AttributeError
| KeyError
| ZeroDivisionError
| OverflowError
| IndexError
| JSONDecodeError
| RecursionError
| ValueError (msg : string)
| ServiceError (msg : string).

Inductive result (A : Type) : Type :=
| Ok (a : A)
| Raise (e : exn).

Arguments Ok {A} a.
Arguments Raise {A} e.

Definition rbind {A B} (m : result A) (k : A -> result B) : result B :=
  match m with
  | Ok a => k a
  | Raise e => Raise e
  end.

(** [try: ... except Exception: ...] *)
Definition try_except {A} (body : result A) (handler : exn -> result A)
  : result A :=
  match body with
  | Ok a => Ok a
  | Raise e => handler e
  end.

Declare Scope result_scope.
Delimit Scope result_scope with result.
Notation "'do' x <- m ; k" := (rbind m (fun x => k))
  (at level 10, x pattern, m at level 100, k at level 200) : result_scope.
Local Open Scope result_scope.

Fixpoint mapM {A B} (f : A -> result B) (l : list A) : result (list B) :=
  match l with
  | [] => Ok []
  | x :: xs => do y <- f x; do ys <- mapM f xs; Ok (y :: ys)
  end.

(** A list comprehension [[x for x in l if p x]] whose condition may raise. *)
Fixpoint filterM {A} (p : A -> result bool) (l : list A)
  : result (list A) :=
  match l with
  | [] => Ok []
  | x :: xs =>
      do b <- p x;
      do ys <- filterM p xs;
      Ok (if b then x :: ys else ys)
  end.

(** [next((x for x in l if p x), None)]: the generator stops at the first
    hit, so conditions after it are never evaluated. *)
Fixpoint findM {A} (p : A -> result bool) (l : list A)
  : result (option A) :=
  match l with
  | [] => Ok None
  | x :: xs => do b <- p x; if b then Ok (Some x) else findM p xs
  end.

(** ** External calls

    A handler's interaction with S3, Bedrock and SES is recorded call by
    call; [M A] is a fallible computation together with the calls it made
    (those made before an exception included). *)

Section Effects.
Variable call : Type.

Definition M (A : Type) : Type := (list call * result A)%type.

Definition mret {A} (a : A) : M A := ([], Ok a).

Definition mraise {A} (e : exn) : M A := ([], Raise e).

Definition lift {A} (r : result A) : M A := ([], r).

(** An external call [c] whose outcome is [r]. *)
Definition ext {A} (c : call) (r : result A) : M A := ([c], r).

Definition mbind {A B} (m : M A) (k : A -> M B) : M B :=
  match m with
  | (log, Ok a) => let (log', r) := k a in ((log ++ log')%list, r)
  | (log, Raise e) => (log, Raise e)
  end.

Definition calls {A} (m : M A) : list call := fst m.

Definition outcome {A} (m : M A) : result A := snd m.

End Effects.

Arguments mret {call A} a.
Arguments mraise {call A} e.
Arguments lift {call A} r.
Arguments ext {call A} c r.
Arguments mbind {call A B} m k.
Arguments calls {call A} m.
Arguments outcome {call A} m.

Declare Scope effect_scope.
Delimit Scope effect_scope with effect.
Notation "'run' x <- m ; k" := (mbind m (fun x => k))
  (at level 10, x pattern, m at level 100, k at level 200) : effect_scope.
Local Open Scope effect_scope.

(** ** Numbers

    A Python [float] is an IEEE 754 binary64 value; [spec_float] with
    [prec = 53] and [emax = 1024] is the Standard Library's specification
    of it.  A Python [int] is unbounded. *)

Definition prec : Z := 53.
Definition emax : Z := 1024.

Definition float := spec_float.

(** The integer [z] as an (unrounded) finite float with exponent 0. *)
Definition SF_of_Z_exact (z : Z) : float :=
  match z with
  | Z0 => S754_zero false
  | Zpos p => S754_finite false p 0
  | Zneg p => S754_finite true p 0
  end.

Definition is_infinity (f : float) : bool :=
  match f with
  | S754_infinity _ => true
  | _ => false
  end.

Definition is_zero (f : float) : bool :=
  match f with
  | S754_zero _ => true
  | _ => false
  end.

(** [float(n)] for an [int]: nearest-even, [OverflowError] past the range. *)
Definition float_of_int (z : Z) : result float :=
  let f := binary_normalize prec emax z 0 false in
  if is_infinity f then Raise OverflowError else Ok f.

(** The literal [num/den] as the nearest double, for the source's
    constants [0.3] and [0.2]. *)
Definition float_lit (num den : Z) : float :=
  SFdiv prec emax (SF_of_Z_exact num) (SF_of_Z_exact den).

(** Exact values, to compare an [int] with a [float] the way Python does
    (without converting the [int]). *)
Inductive xnum : Type :=
| XNan
| XInf (neg : bool)
| XFin (m e : Z).

Definition xnum_of_float (f : float) : xnum :=
  match f with
  | S754_zero _ => XFin 0 0
  | S754_infinity s => XInf s
  | S754_nan => XNan
  | S754_finite s m e => XFin (if s then Zneg m else Zpos m) e
  end.

Definition xcompare (a b : xnum) : option comparison :=
  match a, b with
  | XNan, _ | _, XNan => None
  | XInf s1, XInf s2 =>
      Some (match s1, s2 with
            | true, false => Lt
            | false, true => Gt
            | _, _ => Eq
            end)
  | XInf s, XFin _ _ => Some (if s then Lt else Gt)
  | XFin _ _, XInf s => Some (if s then Gt else Lt)
  | XFin m1 e1, XFin m2 e2 =>
      let e := Z.min e1 e2 in
      Some (Z.compare (m1 * 2 ^ (e1 - e)) (m2 * 2 ^ (e2 - e)))
  end.

Inductive num : Type :=
| NInt (z : Z)
| NFloat (f : float).

Definition xnum_of_num (n : num) : xnum :=
  match n with
  | NInt z => XFin z 0
  | NFloat f => xnum_of_float f
  end.

Definition num_eqb (a b : num) : bool :=
  match xcompare (xnum_of_num a) (xnum_of_num b) with
  | Some Eq => true
  | _ => false
  end.

Definition num_gtb (a b : num) : bool :=
  match xcompare (xnum_of_num a) (xnum_of_num b) with
  | Some Gt => true
  | _ => false
  end.

Definition num_is_nan (a : num) : bool :=
  match a with
  | NFloat S754_nan => true
  | _ => false
  end.

Definition num_to_float (a : num) : result float :=
  match a with
  | NInt z => float_of_int z
  | NFloat f => Ok f
  end.

(** [a - b] on numbers: exact on two ints, binary64 otherwise. *)
Definition num_sub (a b : num) : result num :=
  match a, b with
  | NInt x, NInt y => Ok (NInt (x - y))
  | _, _ =>
      do fa <- num_to_float a;
      do fb <- num_to_float b;
      Ok (NFloat (SFsub prec emax fa fb))
  end.

(** [a / b] (true division): always a float.  Two ints are divided
    exactly and rounded once; a quotient past the float range is an
    [OverflowError]. *)
Definition num_truediv (a b : num) : result float :=
  match a, b with
  | NInt x, NInt y =>
      if y =? 0 then Raise ZeroDivisionError
      else
        let q := SFdiv prec emax (SF_of_Z_exact x) (SF_of_Z_exact y) in
        if is_infinity q then Raise OverflowError else Ok q
  | _, _ =>
      do fa <- num_to_float a;
      do fb <- num_to_float b;
      if is_zero fb then Raise ZeroDivisionError
      else Ok (SFdiv prec emax fa fb)
  end.

(** [x * 100] for a float [x]: the int is converted, exactly, first. *)
Definition float_times_100 (x : float) : float :=
  SFmul prec emax x (binary_normalize prec emax 100 0 false).

(** [round(x, 2)] for a float [x].  CPython prints the exact binary value
    with two decimals, ties to even, and reads the decimal back as the
    nearest double; infinities and NaN round to themselves, and a value
    with a non-negative exponent is an integer already. *)
Definition round_half_even (n d : Z) : Z :=
  let q := n / d in
  let r := n mod d in
  match Z.compare (2 * r) d with
  | Lt => q
  | Gt => q + 1
  | Eq => if Z.even q then q else q + 1
  end.

Definition round2 (x : float) : float :=
  match x with
  | S754_finite s m e =>
      if 0 <=? e then x
      else
        match round_half_even (Zpos m * 100) (2 ^ (- e)) with
        | Zpos k =>
            SFdiv prec emax (S754_finite s k 0) (S754_finite false 100 0)
        | _ => S754_zero s
        end
  | _ => x
  end.

(** ** JSON documents and Python values *)

#[local] Set Warnings "-register-all".

Inductive json : Type :=
| JNull
| JBool (b : bool)
| JInt (z : Z)
| JFloat (f : float)
| JStr (s : string)
| JList (l : list json)
| JDict (d : list (string * json)).

(** A [dict] keeps insertion order; a key is looked up from the front. *)
Fixpoint dict_lookup (k : string) (d : list (string * json))
  : option json :=
  match d with
  | [] => None
  | (k', v) :: d' => if String.eqb k k' then Some v else dict_lookup k d'
  end.

Definition dict_mem (k : string) (d : list (string * json)) : bool :=
  match dict_lookup k d with
  | Some _ => true
  | None => false
  end.

(** [d[k] = v]: an existing key keeps its place. *)
Fixpoint dict_set (k : string) (v : json) (d : list (string * json))
  : list (string * json) :=
  match d with
  | [] => [(k, v)]
  | (k', v') :: d' =>
      if String.eqb k k' then (k', v) :: d' else (k', v') :: dict_set k v d'
  end.

Definition as_num (v : json) : option num :=
  match v with
  | JBool b => Some (NInt (if b then 1 else 0))
  | JInt z => Some (NInt z)
  | JFloat f => Some (NFloat f)
  | _ => None
  end.

Definition is_none (v : json) : bool :=
  match v with
  | JNull => true
  | _ => false
  end.

Definition is_dict (v : json) : bool :=
  match v with
  | JDict _ => true
  | _ => false
  end.

(** Truth value of an object, as [if v:], [not v], [a or b] and [bool(v)]
    test it. *)
Definition truthy (v : json) : bool :=
  match v with
  | JNull => false
  | JBool b => b
  | JInt z => negb (z =? 0)
  | JFloat f => negb (is_zero f)
  | JStr s => negb (String.eqb s "")
  | JList l => match l with [] => false | _ => true end
  | JDict d => match d with [] => false | _ => true end
  end.

(** [a or b] *)
Definition py_or (a b : json) : json := if truthy a then a else b.

(** [a == b].  Numbers compare by exact value across [bool], [int] and
    [float]; containers compare element by element.  The documents are
    freshly decoded trees, so no two compared objects are the same object
    and the identity shortcut of container comparison never applies. *)
Fixpoint py_eq (a b : json) {struct a} : bool :=
  match a, b with
  | JNull, JNull => true
  | JStr s, JStr t => String.eqb s t
  | JList l, JList m =>
      (fix go (l m : list json) {struct l} : bool :=
         match l, m with
         | [], [] => true
         | x :: l', y :: m' => py_eq x y && go l' m'
         | _, _ => false
         end) l m
  | JDict d, JDict d' =>
      (Nat.eqb (List.length d) (List.length d'))
      && (fix go (d : list (string * json)) {struct d} : bool :=
            match d with
            | [] => true
            | (k, v) :: rest =>
                match dict_lookup k d' with
                | Some v' => py_eq v v' && go rest
                | None => false
                end
            end) d
  | _, _ =>
      match as_num a, as_num b with
      | Some x, Some y => num_eqb x y
      | _, _ => false
      end
  end.

(** [sub in s] for two strings. *)
Fixpoint str_contains (sub s : string) : bool :=
  String.prefix sub s
  || match s with
     | EmptyString => false
     | String _ s' => str_contains sub s'
     end.

Definition chars (s : string) : list json :=
  map (fun c => JStr (String c EmptyString)) (list_ascii_of_string s).

(** [obj.get(key, default)]: only a [dict] has [get]. *)
Definition py_get (obj : json) (key : string) (default : json)
  : result json :=
  match obj with
  | JDict d =>
      Ok (match dict_lookup key d with
          | Some v => v
          | None => default
          end)
  | _ => Raise AttributeError
  end.

(** [key in obj] for a string [key]: key membership in a [dict],
    substring test in a [str], element test in a [list]. *)
Definition py_in (key : string) (obj : json) : result bool :=
  match obj with
  | JDict d => Ok (dict_mem key d)
  | JStr s => Ok (str_contains key s)
  | JList l => Ok (existsb (py_eq (JStr key)) l)
  | _ => Raise TypeError
  end.

(** [obj[key]] for a string [key]. *)
Definition py_index (obj : json) (key : string) : result json :=
  match obj with
  | JDict d =>
      match dict_lookup key d with
      | Some v => Ok v
      | None => Raise KeyError
      end
  | _ => Raise TypeError
  end.

(** [for x in obj]: the elements of a [list], the characters of a [str],
    the keys of a [dict]. *)
Definition py_iter (obj : json) : result (list json) :=
  match obj with
  | JList l => Ok l
  | JStr s => Ok (chars s)
  | JDict d => Ok (map (fun kv => JStr (fst kv)) d)
  | _ => Raise TypeError
  end.

(** [a > n] against an [int] literal: anything but a number raises. *)
Definition py_gt_int (a : json) (n : Z) : result bool :=
  match as_num a with
  | Some x => Ok (num_gtb x (NInt n))
  | None => Raise TypeError
  end.

(** [a - b] and [a / b]; the operands the stages pass are numbers or
    arbitrary decoded values, and only numbers support either. *)
Definition py_sub (a b : json) : result json :=
  match as_num a, as_num b with
  | Some x, Some y =>
      do r <- num_sub x y;
      Ok (match r with NInt z => JInt z | NFloat f => JFloat f end)
  | _, _ => Raise TypeError
  end.

Definition py_truediv (a b : json) : result float :=
  match as_num a, as_num b with
  | Some x, Some y => num_truediv x y
  | _, _ => Raise TypeError
  end.

(** ** [list.sort(key=..., reverse=True)]

    The sort is stable and [reverse=True] keeps the original order of
    equal keys.  When the keys are totally ordered by [<] (numbers other
    than NaN, or strings) the outcome is the stable descending
    arrangement, whatever the algorithm.  For other keys (NaN, nested
    lists, [None], mixed kinds) the outcome depends on the comparisons
    CPython's timsort happens to make: it is left to an oracle that
    either raises or returns a rearrangement of its input. *)

Definition keyed := (json * json)%type.

Class Timsort : Type := {
  sort_irregular : list keyed -> result (list keyed);
  sort_irregular_perm :
    forall l l', sort_irregular l = Ok l' -> Permutation l l'
}.

Definition ordered_number (k : json) : bool :=
  match as_num k with
  | Some x => negb (num_is_nan x)
  | None => false
  end.

Definition is_str (k : json) : bool :=
  match k with
  | JStr _ => true
  | _ => false
  end.

(** [a > b] on keys of one ordered kind. *)
Definition key_gtb (a b : json) : bool :=
  match a, b with
  | JStr s, JStr t => String.ltb t s
  | _, _ =>
      match as_num a, as_num b with
      | Some x, Some y => num_gtb x y
      | _, _ => false
      end
  end.

Fixpoint insert_desc (x : keyed) (l : list keyed) : list keyed :=
  match l with
  | [] => [x]
  | y :: ys =>
      if key_gtb (fst y) (fst x) then y :: insert_desc x ys
      else x :: y :: ys
  end.

Definition stable_sort_desc (l : list keyed) : list keyed :=
  fold_right insert_desc [] l.

(** [b] may follow [a] in descending order: its key is not greater. *)
Definition not_before (a b : keyed) : Prop :=
  key_gtb (fst b) (fst a) = false.

Definition int_key (kx : keyed) : Prop := exists z, fst kx = JInt z.

Definition py_sort_desc {TS : Timsort} (l : list keyed) : result (list keyed) :=
  match l with
  | [] | [_] => Ok l
  | _ =>
      if forallb (fun kx => ordered_number (fst kx)) l
         || forallb (fun kx => is_str (fst kx)) l
      then Ok (stable_sort_desc l)
      else sort_irregular l
  end.

(** ** build_features: [get_latest_fact] *)

Section GetLatestFact.
Context {TS : Timsort}.

(** [key=lambda x: x.get("fy", 0)] *)
Definition fy_key (x : json) : result json := py_get x "fy" (JInt 0).

(** The keys are computed for every element before any comparison. *)
Definition sort_by_fy_desc (l : list json) : result (list json) :=
  do keys <- mapM fy_key l;
  do sorted <- py_sort_desc (combine keys l);
  Ok (map snd sorted).

(** ["frame" in f and f.get("form") == "10-K"] *)
Definition is_annual (f : json) : result bool :=
  do has_frame <- py_in "frame" f;
  if has_frame
  then do form <- py_get f "form" JNull; Ok (py_eq form (JStr "10-K"))
  else Ok false.

(** [f.get("fy") == fiscal_year] *)
Definition fy_is (fiscal_year f : json) : result bool :=
  do fy <- py_get f "fy" JNull; Ok (py_eq fy fiscal_year).

(** [return x.get("val"), x.get("fy")] *)
Definition val_and_fy (x : json) : result (json * json) :=
  do v <- py_get x "val" JNull;
  do fy <- py_get x "fy" JNull;
  Ok (v, fy).

(** [facts_data.get("facts", {}).get("us-gaap", {})] and lines 15-22:
    the USD observation list of the concept, or [None]
    where the source returns [(None, None)] early. *)
Definition us_gaap_facts (facts_data : json) : result json :=
  do facts0 <- py_get facts_data "facts" (JDict []);
  py_get facts0 "us-gaap" (JDict []).

Definition usd_fact_list (facts_data : json) (fact_name : string)
  : result (option json) :=
  do facts <- us_gaap_facts facts_data;
  do present <- py_in fact_name facts;
  if negb present then Ok None
  else
    do concept <- py_index facts fact_name;
    do units <- py_get concept "units" (JDict []);
    do has_usd <- py_in "USD" units;
    if negb has_usd then Ok None
    else do fact_list <- py_index units "USD"; Ok (Some fact_list).

(** Lines 24-45. *)
Definition select_fact (fact_list fiscal_year : json)
  : result (json * json) :=
  do entries <- py_iter fact_list;
  do annual_filings <- filterM is_annual entries;
  match annual_filings with
  | [] =>
      if truthy fact_list
      then
        do fact_list_sorted <- sort_by_fy_desc entries;
        match fact_list_sorted with
        | candidate :: _ => val_and_fy candidate
        | [] => Raise IndexError
        end
      else Ok (JNull, JNull)
  | _ :: _ =>
      do sorted <- sort_by_fy_desc annual_filings;
      match sorted with
      | [] => Raise IndexError
      | first :: _ =>
          if truthy fiscal_year
          then
            do found <- findM (fy_is fiscal_year) sorted;
            match found with
            | Some f => if truthy f then val_and_fy f else Ok (JNull, JNull)
            | None => Ok (JNull, JNull)
            end
          else val_and_fy first
      end
  end.

Definition get_latest_fact_body (facts_data : json) (fact_name : string)
    (fiscal_year : json) : result (json * json) :=
  do fact_list <- usd_fact_list facts_data fact_name;
  match fact_list with
  | None => Ok (JNull, JNull)
  | Some fl => select_fact fl fiscal_year
  end.

(** [fiscal_year=None] is passed as [JNull]. *)
Definition get_latest_fact (facts_data : json) (fact_name : string)
    (fiscal_year : json) : result (json * json) :=
  try_except (get_latest_fact_body facts_data fact_name fiscal_year)
             (fun _ => Ok (JNull, JNull)).

(** The annual observations of a concept: the list the source calls
    [annual_filings], empty where the concept or its USD list is absent. *)
Definition annual_observations (facts_data : json) (fact_name : string)
  : result (list json) :=
  do fact_list <- usd_fact_list facts_data fact_name;
  match fact_list with
  | None => Ok []
  | Some fl => do entries <- py_iter fl; filterM is_annual entries
  end.

End GetLatestFact.

(** ** Documents used in the examples *)

(** [{"facts": {"us-gaap": {...}}}] *)
Definition facts_doc (concepts : list (string * json)) : json :=
  JDict [("facts", JDict [("us-gaap", JDict concepts)])].

(** [{"units": {"USD": [...]}}] *)
Definition usd_concept (observations : list json) : json :=
  JDict [("units", JDict [("USD", JList observations)])].

(** An observation of an annual filing, carrying a frame marker. *)
Definition annual_obs (val fy : Z) (frame : string) : json :=
  JDict [("val", JInt val); ("fy", JInt fy); ("form", JStr "10-K");
         ("frame", JStr frame)].

(** A quarterly observation without a frame marker. *)
Definition quarterly_obs (val fy : Z) : json :=
  JDict [("val", JInt val); ("fy", JInt fy); ("form", JStr "10-Q")].

(** Revenue 100 (2023) and 80 (2022), sales-and-marketing expense 20
    (2023), all from annual filings, with any frame markers and with the
    two revenue observations listed in either order. *)
Definition scenario_facts_with (newest_first : bool) (f1 f2 f3 : string)
  : json :=
  facts_doc
    [("Revenues",
      usd_concept
        (if newest_first
         then [annual_obs 100 2023 f1; annual_obs 80 2022 f2]
         else [annual_obs 80 2022 f2; annual_obs 100 2023 f1]));
     ("SalesAndMarketingExpense", usd_concept [annual_obs 20 2023 f3])].

Definition scenario_facts : json :=
  scenario_facts_with true "CY2023" "CY2022" "CY2023".

(** Revenue 100 (2023) after a year without revenue. *)
Definition zero_prior_facts : json :=
  facts_doc
    [("Revenues",
      usd_concept [annual_obs 100 2023 "CY2023"; annual_obs 0 2022 "CY2022"])].

(** Revenue reported in quarterly filings only. *)
Definition quarterly_only_facts : json :=
  facts_doc [("Revenues", usd_concept [quarterly_obs 5 2023])].

(** Quarterly observations of three fiscal years, not in order. *)
Definition quarterly_history_facts : json :=
  facts_doc
    [("Revenues",
      usd_concept [quarterly_obs 5 2022; quarterly_obs 7 2024;
                   quarterly_obs 6 2023])].

(** A USD list in which one entry is [null]. *)
Definition damaged_facts : json :=
  facts_doc
    [("Revenues",
      usd_concept [annual_obs 100 2023 "CY2023"; JNull;
                   annual_obs 80 2022 "CY2022"])].

(** An annual observation that carries no fiscal year. *)
Definition undated_facts : json :=
  facts_doc
    [("Revenues",
      usd_concept [JDict [("val", JInt 100); ("form", JStr "10-K");
                          ("frame", JStr "CY2023")]])].

(** A sort oracle for running the examples: it gives up on keys that are
    not totally ordered.  The examples only sort integer keys, which
    never reach it. *)
Definition strict_sort_irregular (l : list keyed) : result (list keyed) :=
  Raise TypeError.

#[export] Instance strict_timsort : Timsort :=
  {| sort_irregular := strict_sort_irregular;
     sort_irregular_perm := fun l l' (E : Raise TypeError = Ok l') =>
       match E in (_ = r)
             return (match r with Ok _ => Permutation l l' | Raise _ => True end)
       with eq_refl => I end |}.

(** ** The runtime the handlers run in *)

(** Library functions of Python that the handlers call and whose full
    behaviour is outside this development. *)
Class Builtins : Type := {
  (** [json.loads]: the decoded value, or the exception it raised.  Text
      that is not JSON raises [JSONDecodeError]; the decoder can also
      give up with [RecursionError] (deep nesting) or a plain
      [ValueError] (an integer with too many digits). *)
  json_loads : string -> result json;
  (** [json.dumps(v)] and [json.dumps(v, indent=2)] *)
  json_dumps : json -> string;
  json_dumps_indent : json -> string;
  (** the text a value is rendered as inside an f-string *)
  py_format : json -> string;
  (** [int(v)] and [float(v)] *)
  py_int : json -> result json;
  py_float : json -> result json
}.

(** What the stages exchange with the outside. *)
Inductive call : Type :=
| S3Client
| S3GetObject (bucket : string) (key : json)
| S3PutObject (bucket key body content_type : string)
| BedrockClient (region : json)
| BedrockInvokeModel (region model_id body : json)
| SesClient (region : option string)
| SesSendEmail (source recipient subject html : json).

(** The collaborators: each answers a call with a value or an exception.
    [s3_client] is [boto3.client("s3")] where a handler creates the
    client itself (generate_roi_brief, line 111); build_features and
    fetch_edgar_data create theirs when the module is loaded.
    [utc_today] is [datetime.now(timezone.utc).strftime("%Y-%m-%d")],
    [getenv] reads the process environment, [output_bucket] is
    [os.environ["OUTPUT_BUCKET"]]. *)
Class Services : Type := {
  s3_client : result unit;
  s3_get_object : string -> json -> result string;
  s3_put_object : string -> string -> string -> string -> result unit;
  bedrock_client : json -> result unit;
  bedrock_invoke_model : json -> json -> json -> result json;
  ses_client : option string -> result unit;
  ses_send_email : json -> json -> json -> json -> result json;
  utc_today : string;
  getenv : string -> option string;
  output_bucket : string
}.

(** ** build_features: [handler] *)

Module BuildFeatures.
Section Handler.
Context {TS : Timsort} {BI : Builtins} {SV : Services}.

(** [json.loads(s3.get_object(Bucket=OUTPUT_BUCKET, Key=key)["Body"]
    .read().decode('utf-8'))] *)
Definition load_json (key : json) : M call json :=
  run body <- ext (S3GetObject output_bucket key)
                  (s3_get_object output_bucket key);
  lift (json_loads body).

(** Lines 57-59: the event's [edgar_data], with one [Payload] envelope
    removed. *)
Definition unwrap_edgar (event : json) : result json :=
  do e <- py_get event "edgar_data" JNull;
  let edgar_obj := py_or e (JDict []) in
  if is_dict edgar_obj
  then
    do wrapped <- py_in "Payload" edgar_obj;
    if wrapped then py_index edgar_obj "Payload" else Ok edgar_obj
  else Ok edgar_obj.

(** Lines 62-65. *)
Definition s3_references (event edgar_obj : json) : result json :=
  do r <- py_get edgar_obj "s3_references" JNull;
  do s3_refs <- (if truthy r then Ok r
                 else py_get edgar_obj "s3_references" (JDict []));
  if negb (truthy s3_refs)
  then do t <- py_get event "s3_references" (JDict []);
       Ok (py_or t (JDict []))
  else Ok s3_refs.

(** The event [rest] with [edgar_data] set to [v]. *)
Definition with_edgar_data (rest : list (string * json)) (v : json)
  : json :=
  JDict (dict_set "edgar_data" v rest).

(** Lines 67-71: the two storage keys, or the fault. *)
Definition storage_keys (s3_refs : json) : result (json * json) :=
  do facts_key <- py_get s3_refs "facts_key" JNull;
  do submissions_key <- py_get s3_refs "submissions_key" JNull;
  if negb (truthy facts_key) || negb (truthy submissions_key)
  then Raise (ValueError "Missing S3 references in the event payload")
  else Ok (facts_key, submissions_key).

(** [x > 0] evaluates to [False]: [x] is a number, and not a strictly
    positive one. *)
Definition not_strictly_positive (x : json) : Prop :=
  py_gt_int x 0 = Ok false.

(** Lines 95-99. *)
Definition yoy_growth (latest_revenue prev_revenue : json)
  : result (option float) :=
  if negb (is_none latest_revenue) && negb (is_none prev_revenue)
  then
    do positive <- py_gt_int prev_revenue 0;
    if positive
    then try_except
           (do d <- py_sub latest_revenue prev_revenue;
            do q <- py_truediv d prev_revenue;
            Ok (Some q))
           (fun _ => Ok None)
    else Ok None
  else Ok None.

(** Lines 102-106. *)
Definition sm_ratio (latest_revenue latest_sm_expense : json)
  : result (option float) :=
  if negb (is_none latest_revenue) && negb (is_none latest_sm_expense)
  then
    do positive <- py_gt_int latest_revenue 0;
    if positive
    then try_except
           (do q <- py_truediv latest_sm_expense latest_revenue;
            Ok (Some q))
           (fun _ => Ok None)
    else Ok None
  else Ok None.

(** Lines 86-106: the two ratios, before they are turned into
    percentages. *)
Definition derive_kpis (facts_data latest_revenue year : json)
  : result (option float * option float) :=
  if negb (is_none year) && negb (is_none latest_revenue)
  then
    do prev_year <- py_sub year (JInt 1);
    do prev <- get_latest_fact facts_data "Revenues" prev_year;
    do sm <- get_latest_fact facts_data "SalesAndMarketingExpense" year;
    let prev_revenue := fst prev in
    let latest_sm_expense := fst sm in
    do yoy_revenue_growth <- yoy_growth latest_revenue prev_revenue;
    do sm_as_pct_revenue <- sm_ratio latest_revenue latest_sm_expense;
    Ok (yoy_revenue_growth, sm_as_pct_revenue)
  else Ok (None, None).

(** [round(x * 100, 2) if x is not None else None] *)
Definition pct (x : option float) : json :=
  match x with
  | Some f => JFloat (round2 (float_times_100 f))
  | None => JNull
  end.

Definition handler (event : json) : M call json :=
  run edgar_obj <- lift (unwrap_edgar event);
  run s3_refs <- lift (s3_references event edgar_obj);
  run keys <- lift (storage_keys s3_refs);
  let facts_key := fst keys in
  let submissions_key := snd keys in
  run facts_data <- load_json facts_key;
  run submissions_data <- load_json submissions_key;
  run c <- lift (py_get event "cik" JNull);
  run cik <- lift (if truthy c then Ok c else py_get edgar_obj "cik" JNull);
  run name <- lift (py_get event "name" JNull);
  run latest <- lift (get_latest_fact facts_data "Revenues" JNull);
  let latest_revenue := fst latest in
  let year := snd latest in
  run kpis <- lift (derive_kpis facts_data latest_revenue year);
  run sic_description <-
    lift (py_get submissions_data "sicDescription" (JStr "N/A"));
  run fiscal_year_end <-
    lift (py_get submissions_data "fiscalYearEnd" (JStr "N/A"));
  mret (JDict
    [("company_name", name);
     ("cik", cik);
     ("fiscal_year", year);
     ("industry", sic_description);
     ("fiscal_year_end", fiscal_year_end);
     ("latest_revenue_usd", latest_revenue);
     ("yoy_revenue_growth_pct", pct (fst kpis));
     ("sm_expense_as_pct_revenue", pct (snd kpis));
     ("data_source",
      JStr ("https://www.sec.gov/edgar/browse/?CIK=" ++ py_format cik))]).

End Handler.
End BuildFeatures.

(** ** A JSON decoder for the examples

    The general statements below hold for any [json.loads]; to run the
    handlers on concrete texts the examples use this decoder.  It follows
    the grammar [json.loads] accepts (whitespace, the three literals and
    [NaN]/[Infinity], numbers, strings with escapes, arrays, objects,
    nothing but whitespace after the value).  Text is a string of 8-bit
    characters, so a [\u] escape above [ÿ] is out of its reach and
    is rejected. *)

Module Decoder.

Definition is_ws (c : ascii) : bool :=
  match c with
  | " "%char | "009"%char | "010"%char | "013"%char => true
  | _ => false
  end.

Fixpoint skip_ws (s : list ascii) : list ascii :=
  match s with
  | c :: s' => if is_ws c then skip_ws s' else s
  | [] => []
  end.

Definition digit_of (c : ascii) : option Z :=
  let n := Z.of_N (N_of_ascii c) in
  if (48 <=? n) && (n <=? 57) then Some (n - 48) else None.

Definition hex_of (c : ascii) : option Z :=
  let n := Z.of_N (N_of_ascii c) in
  if (48 <=? n) && (n <=? 57) then Some (n - 48)
  else if (65 <=? n) && (n <=? 70) then Some (n - 55)
  else if (97 <=? n) && (n <=? 102) then Some (n - 87)
  else None.

(** The longest run of digits: its value, its length, the rest. *)
Fixpoint digits (s : list ascii) (acc : Z) (len : Z)
  : Z * Z * list ascii :=
  match s with
  | c :: s' =>
      match digit_of c with
      | Some d => digits s' (10 * acc + d) (len + 1)
      | None => (acc, len, s)
      end
  | [] => (acc, len, s)
  end.

(** The integer part: a single [0], or digits not starting with [0]. *)
Definition int_part (s : list ascii) : option (Z * list ascii) :=
  match s with
  | "0"%char :: s' => Some (0, s')
  | _ =>
      let '(v, len, rest) := digits s 0 0 in
      if len =? 0 then None else Some (v, rest)
  end.

(** An optional fraction, a dot and at least one digit: the digits
    appended to [v], and how many. *)
Definition frac_part (v : Z) (s : list ascii) : Z * Z * list ascii :=
  match s with
  | "."%char :: s' =>
      let '(v', len, rest) := digits s' v 0 in
      if len =? 0 then (v, 0, s) else (v', len, rest)
  | _ => (v, 0, s)
  end.

(** An optional exponent: [e] or [E], an optional sign, digits. *)
Definition exp_part (s : list ascii) : option Z * list ascii :=
  match s with
  | c :: s' =>
      if Ascii.eqb c "e" || Ascii.eqb c "E"
      then
        let '(neg, s'') :=
          match s' with
          | "-"%char :: t => (true, t)
          | "+"%char :: t => (false, t)
          | _ => (false, s')
          end in
        let '(v, len, rest) := digits s'' 0 0 in
        if len =? 0 then (None, s)
        else (Some (if neg then - v else v), rest)
      else (None, s)
  | [] => (None, s)
  end.

(** [float(text)] for the decimal [m * 10^scale] with sign [neg]. *)
Definition decimal_to_float (neg : bool) (m scale : Z) : float :=
  match m with
  | Zpos p =>
      if 0 <=? scale
      then binary_normalize prec emax
             ((if neg then Zneg p else Zpos p) * 10 ^ scale) 0 false
      else SFdiv prec emax (S754_finite neg p 0)
                 (SF_of_Z_exact (10 ^ (- scale)))
  | _ => S754_zero neg
  end.

Definition number (s : list ascii) : option (json * list ascii) :=
  let '(neg, s1) :=
    match s with
    | "-"%char :: t => (true, t)
    | _ => (false, s)
    end in
  match int_part s1 with
  | None => None
  | Some (i, s2) =>
      let '(m, flen, s3) := frac_part i s2 in
      let '(e, s4) := exp_part s3 in
      match flen =? 0, e with
      | true, None => Some (JInt (if neg then - i else i), s4)
      | _, _ =>
          let ex := match e with Some x => x | None => 0 end in
          Some (JFloat (decimal_to_float neg m (ex - flen)), s4)
      end
  end.

Fixpoint expect (word : list ascii) (s : list ascii)
  : option (list ascii) :=
  match word, s with
  | [], _ => Some s
  | w :: word', c :: s' => if Ascii.eqb w c then expect word' s' else None
  | _ :: _, [] => None
  end.

Definition literal (word : string) (v : json) (s : list ascii)
  : option (json * list ascii) :=
  match expect (list_ascii_of_string word) s with
  | Some rest => Some (v, rest)
  | None => None
  end.

Definition escape (c : ascii) : option ascii :=
  match c with
  | "034"%char => Some "034"%char
  | "\"%char => Some "\"%char
  | "/"%char => Some "/"%char
  | "b"%char => Some "008"%char
  | "f"%char => Some "012"%char
  | "n"%char => Some "010"%char
  | "r"%char => Some "013"%char
  | "t"%char => Some "009"%char
  | _ => None
  end.

(** The body of a string literal, after the opening quote. *)
Fixpoint string_body (fuel : nat) (s : list ascii) (acc : list ascii)
  : option (string * list ascii) :=
  match fuel with
  | O => None
  | S fuel' =>
      match s with
      | [] => None
      | "034"%char :: rest => Some (string_of_list_ascii (rev acc), rest)
      | "\"%char :: "u"%char :: a :: b :: c :: d :: rest =>
          match hex_of a, hex_of b, hex_of c, hex_of d with
          | Some 0, Some 0, Some h, Some l =>
              string_body fuel' rest
                (ascii_of_N (Z.to_N (16 * h + l)) :: acc)
          | _, _, _, _ => None
          end
      | "\"%char :: c :: rest =>
          match escape c with
          | Some x => string_body fuel' rest (x :: acc)
          | None => None
          end
      | c :: rest =>
          if (N_of_ascii c <? 32)%N then None
          else string_body fuel' rest (c :: acc)
      end
  end.

Fixpoint value (fuel : nat) (s : list ascii) {struct fuel}
  : option (json * list ascii) :=
  match fuel with
  | O => None
  | S fuel' =>
      match s with
      | "n"%char :: _ => literal "null" JNull s
      | "t"%char :: _ => literal "true" (JBool true) s
      | "f"%char :: _ => literal "false" (JBool false) s
      | "N"%char :: _ => literal "NaN" (JFloat S754_nan) s
      | "I"%char :: _ => literal "Infinity" (JFloat (S754_infinity false)) s
      | "-"%char :: "I"%char :: _ =>
          literal "-Infinity" (JFloat (S754_infinity true)) s
      | "034"%char :: rest =>
          match string_body (List.length rest + 1) rest [] with
          | Some (str, rest') => Some (JStr str, rest')
          | None => None
          end
      | "["%char :: rest =>
          match skip_ws rest with
          | "]"%char :: rest' => Some (JList [], rest')
          | rest' =>
              match elements fuel' rest' [] with
              | Some (l, rest'') => Some (JList l, rest'')
              | None => None
              end
          end
      | "{"%char :: rest =>
          match skip_ws rest with
          | "}"%char :: rest' => Some (JDict [], rest')
          | rest' =>
              match members fuel' rest' [] with
              | Some (d, rest'') => Some (JDict d, rest'')
              | None => None
              end
          end
      | _ => number s
      end
  end
with elements (fuel : nat) (s : list ascii) (acc : list json)
    {struct fuel} : option (list json * list ascii) :=
  match fuel with
  | O => None
  | S fuel' =>
      match value fuel' (skip_ws s) with
      | Some (v, rest) =>
          match skip_ws rest with
          | ","%char :: rest' => elements fuel' rest' (v :: acc)
          | "]"%char :: rest' => Some (rev (v :: acc), rest')
          | _ => None
          end
      | None => None
      end
  end
with members (fuel : nat) (s : list ascii) (acc : list (string * json))
    {struct fuel} : option (list (string * json) * list ascii) :=
  match fuel with
  | O => None
  | S fuel' =>
      match skip_ws s with
      | "034"%char :: rest =>
          match string_body (List.length rest + 1) rest [] with
          | Some (k, rest1) =>
              match skip_ws rest1 with
              | ":"%char :: rest2 =>
                  match value fuel' (skip_ws rest2) with
                  | Some (v, rest3) =>
                      match skip_ws rest3 with
                      | ","%char :: rest4 =>
                          members fuel' rest4 (dict_set k v acc)
                      | "}"%char :: rest4 => Some (dict_set k v acc, rest4)
                      | _ => None
                      end
                  | None => None
                  end
              | _ => None
              end
          | None => None
          end
      | _ => None
      end
  end.

Definition loads (text : string) : option json :=
  let s := list_ascii_of_string text in
  match value (2 * List.length s + 2) (skip_ws s) with
  | Some (v, rest) =>
      match skip_ws rest with
      | [] => Some v
      | _ :: _ => None
      end
  | None => None
  end.

End Decoder.

(** ** A JSON encoder for the examples

    [json.dumps] with its default separators and [ensure_ascii], with or
    without [indent].  A float is written with its exact decimal
    expansion (CPython writes the shortest decimal that reads back as the
    same float); either text decodes to the float it came from. *)

Module Encoder.

Definition quote : string := String "034"%char EmptyString.
Definition newline : string := String "010"%char EmptyString.

Definition decimal (z : Z) : string := NilZero.string_of_int (Z.to_int z).

Definition hex_digit (n : N) : ascii :=
  ascii_of_N (if (n <? 10)%N then 48 + n else 87 + n)%N.

Definition escape_char (c : ascii) : string :=
  let n := N_of_ascii c in
  match n with
  | 34%N => "\" ++ quote
  | 92%N => "\\"
  | 8%N => "\b"
  | 12%N => "\f"
  | 10%N => "\n"
  | 13%N => "\r"
  | 9%N => "\t"
  | _ =>
      if ((n <? 32) || (126 <? n))%N
      then "\u00" ++ String (hex_digit (n / 16)) (String (hex_digit (n mod 16)) "")
      else String c ""
  end.

Fixpoint escape_string (s : string) : string :=
  match s with
  | EmptyString => ""
  | String c s' => escape_char c ++ escape_string s'
  end.

Definition string_text (s : string) : string :=
  quote ++ escape_string s ++ quote.

Fixpoint repeat_string (s : string) (n : nat) : string :=
  match n with
  | O => ""
  | S n' => s ++ repeat_string s n'
  end.

(** The digits of [frac / 2^k] after the decimal point, all [k] of them. *)
Definition fraction_digits (frac : Z) (k : Z) : string :=
  let t := decimal (frac * 5 ^ k) in
  repeat_string "0" (Z.to_nat k - String.length t) ++ t.

Definition float_text (f : float) : string :=
  match f with
  | S754_nan => "NaN"
  | S754_infinity s => if s then "-Infinity" else "Infinity"
  | S754_zero s => if s then "-0.0" else "0.0"
  | S754_finite s m e =>
      (if s then "-" else "")
      ++ (if 0 <=? e then decimal (Zpos m * 2 ^ e) ++ ".0"
          else decimal (Zpos m / 2 ^ (- e)) ++ "."
               ++ fraction_digits (Zpos m mod 2 ^ (- e)) (- e))
  end.

Definition break_line (indent : option nat) (level : nat) : string :=
  match indent with
  | Some n => newline ++ repeat_string " " (n * level)
  | None => ""
  end.

Definition item_separator (indent : option nat) : string :=
  match indent with
  | Some _ => ","
  | None => ", "
  end.

Definition bracket (indent : option nat) (level : nat)
    (opening closing : string) (items : list string) : string :=
  match items with
  | [] => opening ++ closing
  | _ :: _ =>
      opening ++ break_line indent (S level)
      ++ String.concat (item_separator indent ++ break_line indent (S level))
                       items
      ++ break_line indent level ++ closing
  end.

Fixpoint dumps_at (indent : option nat) (level : nat) (v : json)
  : string :=
  match v with
  | JNull => "null"
  | JBool b => if b then "true" else "false"
  | JInt z => decimal z
  | JFloat f => float_text f
  | JStr s => string_text s
  | JList l =>
      bracket indent level "[" "]"
        ((fix each (l : list json) : list string :=
            match l with
            | [] => []
            | x :: l' => dumps_at indent (S level) x :: each l'
            end) l)
  | JDict d =>
      bracket indent level "{" "}"
        ((fix each (d : list (string * json)) : list string :=
            match d with
            | [] => []
            | (k, x) :: d' =>
                (string_text k ++ ": " ++ dumps_at indent (S level) x)
                :: each d'
            end) d)
  end.

Definition dumps (v : json) : string := dumps_at None 0 v.

Definition dumps_indent (n : nat) (v : json) : string :=
  dumps_at (Some n) 0 v.

End Encoder.

(** ** String methods *)

(** [html.escape(s)] (with [quote=True]): the five replacements, which
    never overlap once [&] is replaced first. *)
Definition html_escape_char (c : ascii) : string :=
  match c with
  | "&"%char => "&amp;"
  | "<"%char => "&lt;"
  | ">"%char => "&gt;"
  | "034"%char => "&quot;"
  | "'"%char => "&#x27;"
  | _ => String c EmptyString
  end.

Fixpoint html_escape (s : string) : string :=
  match s with
  | EmptyString => EmptyString
  | String c s' => html_escape_char c ++ html_escape s'
  end.

(** [html.escape(v)] calls [v.replace], which only a string has. *)
Definition py_html_escape (v : json) : result string :=
  match v with
  | JStr s => Ok (html_escape s)
  | _ => Raise AttributeError
  end.

(** Text is a string of 8-bit characters read as code points 0-255.
    Python's whitespace among them. *)
Definition is_space (c : ascii) : bool :=
  let n := N_of_ascii c in
  ((9 <=? n) && (n <=? 13) || (28 <=? n) && (n <=? 32)
   || (n =? 133) || (n =? 160))%N.

Fixpoint lstrip (s : string) : string :=
  match s with
  | String c s' => if is_space c then lstrip s' else s
  | EmptyString => EmptyString
  end.

Fixpoint rstrip (s : string) : string :=
  match s with
  | EmptyString => EmptyString
  | String c s' =>
      match rstrip s' with
      | EmptyString => if is_space c then EmptyString
                       else String c EmptyString
      | t => String c t
      end
  end.

(** [s.strip()] *)
Definition strip (s : string) : string := rstrip (lstrip s).

Definition lower_char (c : ascii) : ascii :=
  let n := N_of_ascii c in
  if ((65 <=? n) && (n <=? 90)
      || (192 <=? n) && (n <=? 222) && negb (n =? 215))%N
  then ascii_of_N (n + 32)
  else c.

(** [s.lower()] *)
Fixpoint lower (s : string) : string :=
  match s with
  | EmptyString => EmptyString
  | String c s' => String (lower_char c) (lower s')
  end.

(** [s.replace(" ", "-")] *)
Fixpoint spaces_to_dashes (s : string) : string :=
  match s with
  | EmptyString => EmptyString
  | String c s' =>
      String (if Ascii.eqb c " " then "-"%char else c) (spaces_to_dashes s')
  end.

Definition as_text (v : json) : result string :=
  match v with
  | JStr s => Ok s
  | _ => Raise AttributeError
  end.

(** The loop over the content blocks of a model response, which both
    [generate_roi_brief] (lines 91-93) and [analyze_and_notify] (lines
    125-127) run: the text blocks, concatenated. *)
Fixpoint text_of_blocks (blocks : list json) (acc : string)
  : result string :=
  match blocks with
  | [] => Ok acc
  | block :: rest =>
      do ty <- py_get block "type" JNull;
      if py_eq ty (JStr "text")
      then
        do t <- py_get block "text" (JStr "");
        match t with
        | JStr s => text_of_blocks rest (acc ++ s)
        | _ => Raise TypeError
        end
      else text_of_blocks rest acc
  end.

(** ** generate_roi_brief: [handler] *)

Module GenerateRoiBrief.
Section Handler.
Context {BI : Builtins} {SV : Services}.

(** Lines 17-21. *)
Definition unwrap_features (event : json) : result json :=
  do f <- py_get event "features" JNull;
  let features_input := py_or f (JDict []) in
  if is_dict features_input
  then
    do wrapped <- py_in "Payload" features_input;
    if wrapped then py_index features_input "Payload"
    else Ok features_input
  else Ok features_input.

(** The event [rest] with [features] set to [v]. *)
Definition with_features (rest : list (string * json)) (v : json) : json :=
  JDict (dict_set "features" v rest).

(** [event.get(key, {}) or {}] *)
Definition config (event : json) (key : string) : result json :=
  do c <- py_get event key (JDict []);
  Ok (py_or c (JDict [])).

Definition system_prompt : string :=
  "You are a Solutions Consultant at a B2B SaaS company like Highspot. Your task is to produce an ROI brief for a sales team. "
  ++ "Your response MUST be a single, valid JSON object and nothing else. Do not include any text, preamble, or explanation before or after the JSON object. "
  ++ "The JSON object must contain two top-level keys: 'json_data' and 'html_summary'.".

Definition user_prompt_content (features : json) : string :=
  "
Here is the financial data for the target account:
" ++ json_dumps_indent features ++ "

Based on this data, generate the ROI brief.
The 'json_data' object should contain fields like: account_name, fiscal_year, key_pain_points (a list of strings), value_hypothesis (a string), and next_best_action (a string).
The 'html_summary' should be a clean, professional HTML email body for the sales team.
".

(** Lines 51-61: the canned output of simulation mode. *)
Definition simulated_output (features : json) : result json :=
  do account_name <- py_get features "company_name" (JStr "unknown");
  do fiscal_year <- py_get features "fiscal_year" JNull;
  do name <- py_get features "company_name" (JStr "unknown");
  do escaped <- py_html_escape name;
  Ok (JDict
    [("json_data",
      JDict
        [("account_name", account_name);
         ("fiscal_year", fiscal_year);
         ("key_pain_points",
          JList [JStr "Unclear sales enablement content";
                 JStr "Long rep ramp time"]);
         ("value_hypothesis",
          JStr "Reduce ramp time and improve win-rate by improving content findability and guided plays.");
         ("next_best_action", JStr "Run a 30-day pilot with 3 sales teams.")]);
     ("html_summary",
      JStr ("<html><body><h1>Simulated ROI Brief: " ++ escaped ++ "</h1>"
            ++ "<p>Key hypothesis and actions.</p></body></html>"))]).

(** Lines 85-96.  [list(response_body.keys())] in the log line needs a
    [dict]. *)
Definition reply_text (response_body : json) : result string :=
  if is_dict response_body
  then
    do has_content <- py_in "content" response_body;
    if has_content
    then
      do content <- py_index response_body "content";
      match content with
      | JList blocks => text_of_blocks blocks ""
      | _ => Ok (json_dumps response_body)
      end
    else Ok (json_dumps response_body)
  else Raise AttributeError.

Definition fallback_document (llm_output_str : string) : string :=
  "<html><body><h1>LLM output (non-JSON)</h1><pre>"
  ++ html_escape llm_output_str ++ "</pre></body></html>".

(** Lines 100-108: the value bound to [llm_output].  Only
    [json.JSONDecodeError] is caught; any other exception of the decoder
    leaves the handler. *)
Definition parse_model_output (llm_output_str : string) : result json :=
  match json_loads (strip llm_output_str) with
  | Ok v => Ok v
  | Raise JSONDecodeError =>
      Ok (JDict [("json_data", JDict []);
                 ("html_summary", JStr (fallback_document llm_output_str))])
  | Raise e => Raise e
  end.

(** The two fields of the brief as lines 118-119 read them from
    [llm_output]: the structured data and the display document. *)
Definition brief_output (llm_output : json) : result (json * string) :=
  do html <- py_get llm_output "html_summary" (JStr "");
  do document <- as_text html;
  do data <- py_get llm_output "json_data" (JDict []);
  Ok (data, document).

(** Lines 65-98: the model call.  [bedrock_invoke_model] answers with the
    decoded body of the response. *)
Definition invoke_bedrock (bedrock_cfg features : json) : M call string :=
  run model_id <-
    lift (py_get bedrock_cfg "model_id"
            (JStr "anthropic.claude-3-sonnet-20240229-v1:0"));
  run region <-
    lift (py_get bedrock_cfg "region"
            (JStr (match getenv "AWS_REGION" with
                   | Some r => r
                   | None => "us-west-2"
                   end)));
  run _ <- ext (BedrockClient region) (bedrock_client region);
  run mt <- lift (py_get bedrock_cfg "max_tokens" (JInt 1500));
  run max_tokens <- lift (py_int mt);
  run t <- lift (py_get bedrock_cfg "temperature" (JFloat (float_lit 3 10)));
  run temperature <- lift (py_float t);
  let body :=
    JDict
      [("anthropic_version", JStr "bedrock-2023-05-31");
       ("system", JStr system_prompt);
       ("messages",
        JList [JDict [("role", JStr "user");
                      ("content",
                       JList [JDict [("type", JStr "text");
                                     ("text",
                                      JStr (user_prompt_content features))]])]]);
       ("max_tokens", max_tokens);
       ("temperature", temperature)] in
  run response_body <-
    ext (BedrockInvokeModel region model_id body)
        (bedrock_invoke_model region model_id body);
  lift (reply_text response_body).

(** Lines 49-108. *)
Definition build_llm_output (bedrock_cfg features : json)
    (simulate_bedrock : bool) : M call json :=
  if simulate_bedrock
  then lift (simulated_output features)
  else
    run llm_output_str <- invoke_bedrock bedrock_cfg features;
    lift (parse_model_output llm_output_str).

(** Lines 111-119, from the creation of the S3 client on. *)
Definition save_artifacts (features llm_output : json) : M call unit :=
  run _ <- ext S3Client s3_client;
  run cn <- lift (py_get features "company_name" (JStr "unknown"));
  run cn_text <- lift (as_text cn);
  let company_name := spaces_to_dashes (lower cn_text) in
  let today_str := utc_today in
  let s3_key_html := today_str ++ "/" ++ company_name ++ "-brief.html" in
  let s3_key_json := today_str ++ "/" ++ company_name ++ "-data.json" in
  run html <- lift (py_get llm_output "html_summary" (JStr ""));
  run html_body <- lift (as_text html);
  run _ <- ext (S3PutObject output_bucket s3_key_html html_body "text/html")
               (s3_put_object output_bucket s3_key_html html_body
                              "text/html");
  run data <- lift (py_get llm_output "json_data" (JDict []));
  let json_body := json_dumps_indent data in
  ext (S3PutObject output_bucket s3_key_json json_body "application/json")
      (s3_put_object output_bucket s3_key_json json_body "application/json").

(** Lines 123-139. *)
Definition send_notification (features ses_cfg llm_output : json)
  : M call unit :=
  run sender <- lift (py_get ses_cfg "sender" JNull);
  run recipient <- lift (py_get ses_cfg "recipient" JNull);
  run cn <- lift (py_get features "company_name" (JStr "N/A"));
  let subject := "Account ROI Brief: " ++ py_format cn in
  if negb (truthy sender) || negb (truthy recipient)
  then mraise (ValueError "SES sender or recipient missing")
  else
    run _ <- ext (SesClient None) (ses_client None);
    run html <- lift (py_get llm_output "html_summary"
                        (JStr "<p>Error generating HTML.</p>"));
    run _ <- ext (SesSendEmail sender recipient (JStr subject) html)
                 (ses_send_email sender recipient (JStr subject) html);
    mret tt.

Definition handler (event : json) : M call json :=
  run features <- lift (unwrap_features event);
  run bedrock_cfg <- lift (config event "bedrock");
  run ses_cfg <- lift (config event "ses");
  if negb (truthy features)
  then mraise (ValueError "Features data is missing")
  else
    run simulate <- lift (py_get bedrock_cfg "simulate" (JBool false));
    let simulate_bedrock := truthy simulate in
    run llm_output <- build_llm_output bedrock_cfg features simulate_bedrock;
    run _ <- save_artifacts features llm_output;
    run _ <- send_notification features ses_cfg llm_output;
    mret (JDict
      [("status", JStr "success");
       ("s3_path",
        JStr ("s3://" ++ output_bucket ++ "/" ++ utc_today ++ "/"))]).

(** The value of line 141. *)
Definition success_value : json :=
  JDict [("status", JStr "success");
         ("s3_path",
          JStr ("s3://" ++ output_bucket ++ "/" ++ utc_today ++ "/"))].

(** Whether the event asks for simulation mode (lines 23 and 30). *)
Definition simulation_enabled (event : json) : result bool :=
  do bedrock_cfg <- config event "bedrock";
  do simulate <- py_get bedrock_cfg "simulate" (JBool false);
  Ok (truthy simulate).

End Handler.
End GenerateRoiBrief.

Definition is_model_call (c : call) : bool :=
  match c with
  | BedrockClient _ | BedrockInvokeModel _ _ _ => true
  | _ => false
  end.

(** The calls that deliver a brief, in the order the handler makes them:
    the S3 client is created, the document is stored, the data is stored,
    the email client is created, the email is sent.  [delivery_shape]
    accepts every initial part of that sequence. *)
Definition delivery_shape (t : list call) : bool :=
  match t with
  | [] => true
  | [S3Client] => true
  | [S3Client; S3PutObject _ _ _ _] => true
  | [S3Client; S3PutObject _ _ _ _; S3PutObject _ _ _ _] => true
  | [S3Client; S3PutObject _ _ _ _; S3PutObject _ _ _ _; SesClient _] => true
  | [S3Client; S3PutObject _ _ _ _; S3PutObject _ _ _ _; SesClient _;
     SesSendEmail _ _ _ _] => true
  | _ => false
  end.

(** What a content block of a model response contributes to the reply:
    the text of a text block ([""] when it has no [text] field), nothing
    for a block of another type. *)
Inductive block_says : json -> option string -> Prop :=
| says_text (d : list (string * json)) (ty : json) (s : string) :
    dict_lookup "type" d = Some ty ->
    py_eq ty (JStr "text") = true ->
    dict_lookup "text" d = Some (JStr s) ->
    block_says (JDict d) (Some s)
| says_empty (d : list (string * json)) (ty : json) :
    dict_lookup "type" d = Some ty ->
    py_eq ty (JStr "text") = true ->
    dict_lookup "text" d = None ->
    block_says (JDict d) (Some "")
| says_nothing (d : list (string * json)) (ty : json) :
    py_get (JDict d) "type" JNull = Ok ty ->
    py_eq ty (JStr "text") = false ->
    block_says (JDict d) None.

Fixpoint said (segments : list (option string)) : string :=
  match segments with
  | [] => ""
  | Some s :: rest => s ++ said rest
  | None :: rest => said rest
  end.

(** The characters [html.escape] replaces. *)
Definition is_markup_char (c : ascii) : bool :=
  match c with
  | "&"%char | "<"%char | ">"%char | "034"%char | "'"%char => true
  | _ => false
  end.

(** Reading escaped text back: each of the five entities stands for its
    character, any other character for itself. *)
Fixpoint html_unescape (s : string) : string :=
  match s with
  | String "&" (String "a" (String "m" (String "p" (String ";" rest)))) =>
      String "&" (html_unescape rest)
  | String "&" (String "l" (String "t" (String ";" rest))) =>
      String "<" (html_unescape rest)
  | String "&" (String "g" (String "t" (String ";" rest))) =>
      String ">" (html_unescape rest)
  | String "&" (String "q" (String "u" (String "o" (String "t"
      (String ";" rest))))) =>
      String "034" (html_unescape rest)
  | String "&" (String "#" (String "x" (String "2" (String "7"
      (String ";" rest))))) =>
      String "'" (html_unescape rest)
  | String c rest => String c (html_unescape rest)
  | EmptyString => EmptyString
  end.

(** A computation that never talks to the generative model. *)
Definition offline {A} (m : M call A) : Prop :=
  forall c, In c (calls m) -> is_model_call c = false.

(** ** analyze_and_notify: [handler] *)

Module AnalyzeAndNotify.
Section Handler.
Context {BI : Builtins} {SV : Services}.

(** [_client(service, region)]: an empty region means the default client. *)
Definition client_region (region : json) : json :=
  if truthy region then region else JNull.

(** [len(v)] and [v[:500]], evaluated for the log lines 55-56.  A [dict]
    has a length but cannot be sliced ([TypeError]; [KeyError] from
    CPython 3.12 on). *)
Definition check_len (v : json) : result unit :=
  match v with
  | JStr _ | JList _ | JDict _ => Ok tt
  | _ => Raise TypeError
  end.

Definition check_slice (v : json) : result unit :=
  match v with
  | JStr _ | JList _ => Ok tt
  | _ => Raise TypeError
  end.

(** [v += s] for a string [s]: concatenation on a [str], extension by the
    characters on a [list]. *)
Definition iadd_text (v : json) (s : string) : result json :=
  match v with
  | JStr t => Ok (JStr (t ++ s))
  | JList l => Ok (JList (l ++ chars s))
  | _ => Raise TypeError
  end.

Definition test_content : string :=
  "

##### SOURCE 1
URL: https://example.com
----- BEGIN CONTENT -----
This is test content for pipeline testing.
----- END CONTENT -----
".

(** The two error values the handler returns (lines 61 and 154). *)
Definition no_content : json :=
  JDict [("error", JStr "No aggregated content to analyze")].

Definition no_contact : json :=
  JDict [("error", JStr "SES sender or recipient missing")].

(** The event's aggregated data (lines 36 and 45-49): what is under
    [aggregated], with one [Payload] envelope removed. *)
Definition aggregated_data (event : json) : result json :=
  do a <- py_get event "aggregated" JNull;
  let agg := py_or a (JDict []) in
  if is_dict agg
  then
    do wrapped <- py_in "Payload" agg;
    if wrapped then py_index agg "Payload" else Ok agg
  else Raise AttributeError.

(** Lines 69-74. *)
Definition resolve_region (bedrock_cfg : json) : result json :=
  do r <- py_get bedrock_cfg "region" JNull;
  let bedrock_region :=
    if truthy r then r
    else JStr (match getenv "BEDROCK_REGION" with
               | Some x => x
               | None => "us-west-2"
               end) in
  do unresolved <-
    (if py_eq bedrock_region (JStr "${AWS::Region}") then Ok true
     else match bedrock_region with
          | JStr s => Ok (String.prefix "${" s)
          | _ => Raise AttributeError
          end);
  Ok (if unresolved then JStr "us-west-2" else bedrock_region).

Definition system_prompt : string :=
  "You are a senior research analyst. Write a crisp HTML email with:
- Title with today's date
- Executive summary in 5 to 8 bullets
- Sections grouped by domain or topic
- A short 'What to watch next' list
Avoid hallucinations. If a claim is uncertain, mark it as unconfirmed.
Use semantic <h2>, <h3>, <ul>, <li>, <p>, <table> when useful.".

(** Lines 123-129. *)
Definition response_text (resp : json) : result string :=
  if is_dict resp
  then
    do has_content <- py_in "content" resp;
    do llm_text <-
      (if has_content
       then
         do content <- py_index resp "content";
         match content with
         | JList (b :: bs) => text_of_blocks (b :: bs) ""
         | _ => Ok ""
         end
       else Ok "");
    Ok (if String.eqb llm_text "" then "<p>No response text produced.</p>"
        else llm_text)
  else Raise AttributeError.

(** Lines 135-141. *)
Definition html_body_of (llm_text : string) : string :=
  if str_contains "<html" (lower llm_text) then llm_text
  else "<html><body>
<h1>Daily Web Intel - " ++ utc_today ++ "</h1>
" ++ llm_text ++ "
</body></html>".

Definition handler (event : json) : M call json :=
  run a <- lift (py_get event "aggregated" JNull);
  let agg := py_or a (JDict []) in
  run b <- lift (py_get event "bedrock" JNull);
  let bedrock_cfg := py_or b (JDict []) in
  run s <- lift (py_get event "ses" JNull);
  let ses_cfg := py_or s (JDict []) in
  if negb (is_dict agg) then mraise AttributeError
  else
    run wrapped <- lift (py_in "Payload" agg);
    run agg_data <- lift (if wrapped then py_index agg "Payload" else Ok agg);
    run prompt_context <- lift (py_get agg_data "prompt_context" (JStr ""));
    run source_count <- lift (py_get agg_data "source_count" (JInt 0));
    run _ <- lift (check_len prompt_context);
    run _ <- lift (check_slice prompt_context);
    if negb (truthy prompt_context)
    then mret (JDict [("error", JStr "No aggregated content to analyze")])
    else
      run prompt_context <-
        lift (if py_eq source_count (JInt 0)
              then iadd_text prompt_context test_content
              else Ok prompt_context);
      run bedrock_region <- lift (resolve_region bedrock_cfg);
      run m <- lift (py_get bedrock_cfg "model_id" JNull);
      let model_id :=
        py_or m (JStr "anthropic.claude-3-sonnet-20240229-v1:0") in
      run mt <- lift (py_get bedrock_cfg "max_tokens" (JInt 2000));
      run max_tokens <- lift (py_int mt);
      run t <- lift (py_get bedrock_cfg "temperature"
                       (JFloat (float_lit 2 10)));
      run temperature <- lift (py_float t);
      run _ <- ext (BedrockClient (client_region bedrock_region))
                   (bedrock_client (client_region bedrock_region));
      let body :=
        JDict
          [("anthropic_version", JStr "bedrock-2023-05-31");
           ("system", JStr system_prompt);
           ("messages",
            JList [JDict [("role", JStr "user");
                          ("content",
                           JList [JDict [("type", JStr "text");
                                         ("text", prompt_context)]])]]);
           ("max_tokens", max_tokens);
           ("temperature", temperature)] in
      run resp <-
        ext (BedrockInvokeModel (client_region bedrock_region) model_id body)
            (bedrock_invoke_model (client_region bedrock_region) model_id
                                  body);
      run llm_text <- lift (response_text resp);
      let html_body := html_body_of llm_text in
      run sender <- lift (py_get ses_cfg "sender" JNull);
      run recipient <- lift (py_get ses_cfg "recipient" JNull);
      run subject <- lift (py_get ses_cfg "subject" (JStr "Daily Web Intel"));
      if negb (truthy sender) || negb (truthy recipient)
      then mret (JDict [("error", JStr "SES sender or recipient missing")])
      else
        let ses_region :=
          match getenv "SES_REGION" with
          | Some r => if String.eqb r "" then None else Some r
          | None => None
          end in
        run _ <- ext (SesClient ses_region) (ses_client ses_region);
        run ses_response <-
          ext (SesSendEmail sender recipient subject (JStr html_body))
              (ses_send_email sender recipient subject (JStr html_body));
        run message_id <- lift (py_get ses_response "MessageId" JNull);
        mret (JDict
          [("status", JStr "sent");
           ("recipient", recipient);
           ("subject", subject);
           ("model", model_id);
           ("message_id", message_id)]).

End Handler.
End AnalyzeAndNotify.

(** ** fetch_edgar_data

    The stage talks to the data source over HTTP and to the bucket; the
    bodies it moves are byte strings. *)

Fixpoint zeros (n : nat) : string :=
  match n with
  | O => EmptyString
  | S n' => String "0" (zeros n')
  end.

(** [s.zfill(width)]: zeros on the left up to [width] characters, put
    after a leading sign. *)
Definition zfill (width : nat) (s : string) : string :=
  let fill := zeros (width - String.length s) in
  match s with
  | String c rest =>
      if Ascii.eqb c "+" || Ascii.eqb c "-" then String c (fill ++ rest)
      else fill ++ s
  | EmptyString => fill
  end.

Inductive fetch_call : Type :=
| HttpGet (url : string)
| PutObject (bucket key body : string).

(** [http_get] is [_http_get] (lines 13-18): the body of the response, or
    the exception [urlopen] raised.  [put_object] is [s3.put_object] with
    [Bucket], [Key] and [Body]. *)
Class Fetcher : Type := {
  http_get : string -> result string;
  put_object : string -> string -> string -> result unit;
  OUTPUT_BUCKET : string
}.

Module FetchEdgarData.
Section Handler.
Context {BI : Builtins} {FE : Fetcher}.

(** Lines 33-34, 40 and 45. *)
Definition facts_url (cik_padded : string) : string :=
  "https://data.sec.gov/api/xbrl/companyfacts/CIK" ++ cik_padded ++ ".json".

Definition submissions_url (cik_padded : string) : string :=
  "https://data.sec.gov/submissions/CIK" ++ cik_padded ++ ".json".

Definition facts_key (cik : json) : string :=
  "intermediate/" ++ py_format cik ++ "-facts.json".

Definition submissions_key (cik : json) : string :=
  "intermediate/" ++ py_format cik ++ "-submissions.json".

(** Lines 49-56: the claim check. *)
Definition claim_check (cik : json) : json :=
  JDict [("status", JStr "success");
         ("cik", cik);
         ("s3_references",
          JDict [("facts_key", JStr (facts_key cik));
                 ("submissions_key", JStr (submissions_key cik))])].

(** The handler.  [except Exception as e: ... raise e] hands on the
    exception it caught. *)
Definition handler (event : json) : M fetch_call json :=
  run account <- lift (py_get event "account" (JDict []));
  run cik <- lift (py_get account "cik" JNull);
  if negb (truthy cik)
  then mraise (ValueError "Missing 'cik' in account object")
  else
    let cik_padded := zfill 10 (py_format cik) in
    run facts_content_bytes <-
      ext (HttpGet (facts_url cik_padded)) (http_get (facts_url cik_padded));
    run _ <-
      ext (PutObject OUTPUT_BUCKET (facts_key cik) facts_content_bytes)
          (put_object OUTPUT_BUCKET (facts_key cik) facts_content_bytes);
    run submissions_content_bytes <-
      ext (HttpGet (submissions_url cik_padded))
          (http_get (submissions_url cik_padded));
    run _ <-
      ext (PutObject OUTPUT_BUCKET (submissions_key cik)
             submissions_content_bytes)
          (put_object OUTPUT_BUCKET (submissions_key cik)
             submissions_content_bytes);
    mret (claim_check cik).

End Handler.
End FetchEdgarData.

(** ** A runtime for the examples

    Stand-ins for the library functions and for the three services, to
    run the handlers on concrete events.  The statements that quantify
    over [Builtins] and [Services] do not depend on them. *)

Module Example.

(** [int(v)]; of the text forms only plain decimal digits with an
    optional sign are read. *)
Definition int_of_text (s : string) : result json :=
  let t := list_ascii_of_string (strip s) in
  let '(neg, t1) :=
    match t with
    | "-"%char :: r => (true, r)
    | "+"%char :: r => (false, r)
    | _ => (false, t)
    end in
  match Decoder.digits t1 0 0 with
  | (v, len, []) =>
      if len =? 0 then Raise (ValueError "invalid literal for int()")
      else Ok (JInt (if neg then - v else v))
  | _ => Raise (ValueError "invalid literal for int()")
  end.

Definition int_of (v : json) : result json :=
  match v with
  | JInt z => Ok (JInt z)
  | JBool b => Ok (JInt (if b then 1 else 0))
  | JFloat S754_nan =>
      Raise (ValueError "cannot convert float NaN to integer")
  | JFloat (S754_infinity _) => Raise OverflowError
  | JFloat (S754_zero _) => Ok (JInt 0)
  | JFloat (S754_finite s m e) =>
      let a := if 0 <=? e then Zpos m * 2 ^ e else Zpos m / 2 ^ (- e) in
      Ok (JInt (if s then - a else a))
  | JStr s => int_of_text s
  | _ => Raise TypeError
  end.

(** [float(v)]; of the text forms only JSON number syntax is read. *)
Definition float_of (v : json) : result json :=
  match v with
  | JInt z => do f <- float_of_int z; Ok (JFloat f)
  | JBool b => Ok (JFloat (if b then float_lit 1 1 else S754_zero false))
  | JFloat f => Ok (JFloat f)
  | JStr s =>
      match Decoder.number (list_ascii_of_string (strip s)) with
      | Some (JInt z, []) => do f <- float_of_int z; Ok (JFloat f)
      | Some (JFloat f, []) => Ok (JFloat f)
      | _ => Raise (ValueError "could not convert string to float")
      end
  | _ => Raise TypeError
  end.

(** A value inside an f-string.  Containers are written as JSON text
    (Python writes their [repr]). *)
Definition format_value (v : json) : string :=
  match v with
  | JNull => "None"
  | JBool b => if b then "True" else "False"
  | JInt z => Encoder.decimal z
  | JFloat f => Encoder.float_text f
  | JStr s => s
  | _ => Encoder.dumps v
  end.

#[export] Instance builtins : Builtins :=
  {| json_loads := fun text =>
       match Decoder.loads text with
       | Some v => Ok v
       | None => Raise JSONDecodeError
       end;
     json_dumps := Encoder.dumps;
     json_dumps_indent := Encoder.dumps_indent 2;
     py_format := format_value;
     py_int := int_of;
     py_float := float_of |}.

Fixpoint object_body (key : string) (objects : list (string * string))
  : option string :=
  match objects with
  | [] => None
  | (k, body) :: rest =>
      if String.eqb key k then Some body else object_body key rest
  end.

(** A bucket holding [objects], a model that answers every request with
    [response], an email service that accepts every message. *)
Definition services (objects : list (string * string))
    (response : result json) : Services :=
  {| s3_client := Ok tt;
     s3_get_object := fun _ key =>
       match key with
       | JStr k =>
           match object_body k objects with
           | Some body => Ok body
           | None => Raise (ServiceError "NoSuchKey")
           end
       | _ => Raise (ServiceError "ParamValidationError")
       end;
     s3_put_object := fun _ _ _ _ => Ok tt;
     bedrock_client := fun _ => Ok tt;
     bedrock_invoke_model := fun _ _ _ => response;
     ses_client := fun _ => Ok tt;
     ses_send_email := fun _ _ _ _ =>
       Ok (JDict [("MessageId", JStr "example-message-id")]);
     utc_today := "2024-01-31";
     getenv := fun _ => None;
     output_bucket := "example-bucket" |}.

(** The bucket after the fetch stage stored the scenario's documents. *)
Definition scenario_bucket : list (string * string) :=
  [("intermediate/320193-facts.json", Encoder.dumps scenario_facts);
   ("intermediate/320193-submissions.json",
    Encoder.dumps (JDict [("sicDescription", JStr "Electronic Computers");
                          ("fiscalYearEnd", JStr "0930")]))].

Definition scenario_references : json :=
  JDict [("facts_key", JStr "intermediate/320193-facts.json");
         ("submissions_key", JStr "intermediate/320193-submissions.json")].

(** What the fetch stage returns. *)
Definition claim_check : json :=
  JDict [("status", JStr "success"); ("cik", JInt 320193);
         ("s3_references", scenario_references)].

(** A Bedrock response whose only content block is the text [text]. *)
Definition text_response (text : string) : json :=
  JDict [("content", JList [JDict [("type", JStr "text");
                                   ("text", JStr text)]])].

(** The three handlers in this runtime. *)
Definition build_features (event : json) : M call json :=
  BuildFeatures.handler (TS := strict_timsort) (BI := builtins)
    (SV := services scenario_bucket (Raise (ServiceError "no model")))
    event.

Definition generate_roi_brief (response : json) (event : json)
  : M call json :=
  GenerateRoiBrief.handler (BI := builtins)
    (SV := services scenario_bucket (Ok response)) event.

Definition analyze_and_notify (response : json) (event : json)
  : M call json :=
  AnalyzeAndNotify.handler (BI := builtins)
    (SV := services scenario_bucket (Ok response)) event.

(** A feature record as the build stage produces it, and the sender and
    recipient of the notification. *)
Definition features : json :=
  JDict [("company_name", JStr "Apple Inc."); ("cik", JInt 320193);
         ("fiscal_year", JInt 2023); ("latest_revenue_usd", JInt 100)].

Definition contacts : json :=
  JDict [("sender", JStr "briefs@example.com");
         ("recipient", JStr "sales@example.com")].

(** What Step Functions hands over for a Lambda task: the function's
    result under [Payload], next to the invocation's metadata. *)
Definition invocation_result (payload : json) : list (string * json) :=
  [("ExecutedVersion", JStr "$LATEST"); ("Payload", payload);
   ("StatusCode", JInt 200)].

Definition account : list (string * json) :=
  [("name", JStr "Apple Inc.")].

(** The event the state machine passes on: the fetch stage's invocation
    result under [edgar_data]; and the same payload without the envelope. *)
Definition wrapped_event : json :=
  BuildFeatures.with_edgar_data account
    (JDict (invocation_result claim_check)).

Definition direct_event : json :=
  BuildFeatures.with_edgar_data account claim_check.

(** A request for the brief in simulation mode, for a feature record
    without a company name. *)
Definition simulation_event : json :=
  JDict [("features", JDict [("fiscal_year", JInt 2023)]);
         ("bedrock", JDict [("simulate", JBool true)]);
         ("ses", contacts)].

Definition aggregated : json :=
  JDict [("source_count", JInt 3);
         ("prompt_context", JStr "##### SOURCE 1 ...")].

End Example.

(** The fetch stage in a runtime: a data source that serves [pages] and
    answers any other address with an HTTP error, and a bucket that
    accepts every object. *)
Module FetchExample.

Definition fetcher (pages : list (string * string)) : Fetcher :=
  {| http_get := fun url =>
       match Example.object_body url pages with
       | Some body => Ok body
       | None => Raise (ServiceError "HTTP Error 404: Not Found")
       end;
     put_object := fun _ _ _ => Ok tt;
     OUTPUT_BUCKET := "example-bucket" |}.

Definition sec_pages : list (string * string) :=
  [("https://data.sec.gov/api/xbrl/companyfacts/CIK0000320193.json",
    Encoder.dumps scenario_facts);
   ("https://data.sec.gov/submissions/CIK0000320193.json",
    Encoder.dumps (JDict [("sicDescription", JStr "Electronic Computers");
                          ("fiscalYearEnd", JStr "0930")]))].

Definition fetch_edgar_data (event : json) : M fetch_call json :=
  FetchEdgarData.handler (BI := Example.builtins) (FE := fetcher sec_pages)
    event.

Definition account_event (cik : json) : json :=
  JDict [("account", JDict [("name", JStr "Apple Inc."); ("cik", cik)])].

End FetchExample.

(** A decoder that gives up on every text with [RecursionError], as
    [json.loads] does on text nested too deeply; the other library
    functions are those of the example runtime. *)
Module GivingUp.

Definition builtins : Builtins :=
  {| json_loads := fun _ => Raise RecursionError;
     json_dumps := Encoder.dumps;
     json_dumps_indent := Encoder.dumps_indent 2;
     py_format := Example.format_value;
     py_int := Example.int_of;
     py_float := Example.float_of |}.

End GivingUp.

(** * Properties *)

(** ** Fallible computations *)

Lemma rbind_ok {A B} (m : result A) (k : A -> result B) (b : B) :
  rbind m k = Ok b -> exists a, m = Ok a /\ k a = Ok b.
Proof.
  destruct m as [a|e]; simpl; intros Hk; [exists a; auto | discriminate].
Qed.

(** Splits a hypothesis [do x <- m; k = Ok b] into its two steps. *)
Ltac bind_inv H :=
  let a := fresh "a" in
  let Ha := fresh "Hstep" in
  apply rbind_ok in H; destruct H as [a [Ha H]].

Lemma try_except_total {A} (body : result A) (d : A) :
  exists a, try_except body (fun _ => Ok d) = Ok a.
Proof. destruct body as [a|e]; simpl; eauto. Qed.

Lemma try_except_ok {A} (body : result A) (d a : A) :
  try_except body (fun _ => Ok d) = Ok a -> body = Ok a \/ a = d.
Proof.
  destruct body as [x|e]; simpl; intros Hx; inversion Hx; auto.
Qed.

Lemma mapM_length {A B} (f : A -> result B) (l : list A) (l' : list B) :
  mapM f l = Ok l' -> List.length l' = List.length l.
Proof.
  revert l'; induction l as [|x xs IH]; simpl; intros l' Hm.
  - inversion Hm; reflexivity.
  - bind_inv Hm. bind_inv Hm. inversion Hm; subst; simpl.
    f_equal; apply IH; assumption.
Qed.

Lemma filterM_incl {A} (p : A -> result bool) (l l' : list A) :
  filterM p l = Ok l' -> incl l' l.
Proof.
  revert l'; induction l as [|x xs IH]; simpl; intros l' Hf.
  - inversion Hf; apply incl_refl.
  - bind_inv Hf. bind_inv Hf. inversion Hf; subst.
    destruct a.
    + apply incl_cons; [left; reflexivity | apply incl_tl, IH; assumption].
    + apply incl_tl, IH; assumption.
Qed.

Lemma filterM_holds {A} (p : A -> result bool) (l l' : list A) :
  filterM p l = Ok l' -> forall x, In x l' -> p x = Ok true.
Proof.
  revert l'; induction l as [|x xs IH]; simpl; intros l' Hf y Hy.
  - inversion Hf; subst; contradiction.
  - bind_inv Hf. bind_inv Hf. inversion Hf; subst.
    destruct a.
    + destruct Hy as [<-|Hy]; [assumption | eapply IH; eauto].
    + eapply IH; eauto.
Qed.

Lemma findM_found {A} (p : A -> result bool) (l : list A) (x : A) :
  findM p l = Ok (Some x) -> In x l /\ p x = Ok true.
Proof.
  induction l as [|y ys IH]; simpl; intros Hf; [discriminate|].
  bind_inv Hf. destruct a.
  - inversion Hf; subst; auto.
  - destruct (IH Hf); auto.
Qed.

Lemma findM_all_false {A} (p : A -> result bool) (l : list A) :
  (forall x, In x l -> p x = Ok false) -> findM p l = Ok None.
Proof.
  induction l as [|y ys IH]; simpl; intros Hall; [reflexivity|].
  rewrite (Hall y (or_introl eq_refl)); simpl.
  apply IH; intros x Hx; apply Hall; right; assumption.
Qed.

(** ** The sort returns a rearrangement *)

Lemma insert_desc_perm (x : keyed) (l : list keyed) :
  Permutation (x :: l) (insert_desc x l).
Proof.
  induction l as [|y ys IH]; simpl; [reflexivity|].
  destruct (key_gtb (fst y) (fst x)); [|reflexivity].
  rewrite perm_swap; constructor; exact IH.
Qed.

Lemma stable_sort_desc_perm (l : list keyed) :
  Permutation l (stable_sort_desc l).
Proof.
  induction l as [|x xs IH]; simpl; [constructor|].
  rewrite <- insert_desc_perm; constructor; exact IH.
Qed.

(** On integer keys, the fiscal years of real filings, the arrangement
    is descending. *)
Lemma key_gtb_int (a b : Z) : key_gtb (JInt a) (JInt b) = (b <? a).
Proof.
  unfold key_gtb, num_gtb; simpl.
  rewrite !Z.mul_1_r, Z.ltb_compare, (Z.compare_antisym a b).
  destruct (a ?= b); reflexivity.
Qed.

Lemma insert_desc_int_key (x : keyed) (l : list keyed) :
  int_key x -> Forall int_key l -> Forall int_key (insert_desc x l).
Proof.
  intros Hx Hl; induction Hl as [|y ys Hy Hys IH]; simpl.
  - constructor; [exact Hx | constructor].
  - destruct (key_gtb (fst y) (fst x)); constructor; auto.
Qed.

Lemma insert_desc_descending (x : keyed) (l : list keyed) :
  int_key x -> Forall int_key l ->
  Sorted.StronglySorted not_before l ->
  Sorted.StronglySorted not_before (insert_desc x l).
Proof.
  intros [zx Hx] Hkeys Hsorted.
  induction Hsorted as [|y ys Hys IH Hall]; simpl.
  - constructor; [constructor | constructor].
  - inversion Hkeys as [|y' ys' [zy Hy] Hkeys']; subst.
    destruct (key_gtb (fst y) (fst x)) eqn:Hgt.
    + constructor; [apply IH; exact Hkeys'|].
      apply (Permutation_Forall (insert_desc_perm x ys)).
      constructor; [|exact Hall].
      unfold not_before; rewrite Hx, Hy, key_gtb_int in *.
      apply Z.ltb_lt in Hgt; apply Z.ltb_ge; lia.
    + constructor; [constructor; assumption|].
      constructor; [exact Hgt|].
      rewrite Forall_forall in *; intros w Hw.
      specialize (Hall w Hw); destruct (Hkeys' w Hw) as [zw Hzw].
      unfold not_before in *; rewrite Hx, Hy, Hzw, !key_gtb_int in *.
      apply Z.ltb_ge in Hgt, Hall; apply Z.ltb_ge; lia.
Qed.

Lemma stable_sort_desc_descending (l : list keyed) :
  Forall int_key l ->
  Forall int_key (stable_sort_desc l)
  /\ Sorted.StronglySorted not_before (stable_sort_desc l).
Proof.
  induction 1 as [|x xs Hx Hxs [IHk IHs]]; simpl.
  - split; constructor.
  - split; [apply insert_desc_int_key | apply insert_desc_descending];
      assumption.
Qed.

Section SortFacts.
Context {TS : Timsort}.

Lemma py_sort_desc_perm (l l' : list keyed) :
  py_sort_desc l = Ok l' -> Permutation l l'.
Proof.
  unfold py_sort_desc.
  destruct l as [|a [|b t]]; intros Hs.
  - inversion Hs; reflexivity.
  - inversion Hs; reflexivity.
  - destruct (_ || _).
    + inversion Hs; apply stable_sort_desc_perm.
    + apply sort_irregular_perm; assumption.
Qed.

Lemma map_snd_combine {A B} (ks : list A) (l : list B) :
  List.length ks = List.length l -> map snd (combine ks l) = l.
Proof.
  revert l; induction ks as [|k ks IH]; intros [|x l]; simpl;
    intros Hlen; try discriminate; try reflexivity.
  f_equal; apply IH; congruence.
Qed.

Lemma sort_by_fy_desc_perm (l l' : list json) :
  sort_by_fy_desc l = Ok l' -> Permutation l l'.
Proof.
  unfold sort_by_fy_desc; intros Hs.
  bind_inv Hs. bind_inv Hs. inversion Hs; subst.
  apply py_sort_desc_perm in Hstep0.
  apply (Permutation_map snd) in Hstep0.
  rewrite map_snd_combine in Hstep0 by (eapply mapM_length; eauto).
  exact Hstep0.
Qed.

End SortFacts.

(** ** [get_latest_fact] *)

Section GetLatestFactFacts.
Context {TS : Timsort}.

Lemma val_and_fy_ok (x v y : json) :
  val_and_fy x = Ok (v, y) -> py_get x "fy" JNull = Ok y.
Proof.
  unfold val_and_fy; intros Hv.
  bind_inv Hv. bind_inv Hv. inversion Hv; subst; assumption.
Qed.

(** With annual observations at hand the body of [get_latest_fact] is
    the annual branch of [select_fact]. *)
Lemma annual_branch (fd : json) (name : string) (fy : json)
    (annual : list json) :
  annual_observations fd name = Ok annual -> annual <> [] ->
  get_latest_fact_body fd name fy =
    (do sorted <- sort_by_fy_desc annual;
     match sorted with
     | [] => Raise IndexError
     | first :: _ =>
         if truthy fy
         then
           do found <- findM (fy_is fy) sorted;
           match found with
           | Some f => if truthy f then val_and_fy f else Ok (JNull, JNull)
           | None => Ok (JNull, JNull)
           end
         else val_and_fy first
     end).
Proof.
  unfold annual_observations, get_latest_fact_body; intros Ha Hne.
  destruct (usd_fact_list fd name) as [[fl|]|e]; simpl in *;
    try discriminate; [|inversion Ha; subst; congruence].
  unfold select_fact.
  destruct (py_iter fl) as [entries|e]; simpl in *; [|discriminate].
  rewrite Ha; simpl.
  destruct annual as [|a rest]; [congruence | reflexivity].
Qed.

(** C3 (as amended): when annual observations exist for the concept and
    the requested fiscal year is truthy (neither [None] nor zero), a result
    other than [(None, None)] carries a fiscal year equal to the requested
    one. *)
Theorem exact_year_lookup_returns_requested_year
    (fd : json) (name : string) (fy : json) (annual : list json)
    (v y : json) :
  annual_observations fd name = Ok annual ->
  annual <> [] ->
  truthy fy = true ->
  get_latest_fact fd name fy = Ok (v, y) ->
  (v, y) <> (JNull, JNull) ->
  py_eq y fy = true.
Proof.
  intros Ha Hne Hfy Hres Hpresent.
  unfold get_latest_fact in Hres.
  apply try_except_ok in Hres; destruct Hres as [Hres|Hres];
    [|congruence].
  rewrite (annual_branch fd name fy annual Ha Hne) in Hres.
  bind_inv Hres.
  destruct a as [|first sorted]; [discriminate|].
  rewrite Hfy in Hres.
  bind_inv Hres.
  destruct a as [f|]; [|congruence].
  destruct (truthy f); [|congruence].
  apply findM_found in Hstep0; destruct Hstep0 as [_ Hmatch].
  apply val_and_fy_ok in Hres.
  unfold fy_is in Hmatch; rewrite Hres in Hmatch; simpl in Hmatch.
  congruence.
Qed.

(** C5 (as amended): when annual observations exist for the concept, the
    requested fiscal year is truthy (neither [None] nor zero) and no annual
    observation has that fiscal year, the result is [(None, None)],
    whatever other years are present. *)
Theorem no_nearest_year_fallback
    (fd : json) (name : string) (fy : json) (annual : list json) :
  annual_observations fd name = Ok annual ->
  annual <> [] ->
  truthy fy = true ->
  (forall f y, In f annual -> py_get f "fy" JNull = Ok y ->
               py_eq y fy = false) ->
  get_latest_fact fd name fy = Ok (JNull, JNull).
Proof.
  intros Ha Hne Hfy Hnone.
  unfold get_latest_fact.
  rewrite (annual_branch fd name fy annual Ha Hne).
  destruct (sort_by_fy_desc annual) as [sorted|e] eqn:Hsort;
    simpl; [|reflexivity].
  destruct sorted as [|first rest]; [reflexivity|].
  rewrite Hfy.
  destruct (findM (fy_is fy) (first :: rest)) as [[f|]|e] eqn:Hfind;
    simpl; try reflexivity.
  exfalso.
  apply findM_found in Hfind; destruct Hfind as [Hin Hmatch].
  apply sort_by_fy_desc_perm in Hsort.
  apply Permutation_sym in Hsort.
  pose proof (Permutation_in _ Hsort Hin) as Hf.
  unfold fy_is in Hmatch.
  destruct (py_get f "fy" JNull) as [y|e] eqn:Hy; simpl in Hmatch;
    [|discriminate].
  rewrite (Hnone f y Hf Hy) in Hmatch; discriminate.
Qed.

Lemma get_latest_fact_returns (fd : json) (name : string) (fy : json) :
  exists v y, get_latest_fact fd name fy = Ok (v, y).
Proof.
  unfold get_latest_fact.
  destruct (try_except_total (get_latest_fact_body fd name fy)
                             (JNull, JNull)) as [[v y] Hvy].
  exists v, y; exact Hvy.
Qed.

(** C6: [get_latest_fact] returns a pair on every input, and the pair is
    [(None, None)] when the concept is not in the US-GAAP taxonomy or
    its units have no USD list. *)
Theorem get_latest_fact_never_raises
    (fd : json) (name : string) (fy : json) :
  (exists v y, get_latest_fact fd name fy = Ok (v, y))
  /\ (forall facts,
        us_gaap_facts fd = Ok facts ->
        py_in name facts = Ok false ->
        get_latest_fact fd name fy = Ok (JNull, JNull))
  /\ (forall facts concept units,
        us_gaap_facts fd = Ok facts ->
        py_in name facts = Ok true ->
        py_index facts name = Ok concept ->
        py_get concept "units" (JDict []) = Ok units ->
        py_in "USD" units = Ok false ->
        get_latest_fact fd name fy = Ok (JNull, JNull)).
Proof.
  split; [|split].
  - apply get_latest_fact_returns.
  - intros facts Hfacts Habsent.
    unfold get_latest_fact, get_latest_fact_body, usd_fact_list.
    rewrite Hfacts; simpl. rewrite Habsent; reflexivity.
  - intros facts concept units Hfacts Hpresent Hconcept Hunits Husd.
    unfold get_latest_fact, get_latest_fact_body, usd_fact_list.
    rewrite Hfacts; simpl. rewrite Hpresent; simpl.
    rewrite Hconcept; simpl. rewrite Hunits; simpl.
    rewrite Husd; reflexivity.
Qed.

(** Without annual observations the body of [get_latest_fact] is the
    fallback branch, whatever year is requested. *)
Lemma fallback_branch (fd : json) (name : string) (fy : json)
    (l : list json) :
  usd_fact_list fd name = Ok (Some (JList l)) ->
  filterM is_annual l = Ok [] ->
  get_latest_fact_body fd name fy =
    (if truthy (JList l)
     then do sorted <- sort_by_fy_desc l;
          match sorted with
          | candidate :: _ => val_and_fy candidate
          | [] => Raise IndexError
          end
     else Ok (JNull, JNull)).
Proof.
  intros Hlist Hnone; unfold get_latest_fact_body.
  rewrite Hlist; simpl. unfold select_fact; simpl py_iter; simpl rbind.
  rewrite Hnone; reflexivity.
Qed.

(** C10: a value can come without its fiscal year.  [get_latest_fact]
    returns the pair read from the observation it selects; when that
    observation holds a value and no [fy] field, the result is the value
    paired with [None].  This is so in the annual branch, where with no
    year requested the selected observation is the first one after
    sorting, and in the fallback branch, where it is the first entry
    after sorting.  The document with one annual observation of value 100
    and no fiscal year is an instance: the lookup returns [(100, None)]. *)
Theorem value_without_fiscal_year :
  (forall fd name fy annual d rest v,
     annual_observations fd name = Ok annual ->
     truthy fy = false ->
     sort_by_fy_desc annual = Ok (JDict d :: rest) ->
     dict_lookup "val" d = Some v ->
     dict_lookup "fy" d = None ->
     get_latest_fact fd name fy = Ok (v, JNull))
  /\ (forall fd name fy l d rest v,
        usd_fact_list fd name = Ok (Some (JList l)) ->
        filterM is_annual l = Ok [] ->
        sort_by_fy_desc l = Ok (JDict d :: rest) ->
        dict_lookup "val" d = Some v ->
        dict_lookup "fy" d = None ->
        get_latest_fact fd name fy = Ok (v, JNull))
  /\ (annual_observations undated_facts "Revenues"
      = Ok [JDict [("val", JInt 100); ("form", JStr "10-K");
                   ("frame", JStr "CY2023")]]
      /\ get_latest_fact undated_facts "Revenues" JNull
         = Ok (JInt 100, JNull)
      /\ JInt 100 <> JNull).
Proof.
  split; [|split].
  - intros fd name fy annual d rest v Ha Hfy Hsort Hval Hno.
    assert (Hne : annual <> []).
    { intros ->; simpl in Hsort; unfold py_sort_desc in Hsort;
        simpl in Hsort; discriminate. }
    unfold get_latest_fact.
    rewrite (annual_branch fd name fy annual Ha Hne), Hsort; simpl rbind.
    rewrite Hfy; unfold val_and_fy, py_get; rewrite Hval, Hno; reflexivity.
  - intros fd name fy l d rest v Hlist Hnone Hsort Hval Hno.
    assert (Hne : l <> []).
    { intros ->; simpl in Hsort; unfold py_sort_desc in Hsort;
        simpl in Hsort; discriminate. }
    unfold get_latest_fact.
    rewrite (fallback_branch fd name fy l Hlist Hnone).
    destruct l as [|x l']; [congruence|].
    simpl truthy; cbv iota. rewrite Hsort; simpl rbind.
    unfold val_and_fy, py_get; rewrite Hval, Hno; reflexivity.
  - split; [reflexivity | split; [reflexivity | discriminate]].
Qed.

End GetLatestFactFacts.

(** ** Handlers: external calls and outcomes *)

Lemma mbind_lift_ok {C A B} (a : A) (k : A -> M C B) :
  mbind (lift (Ok a)) k = k a.
Proof. unfold mbind, lift; destruct (k a); reflexivity. Qed.

Lemma mbind_lift_raise {C A B} (e : exn) (k : A -> M C B) :
  mbind (lift (Raise e)) k = ([], Raise e).
Proof. reflexivity. Qed.

Lemma mbind_lift {C A B} (r : result A) (k : A -> M C B) :
  mbind (lift r) k = match r with Ok a => k a | Raise e => ([], Raise e) end.
Proof. destruct r; [apply mbind_lift_ok | reflexivity]. Qed.

Lemma outcome_mbind {C A B} (m : M C A) (k : A -> M C B) :
  outcome (mbind m k) =
  match outcome m with
  | Ok a => outcome (k a)
  | Raise e => Raise e
  end.
Proof.
  destruct m as [log [a|e]]; simpl; [|reflexivity].
  destruct (k a); reflexivity.
Qed.

Lemma calls_mbind {C A B} (m : M C A) (k : A -> M C B) :
  calls (mbind m k) =
  (calls m ++ match outcome m with
              | Ok a => calls (k a)
              | Raise _ => []
              end)%list.
Proof.
  destruct m as [log [a|e]]; simpl.
  - destruct (k a); reflexivity.
  - rewrite app_nil_r; reflexivity.
Qed.

Lemma outcome_mbind_ok {C A B} (m : M C A) (k : A -> M C B) (b : B) :
  outcome (mbind m k) = Ok b ->
  exists a, outcome m = Ok a /\ outcome (k a) = Ok b.
Proof.
  rewrite outcome_mbind; destruct (outcome m) as [a|e]; intros Hk;
    [exists a; auto | discriminate].
Qed.

(** ** Dictionaries *)

Lemma dict_lookup_set_same (k : string) (v : json)
    (d : list (string * json)) :
  dict_lookup k (dict_set k v d) = Some v.
Proof.
  induction d as [|[k' v'] d IH]; simpl.
  - rewrite String.eqb_refl; reflexivity.
  - destruct (String.eqb k k') eqn:Hk; simpl; rewrite Hk;
      [reflexivity | exact IH].
Qed.

Lemma dict_lookup_set_other (k k' : string) (v : json)
    (d : list (string * json)) :
  k <> k' -> dict_lookup k' (dict_set k v d) = dict_lookup k' d.
Proof.
  intros Hne; induction d as [|[k0 v0] d IH]; simpl.
  - destruct (String.eqb k' k) eqn:Hk; [|reflexivity].
    apply String.eqb_eq in Hk; congruence.
  - destruct (String.eqb k k0) eqn:Hk; simpl.
    + apply String.eqb_eq in Hk; subst k0.
      destruct (String.eqb k' k) eqn:Hk'; [|reflexivity].
      apply String.eqb_eq in Hk'; congruence.
    + rewrite IH; reflexivity.
Qed.

(** ** build_features: KPI derivation *)

Section BuildFeaturesFacts.
Context {TS : Timsort} {BI : Builtins} {SV : Services}.
Import BuildFeatures.

Lemma pct_none (x : option float) : pct x = JNull <-> x = None.
Proof. destruct x; simpl; split; intros Hx; congruence. Qed.

Lemma yoy_growth_absent (latest_revenue prev_revenue : json) :
  prev_revenue = JNull \/ not_strictly_positive prev_revenue ->
  yoy_growth latest_revenue prev_revenue = Ok None.
Proof.
  unfold yoy_growth, not_strictly_positive; intros [->|Hnp].
  - rewrite andb_false_r; reflexivity.
  - destruct (_ && _); [rewrite Hnp|]; reflexivity.
Qed.

Lemma sm_ratio_absent (latest_revenue latest_sm_expense : json) :
  not_strictly_positive latest_revenue ->
  sm_ratio latest_revenue latest_sm_expense = Ok None.
Proof.
  unfold sm_ratio, not_strictly_positive; intros Hnp.
  destruct (_ && _); [rewrite Hnp|]; reflexivity.
Qed.

Lemma yoy_growth_returns (latest_revenue prev_revenue : json) :
  prev_revenue = JNull \/ as_num prev_revenue <> None ->
  exists yoy, yoy_growth latest_revenue prev_revenue = Ok yoy.
Proof.
  unfold yoy_growth, py_gt_int; intros [->|Hnum].
  - rewrite andb_false_r; eauto.
  - destruct (_ && _); [|eauto].
    destruct (as_num prev_revenue) as [x|]; [|congruence]; simpl.
    destruct (num_gtb x (NInt 0)); [|eauto].
    apply try_except_total.
Qed.

Lemma sm_ratio_returns (latest_revenue latest_sm_expense : json) :
  as_num latest_revenue <> None ->
  exists sm, sm_ratio latest_revenue latest_sm_expense = Ok sm.
Proof.
  unfold sm_ratio, py_gt_int; intros Hnum.
  destruct (_ && _); [|eauto].
  destruct (as_num latest_revenue) as [x|]; [|congruence]; simpl.
  destruct (num_gtb x (NInt 0)); [|eauto].
  apply try_except_total.
Qed.

Lemma derive_kpis_ok (fd latest_revenue year : json)
    (yoy sm : option float) :
  derive_kpis fd latest_revenue year = Ok (yoy, sm) ->
  (yoy = None /\ sm = None)
  \/ exists prev_year prev expense,
       py_sub year (JInt 1) = Ok prev_year
       /\ get_latest_fact fd "Revenues" prev_year = Ok prev
       /\ get_latest_fact fd "SalesAndMarketingExpense" year = Ok expense
       /\ yoy_growth latest_revenue (fst prev) = Ok yoy
       /\ sm_ratio latest_revenue (fst expense) = Ok sm.
Proof.
  unfold derive_kpis; intros Hd.
  destruct (_ && _); [|inversion Hd; auto].
  right.
  destruct (py_sub year (JInt 1)) as [prev_year|e] eqn:Hsub; simpl in Hd;
    [|discriminate].
  destruct (get_latest_fact fd "Revenues" prev_year) as [prev|e] eqn:Hprev;
    simpl in Hd; [|discriminate].
  destruct (get_latest_fact fd "SalesAndMarketingExpense" year)
    as [expense|e] eqn:Hexp; simpl in Hd; [|discriminate].
  destruct (yoy_growth latest_revenue (fst prev)) as [g|e] eqn:Hg;
    simpl in Hd; [|discriminate].
  destruct (sm_ratio latest_revenue (fst expense)) as [r|e] eqn:Hr;
    simpl in Hd; [|discriminate].
  inversion Hd; subst.
  exists prev_year, prev, expense; auto.
Qed.

(** C7: the KPI derivation yields no ratio at all when the fiscal year or
    the latest revenue is absent; a returned year-over-year growth is
    absent when the prior-year revenue is absent or not strictly positive;
    a returned expense ratio is absent when the latest revenue is not
    strictly positive; and the derivation does return when year, revenue
    and prior revenue are numbers (or the prior revenue is absent). *)
Theorem kpi_null_propagation (fd latest_revenue year : json) :
  (year = JNull \/ latest_revenue = JNull ->
   derive_kpis fd latest_revenue year = Ok (None, None))
  /\ (forall yoy sm prev_year prev,
        derive_kpis fd latest_revenue year = Ok (yoy, sm) ->
        py_sub year (JInt 1) = Ok prev_year ->
        get_latest_fact fd "Revenues" prev_year = Ok prev ->
        fst prev = JNull \/ not_strictly_positive (fst prev) ->
        yoy = None /\ pct yoy = JNull)
  /\ (forall yoy sm,
        derive_kpis fd latest_revenue year = Ok (yoy, sm) ->
        not_strictly_positive latest_revenue ->
        sm = None /\ pct sm = JNull)
  /\ (forall prev_year prev,
        as_num year <> None ->
        as_num latest_revenue <> None ->
        py_sub year (JInt 1) = Ok prev_year ->
        get_latest_fact fd "Revenues" prev_year = Ok prev ->
        fst prev = JNull \/ as_num (fst prev) <> None ->
        exists yoy sm, derive_kpis fd latest_revenue year = Ok (yoy, sm)).
Proof.
  split; [|split; [|split]].
  - unfold derive_kpis; intros [->| ->]; simpl;
      [|rewrite andb_false_r]; reflexivity.
  - intros yoy sm prev_year prev Hd Hsub Hprev Habsent.
    assert (Hyoy : yoy = None).
    { apply derive_kpis_ok in Hd.
      destruct Hd as [[Hy _]|[py [p [x [Hsub' [Hprev' [_ [Hg _]]]]]]]];
        [assumption|].
      rewrite Hsub in Hsub'; inversion Hsub'; subst py.
      rewrite Hprev in Hprev'; inversion Hprev'; subst p.
      rewrite (yoy_growth_absent latest_revenue (fst prev) Habsent) in Hg.
      congruence. }
    split; [assumption | apply pct_none; assumption].
  - intros yoy sm Hd Hnp.
    assert (Hsm : sm = None).
    { apply derive_kpis_ok in Hd.
      destruct Hd as [[_ Hs]|[py [p [x [_ [_ [_ [_ Hr]]]]]]]]; [assumption|].
      rewrite (sm_ratio_absent latest_revenue (fst x) Hnp) in Hr.
      congruence. }
    split; [assumption | apply pct_none; assumption].
  - intros prev_year prev Hy Hlr Hsub Hprev Hnum.
    unfold derive_kpis.
    destruct (_ && _); [|eauto].
    rewrite Hsub; simpl. rewrite Hprev; simpl.
    destruct (get_latest_fact_returns fd "SalesAndMarketingExpense" year)
      as [v [y Hsm]].
    rewrite Hsm; simpl.
    destruct (yoy_growth_returns latest_revenue (fst prev) Hnum)
      as [yoy Hyoy].
    destruct (sm_ratio_returns latest_revenue v Hlr) as [sm Hsmr].
    rewrite Hyoy, Hsmr; simpl; eauto.
Qed.

(** *** The worked scenario *)

Lemma outcome_ext_bind {C A B} (c : C) (r : result A) (k : A -> M C B) :
  outcome (mbind (ext c r) k) =
  match r with Ok a => outcome (k a) | Raise e => Raise e end.
Proof. rewrite outcome_mbind; reflexivity. Qed.

Lemma scenario_latest_revenue (newest_first : bool) (f1 f2 f3 : string) :
  get_latest_fact (scenario_facts_with newest_first f1 f2 f3) "Revenues" JNull
  = Ok (JInt 100, JInt 2023).
Proof. destruct newest_first; reflexivity. Qed.

Lemma scenario_ratios (newest_first : bool) (f1 f2 f3 : string) :
  derive_kpis (scenario_facts_with newest_first f1 f2 f3)
              (JInt 100) (JInt 2023)
  = Ok (Some (float_lit 1 4), Some (float_lit 1 5)).
Proof. destruct newest_first; vm_compute; reflexivity. Qed.

Lemma scenario_percentages :
  pct (Some (float_lit 1 4)) = JFloat (float_lit 25 1)
  /\ pct (Some (float_lit 1 5)) = JFloat (float_lit 20 1).
Proof.
  split; [vm_compute; reflexivity|].
  do 4 eexists; vm_compute; reflexivity.
Qed.

Lemma outcome_load_json (key : json) (text : string) (v : json) :
  s3_get_object output_bucket key = Ok text ->
  json_loads text = Ok v ->
  forall (B : Type) (k : json -> M call B),
    outcome (mbind (load_json key) k) = outcome (k v).
Proof.
  intros Hget Hloads B k.
  rewrite outcome_mbind; unfold load_json.
  rewrite outcome_ext_bind, Hget; cbv beta iota.
  rewrite Hloads; reflexivity.
Qed.

(** C8: when the stored facts document is the scenario's (annual revenue
    100 for 2023 and 80 for 2022, sales-and-marketing expense 20 for 2023,
    each observation from a 10-K filing and carrying a frame marker), the
    feature record has latest revenue 100, year-over-year growth 25.0 and
    expense ratio 20.0, both percentages rounded to two decimals. *)
Theorem scenario_feature_record
    (event edgar_obj s3_refs facts_key submissions_key : json)
    (facts_text submissions_text : string)
    (submissions : list (string * json))
    (newest_first : bool) (f1 f2 f3 : string) :
  unwrap_edgar event = Ok edgar_obj ->
  s3_references event edgar_obj = Ok s3_refs ->
  storage_keys s3_refs = Ok (facts_key, submissions_key) ->
  s3_get_object output_bucket facts_key = Ok facts_text ->
  json_loads facts_text = Ok (scenario_facts_with newest_first f1 f2 f3) ->
  s3_get_object output_bucket submissions_key = Ok submissions_text ->
  json_loads submissions_text = Ok (JDict submissions) ->
  exists features,
    outcome (handler event) = Ok (JDict features)
    /\ dict_lookup "latest_revenue_usd" features = Some (JInt 100)
    /\ dict_lookup "yoy_revenue_growth_pct" features
       = Some (JFloat (float_lit 25 1))
    /\ dict_lookup "sm_expense_as_pct_revenue" features
       = Some (JFloat (float_lit 20 1)).
Proof.
  intros Hunwrap Hrefs Hkeys Hfacts Hfd Hsubs Hsd.
  destruct event as [| | | | | |ev]; try discriminate.
  destruct edgar_obj as [| | | | | |ed]; try discriminate.
  destruct scenario_percentages as [Hyoy Hsm].
  unfold handler.
  rewrite Hunwrap, mbind_lift_ok, Hrefs, mbind_lift_ok, Hkeys, mbind_lift_ok.
  cbv beta iota delta [fst snd].
  rewrite (outcome_load_json _ _ _ Hfacts Hfd).
  rewrite (outcome_load_json _ _ _ Hsubs Hsd).
  unfold py_get at 1; rewrite mbind_lift_ok.
  match goal with
  | |- context [lift (if ?b then ?x else ?y)] =>
      replace (lift (A := json) (if b then x else y))
        with (lift (call := call)
                (Ok (if b then match dict_lookup "cik" ev with
                               | Some v => v | None => JNull end
                     else match dict_lookup "cik" ed with
                          | Some v => v | None => JNull end)))
        by (destruct b; reflexivity)
  end.
  rewrite mbind_lift_ok.
  unfold py_get at 1; rewrite mbind_lift_ok.
  rewrite scenario_latest_revenue, mbind_lift_ok.
  cbv beta iota delta [fst snd].
  rewrite scenario_ratios, mbind_lift_ok.
  unfold py_get; rewrite !mbind_lift_ok.
  cbv beta iota delta [fst snd].
  rewrite Hyoy, Hsm.
  eexists; split; [reflexivity|].
  repeat split; reflexivity.
Qed.

(** *** The payload normaliser *)

Lemma mbind_ext {C A B} (m : M C A) (k1 k2 : A -> M C B) :
  (forall a, k1 a = k2 a) -> mbind m k1 = mbind m k2.
Proof.
  intros Hk; destruct m as [log [a|e]]; simpl; [rewrite Hk|]; reflexivity.
Qed.

Lemma s3_references_ext (ev1 ev2 edgar_obj : json) :
  (forall d, py_get ev1 "s3_references" d = py_get ev2 "s3_references" d) ->
  s3_references ev1 edgar_obj = s3_references ev2 edgar_obj.
Proof.
  intros Hget; unfold s3_references.
  destruct (py_get edgar_obj "s3_references" JNull) as [r|e]; simpl;
    [|reflexivity].
  destruct (if truthy r then _ else _) as [s|e]; simpl; [|reflexivity].
  destruct (negb (truthy s)); [rewrite Hget|]; reflexivity.
Qed.

(** The handler reads the event through [edgar_data] and three other
    keys only. *)
Lemma handler_ext (ev1 ev2 : json) :
  unwrap_edgar ev1 = unwrap_edgar ev2 ->
  (forall k d, k <> "edgar_data" -> py_get ev1 k d = py_get ev2 k d) ->
  handler ev1 = handler ev2.
Proof.
  intros Hunwrap Hget; unfold handler.
  rewrite Hunwrap.
  apply mbind_ext; intros edgar_obj.
  rewrite (s3_references_ext ev1 ev2)
    by (intros d; apply Hget; discriminate).
  apply mbind_ext; intros s3_refs.
  apply mbind_ext; intros keys.
  apply mbind_ext; intros facts_data.
  apply mbind_ext; intros submissions_data.
  rewrite (Hget "cik" JNull) by discriminate.
  apply mbind_ext; intros c.
  apply mbind_ext; intros cik.
  rewrite (Hget "name" JNull) by discriminate.
  reflexivity.
Qed.

Lemma unwrap_edgar_envelope (rest envelope payload : list (string * json)) :
  dict_lookup "Payload" envelope = Some (JDict payload) ->
  unwrap_edgar (with_edgar_data rest (JDict envelope)) = Ok (JDict payload).
Proof.
  intros Hp; unfold unwrap_edgar, with_edgar_data, py_get.
  rewrite dict_lookup_set_same; simpl.
  assert (Hne : truthy (JDict envelope) = true)
    by (destruct envelope; [discriminate | reflexivity]).
  unfold py_or; rewrite Hne; simpl.
  unfold dict_mem; rewrite Hp; simpl.
  reflexivity.
Qed.

Lemma unwrap_edgar_direct (rest payload : list (string * json)) :
  dict_lookup "Payload" payload = None ->
  unwrap_edgar (with_edgar_data rest (JDict payload)) = Ok (JDict payload).
Proof.
  intros Hp; unfold unwrap_edgar, with_edgar_data, py_get.
  rewrite dict_lookup_set_same; simpl.
  destruct payload as [|kv payload']; [reflexivity|].
  unfold py_or; simpl truthy; cbv iota; simpl is_dict; cbv iota.
  simpl rbind. unfold dict_mem; rewrite Hp; reflexivity.
Qed.

(** C2 (as amended): an event whose [edgar_data] is an invocation-result
    envelope (a mapping with a [Payload] key) around the domain payload,
    itself a mapping without a [Payload] key, gives the same result, and
    so the same feature record, as the event that carries the payload
    under [edgar_data] directly. *)
Theorem single_envelope_is_transparent
    (rest envelope payload : list (string * json)) :
  dict_lookup "Payload" envelope = Some (JDict payload) ->
  dict_lookup "Payload" payload = None ->
  handler (with_edgar_data rest (JDict envelope))
  = handler (with_edgar_data rest (JDict payload)).
Proof.
  intros Henv Hpayload.
  apply handler_ext.
  - rewrite (unwrap_edgar_envelope rest envelope payload Henv).
    rewrite (unwrap_edgar_direct rest payload Hpayload).
    reflexivity.
  - intros k d Hk; unfold with_edgar_data, py_get.
    rewrite !dict_lookup_set_other by congruence.
    reflexivity.
Qed.

(** *** Missing storage references *)

Lemma missing_references_raise
    (event edgar_obj s3_refs facts_key submissions_key : json) :
  unwrap_edgar event = Ok edgar_obj ->
  s3_references event edgar_obj = Ok s3_refs ->
  py_get s3_refs "facts_key" JNull = Ok facts_key ->
  py_get s3_refs "submissions_key" JNull = Ok submissions_key ->
  truthy facts_key = false \/ truthy submissions_key = false ->
  handler event
  = ([], Raise (ValueError "Missing S3 references in the event payload")).
Proof.
  intros Hunwrap Hrefs Hfk Hsk Hmissing; unfold handler.
  rewrite Hunwrap, mbind_lift_ok, Hrefs, mbind_lift_ok.
  unfold storage_keys; rewrite Hfk, Hsk; simpl.
  destruct Hmissing as [-> | ->]; simpl;
    [|rewrite orb_true_r]; reflexivity.
Qed.

End BuildFeaturesFacts.

(** ** generate_roi_brief *)

Lemma str_contains_prefix (sub s : string) :
  String.prefix sub s = true -> str_contains sub s = true.
Proof. intros Hp; destruct s; simpl in *; rewrite Hp; reflexivity. Qed.

Lemma prefix_append (sub post : string) :
  String.prefix sub (sub ++ post) = true.
Proof.
  induction sub as [|c sub IH]; simpl; [destruct post; reflexivity|].
  destruct (ascii_dec c c) as [_|Hne]; [exact IH | congruence].
Qed.

Lemma str_contains_append (sub pre s : string) :
  str_contains sub s = true -> str_contains sub (pre ++ s) = true.
Proof.
  intros Hs; induction pre as [|c pre IH]; simpl; [exact Hs|].
  rewrite IH; apply orb_true_r.
Qed.

Lemma str_contains_middle (sub pre post : string) :
  str_contains sub (pre ++ sub ++ post) = true.
Proof.
  apply str_contains_append, str_contains_prefix, prefix_append.
Qed.

Lemma offline_lift {A} (r : result A) : offline (lift r).
Proof. intros c []. Qed.

Lemma offline_mret {A} (a : A) : offline (mret a).
Proof. intros c []. Qed.

Lemma offline_mraise {A} (e : exn) : offline (mraise (A := A) e).
Proof. intros c []. Qed.

Lemma offline_ext {A} (c : call) (r : result A) :
  is_model_call c = false -> offline (ext c r).
Proof. intros Hc c' [<-|[]]; exact Hc. Qed.

Lemma offline_mbind {A B} (m : M call A) (k : A -> M call B) :
  offline m ->
  (forall a, outcome m = Ok a -> offline (k a)) ->
  offline (mbind m k).
Proof.
  intros Hm Hk c; rewrite calls_mbind, in_app_iff; intros [Hc|Hc].
  - apply Hm; exact Hc.
  - destruct (outcome m) as [a|e]; [|contradiction].
    apply (Hk a eq_refl); exact Hc.
Qed.

Section GenerateRoiBriefFacts.
Context {BI : Builtins} {SV : Services}.
Import GenerateRoiBrief.

(** *** The response parser *)

(** Malformed text: the fallback brief. *)
Lemma parse_fallback (text : string) :
  json_loads (strip text) = Raise JSONDecodeError ->
  rbind (parse_model_output text) brief_output
  = Ok (JDict [], fallback_document text)
  /\ fallback_document text <> ""
  /\ str_contains (html_escape text) (fallback_document text) = true.
Proof.
  intros Hbad; unfold parse_model_output; rewrite Hbad.
  split; [reflexivity|split].
  - discriminate.
  - apply str_contains_middle.
Qed.

(** A JSON object with the two fields: they are lifted as they are. *)
Lemma parse_object (text : string) (d : list (string * json))
    (data : json) (html : string) :
  json_loads (strip text) = Ok (JDict d) ->
  dict_lookup "json_data" d = Some data ->
  dict_lookup "html_summary" d = Some (JStr html) ->
  rbind (parse_model_output text) brief_output = Ok (data, html).
Proof.
  intros Hok Hdata Hhtml; unfold parse_model_output; rewrite Hok.
  unfold rbind, brief_output, py_get.
  rewrite Hhtml, Hdata; reflexivity.
Qed.

(** Storing a brief that is not a mapping: the S3 client is created and
    nothing else happens; the run ends in the client's own exception or,
    with the client at hand, in [AttributeError]. *)
Lemma save_artifacts_needs_object (features llm_output : json) :
  is_dict llm_output = false ->
  save_artifacts features llm_output
  = ([S3Client],
     Raise (match s3_client with
            | Ok _ => AttributeError
            | Raise e => e
            end)).
Proof.
  intros Hv; unfold save_artifacts.
  destruct s3_client as [u|e]; [|reflexivity].
  unfold ext, mbind at 1.
  destruct (py_get features "company_name" (JStr "unknown")) as [cn|e]
    eqn:Hcn; [|destruct features; inversion Hcn; reflexivity].
  rewrite mbind_lift_ok.
  destruct cn; try reflexivity.
  simpl as_text; rewrite mbind_lift_ok.
  destruct llm_output; try discriminate; reflexivity.
Qed.

(** C1, where the code departs from it: a reply that is valid JSON but
    not an object is bound to [llm_output] as it is, the read of its
    fields raises [AttributeError], and the stage aborts before anything
    is persisted: it creates the S3 client and makes no other call, and
    with the client at hand it ends in [AttributeError]. *)
Theorem non_object_reply_aborts (text : string) (v features : json) :
  json_loads (strip text) = Ok v ->
  is_dict v = false ->
  parse_model_output text = Ok v
  /\ brief_output v = Raise AttributeError
  /\ calls (save_artifacts features v) = [S3Client]
  /\ (exists e, outcome (save_artifacts features v) = Raise e)
  /\ (forall u, s3_client = Ok u ->
      save_artifacts features v = ([S3Client], Raise AttributeError)).
Proof.
  intros Hok Hv; unfold parse_model_output; rewrite Hok.
  split; [reflexivity|].
  split; [destruct v; try discriminate; reflexivity|].
  rewrite (save_artifacts_needs_object features v Hv).
  split; [reflexivity|].
  split; [eexists; reflexivity|].
  intros u ->; reflexivity.
Qed.

(** *** Simulation mode *)

Lemma offline_save_artifacts (features llm_output : json) :
  offline (save_artifacts features llm_output).
Proof.
  unfold save_artifacts.
  repeat (first [ apply offline_mbind; [|intros ? _]
                | apply offline_lift
                | apply offline_ext; reflexivity ]).
Qed.

Lemma offline_send_notification (features ses_cfg llm_output : json) :
  offline (send_notification features ses_cfg llm_output).
Proof.
  unfold send_notification.
  do 3 (apply offline_mbind; [apply offline_lift | intros ? _]).
  destruct (_ || _); [apply offline_mraise|].
  repeat (first [ apply offline_mbind; [|intros ? _]
                | apply offline_lift
                | apply offline_mret
                | apply offline_ext; reflexivity ]).
Qed.

Lemma offline_handler (event : json) :
  simulation_enabled event = Ok true -> offline (handler event).
Proof.
  unfold simulation_enabled; intros Hsim.
  bind_inv Hsim. bind_inv Hsim. inversion Hsim as [Htruthy]; clear Hsim.
  unfold handler.
  apply offline_mbind; [apply offline_lift | intros features _].
  apply offline_mbind; [apply offline_lift | intros bedrock_cfg Hcfg].
  apply offline_mbind; [apply offline_lift | intros ses_cfg _].
  destruct (negb (truthy features)); [apply offline_mraise|].
  apply offline_mbind; [apply offline_lift | intros simulate Hs].
  simpl in Hcfg, Hs.
  assert (bedrock_cfg = a) by congruence; subst a.
  assert (simulate = a0) by congruence; subst a0.
  rewrite Htruthy.
  apply offline_mbind; [apply offline_lift | intros llm_output _].
  apply offline_mbind; [apply offline_save_artifacts | intros ? _].
  apply offline_mbind; [apply offline_send_notification | intros ? _].
  apply offline_mret.
Qed.

Lemma simulated_placeholder (d : list (string * json)) :
  dict_lookup "company_name" d = None ->
  exists output data document,
    simulated_output (JDict d) = Ok output
    /\ brief_output output = Ok (data, document)
    /\ py_get data "account_name" JNull = Ok (JStr "unknown")
    /\ document
       = "<html><body><h1>Simulated ROI Brief: unknown</h1><p>Key hypothesis and actions.</p></body></html>".
Proof.
  intros Hname; unfold simulated_output, py_get; rewrite Hname; simpl.
  do 3 eexists; repeat split.
Qed.

End GenerateRoiBriefFacts.

(** C9: in simulation mode the brief is the canned output computed from
    the feature record alone: building it makes no external call, two
    runs on the same record agree whatever the runtime and the model
    configuration, the whole handler never calls the generative model,
    and a record without [company_name] is given the name ["unknown"]. *)
Theorem simulation_is_offline_and_deterministic
    (BI1 BI2 : Builtins) (SV1 SV2 : Services)
    (cfg1 cfg2 features : json) :
  let run1 := GenerateRoiBrief.build_llm_output
                (BI := BI1) (SV := SV1) cfg1 features true in
  let run2 := GenerateRoiBrief.build_llm_output
                (BI := BI2) (SV := SV2) cfg2 features true in
  calls run1 = []
  /\ outcome run1 = GenerateRoiBrief.simulated_output features
  /\ run1 = run2
  /\ rbind (outcome run1) GenerateRoiBrief.brief_output
     = rbind (outcome run2) GenerateRoiBrief.brief_output
  /\ (forall event,
        GenerateRoiBrief.simulation_enabled event = Ok true ->
        offline (GenerateRoiBrief.handler (BI := BI1) (SV := SV1) event))
  /\ (forall d,
        features = JDict d ->
        dict_lookup "company_name" d = None ->
        exists output data document,
          outcome run1 = Ok output
          /\ GenerateRoiBrief.brief_output output = Ok (data, document)
          /\ py_get data "account_name" JNull = Ok (JStr "unknown")
          /\ document
             = "<html><body><h1>Simulated ROI Brief: unknown</h1><p>Key hypothesis and actions.</p></body></html>").
Proof.
  simpl; repeat split.
  - intros event; apply offline_handler.
  - intros d -> Hname; apply simulated_placeholder; exact Hname.
Qed.

(** *** The payload normaliser of the brief stage *)

Section BriefNormaliser.
Context {BI : Builtins} {SV : Services}.
Import GenerateRoiBrief.

Lemma brief_handler_ext (ev1 ev2 : json) :
  unwrap_features ev1 = unwrap_features ev2 ->
  (forall k, k <> "features" -> config ev1 k = config ev2 k) ->
  handler ev1 = handler ev2.
Proof.
  intros Hunwrap Hcfg; unfold handler.
  rewrite Hunwrap.
  apply mbind_ext; intros features.
  rewrite (Hcfg "bedrock"), (Hcfg "ses") by discriminate.
  reflexivity.
Qed.

(** As in build_features, one envelope directly under the stage's key is
    removed, and the stage then runs as on the bare feature record. *)
Lemma features_envelope_is_transparent
    (rest envelope payload : list (string * json)) :
  dict_lookup "Payload" envelope = Some (JDict payload) ->
  dict_lookup "Payload" payload = None ->
  handler (with_features rest (JDict envelope))
  = handler (with_features rest (JDict payload)).
Proof.
  intros Henv Hpayload.
  apply brief_handler_ext.
  - unfold unwrap_features, with_features, py_get.
    rewrite !dict_lookup_set_same; simpl rbind.
    assert (Hne : truthy (JDict envelope) = true)
      by (destruct envelope; [discriminate | reflexivity]).
    unfold py_or at 1 2 3; rewrite Hne; simpl.
    unfold dict_mem; rewrite Henv; simpl.
    destruct payload as [|kv payload']; [reflexivity|].
    unfold py_or; simpl truthy; cbv iota; simpl is_dict; cbv iota.
    simpl rbind. unfold dict_mem; rewrite Hpayload; reflexivity.
  - intros k Hk; unfold config, with_features, py_get.
    rewrite !dict_lookup_set_other by congruence.
    reflexivity.
Qed.

End BriefNormaliser.

(** ** Configuration faults *)

Section BriefFaults.
Context {BI : Builtins} {SV : Services}.
Import GenerateRoiBrief.

Lemma missing_features_raise (event features : json) :
  unwrap_features event = Ok features ->
  truthy features = false ->
  (exists e, handler event = ([], Raise e))
  /\ (forall bedrock_cfg ses_cfg,
        config event "bedrock" = Ok bedrock_cfg ->
        config event "ses" = Ok ses_cfg ->
        handler event = ([], Raise (ValueError "Features data is missing"))).
Proof.
  intros Hf Hfalsy; unfold handler.
  rewrite Hf, mbind_lift_ok, Hfalsy; simpl negb; cbv iota.
  split.
  - destruct (config event "bedrock") as [b|e];
      [rewrite mbind_lift_ok | eexists; reflexivity].
    destruct (config event "ses") as [s|e];
      [rewrite mbind_lift_ok | eexists; reflexivity].
    eexists; reflexivity.
  - intros b s Hb Hs.
    rewrite Hb, mbind_lift_ok, Hs, mbind_lift_ok; reflexivity.
Qed.

Lemma send_notification_faults
    (features ses_cfg llm_output sender recipient : json) :
  py_get ses_cfg "sender" JNull = Ok sender ->
  py_get ses_cfg "recipient" JNull = Ok recipient ->
  truthy sender = false \/ truthy recipient = false ->
  is_dict features = true ->
  send_notification features ses_cfg llm_output
  = ([], Raise (ValueError "SES sender or recipient missing")).
Proof.
  intros Hs Hr Hmissing Hfeat; unfold send_notification.
  rewrite Hs, mbind_lift_ok, Hr, mbind_lift_ok.
  destruct features; try discriminate.
  unfold py_get at 1; rewrite mbind_lift_ok.
  destruct Hmissing as [-> | ->]; simpl;
    [|rewrite orb_true_r]; reflexivity.
Qed.

Lemma save_artifacts_needs_features (features llm_output : json) (u : unit) :
  outcome (save_artifacts features llm_output) = Ok u ->
  is_dict features = true.
Proof.
  unfold save_artifacts; intros Hsave.
  apply outcome_mbind_ok in Hsave; destruct Hsave as [u0 [_ Hsave]].
  apply outcome_mbind_ok in Hsave; destruct Hsave as [cn [Hcn _]].
  destruct features; try discriminate; reflexivity.
Qed.

(** With the sender or the recipient missing the handler cannot return:
    its only exit is behind the check. *)
Lemma missing_contact_raise (event ses_cfg sender recipient : json) :
  config event "ses" = Ok ses_cfg ->
  py_get ses_cfg "sender" JNull = Ok sender ->
  py_get ses_cfg "recipient" JNull = Ok recipient ->
  truthy sender = false \/ truthy recipient = false ->
  exists e, outcome (handler event) = Raise e.
Proof.
  intros Hcfg Hs Hr Hmissing; unfold handler.
  rewrite mbind_lift.
  destruct (unwrap_features event) as [features|e];
    [|eexists; reflexivity].
  rewrite mbind_lift.
  destruct (config event "bedrock") as [bedrock_cfg|e];
    [|eexists; reflexivity].
  rewrite Hcfg, mbind_lift_ok.
  destruct (negb (truthy features)); [eexists; reflexivity|].
  rewrite mbind_lift.
  destruct (py_get bedrock_cfg "simulate" (JBool false)) as [simulate|e];
    [|eexists; reflexivity].
  rewrite outcome_mbind.
  destruct (outcome (build_llm_output _ _ _)) as [llm_output|e];
    [|eexists; reflexivity].
  rewrite outcome_mbind.
  destruct (outcome (save_artifacts features llm_output)) as [u|e] eqn:Hsave;
    [|eexists; reflexivity].
  pose proof (save_artifacts_needs_features features llm_output u Hsave)
    as Hfeat.
  rewrite (send_notification_faults features ses_cfg llm_output
             sender recipient Hs Hr Hmissing Hfeat).
  eexists; reflexivity.
Qed.

End BriefFaults.

(** C4 (as amended): build_features raises [ValueError] when a storage
    reference is missing; generate_roi_brief raises when the features
    payload is empty ([ValueError] once its configuration is read) and
    cannot return when the sender or the recipient is missing.  Each
    fault reaches the caller as an exception. *)
Theorem configuration_faults_are_raised
    (TS : Timsort) (BI : Builtins) (SV : Services) :
  (forall event edgar_obj s3_refs facts_key submissions_key,
     BuildFeatures.unwrap_edgar event = Ok edgar_obj ->
     BuildFeatures.s3_references event edgar_obj = Ok s3_refs ->
     py_get s3_refs "facts_key" JNull = Ok facts_key ->
     py_get s3_refs "submissions_key" JNull = Ok submissions_key ->
     truthy facts_key = false \/ truthy submissions_key = false ->
     BuildFeatures.handler event
     = ([], Raise (ValueError "Missing S3 references in the event payload")))
  /\ (forall event features,
        GenerateRoiBrief.unwrap_features event = Ok features ->
        truthy features = false ->
        (exists e, GenerateRoiBrief.handler event = ([], Raise e))
        /\ (forall bedrock_cfg ses_cfg,
              GenerateRoiBrief.config event "bedrock" = Ok bedrock_cfg ->
              GenerateRoiBrief.config event "ses" = Ok ses_cfg ->
              GenerateRoiBrief.handler event
              = ([], Raise (ValueError "Features data is missing"))))
  /\ (forall event ses_cfg sender recipient,
        GenerateRoiBrief.config event "ses" = Ok ses_cfg ->
        py_get ses_cfg "sender" JNull = Ok sender ->
        py_get ses_cfg "recipient" JNull = Ok recipient ->
        truthy sender = false \/ truthy recipient = false ->
        exists e, outcome (GenerateRoiBrief.handler event) = Raise e).
Proof.
  split; [|split].
  - intros event edgar_obj s3_refs fk sk Hu Hr Hfk Hsk Hmissing.
    exact (missing_references_raise event edgar_obj s3_refs fk sk
             Hu Hr Hfk Hsk Hmissing).
  - intros event features Hf Hfalsy.
    exact (missing_features_raise event features Hf Hfalsy).
  - intros event ses_cfg sender recipient Hcfg Hs Hr Hmissing.
    exact (missing_contact_raise event ses_cfg sender recipient
             Hcfg Hs Hr Hmissing).
Qed.

(** * Worked instances

    The statements above at concrete documents and events, in the
    example runtime. *)

Import Example.

(** ** [get_latest_fact] *)

(** The fallback to non-annual observations ignores the requested year,
    and a requested year of zero counts as no request: in either case the
    lookup for one year answers with another. *)
Lemma exact_year_lookup_counterexample :
  (get_latest_fact quarterly_only_facts "Revenues" (JInt 2022)
   = Ok (JInt 5, JInt 2023)
   /\ py_eq (JInt 2023) (JInt 2022) = false)
  /\ (get_latest_fact scenario_facts "Revenues" (JInt 0)
      = Ok (JInt 100, JInt 2023)
      /\ py_eq (JInt 2023) (JInt 0) = false).
Proof. repeat split. Qed.

Lemma exact_year_lookup_witness :
  annual_observations scenario_facts "Revenues"
  = Ok [annual_obs 100 2023 "CY2023"; annual_obs 80 2022 "CY2022"]
  /\ get_latest_fact scenario_facts "Revenues" (JInt 2022)
     = Ok (JInt 80, JInt 2022)
  /\ py_eq (JInt 2022) (JInt 2022) = true.
Proof.
  split; [reflexivity | split; [reflexivity|]].
  apply (exact_year_lookup_returns_requested_year
           scenario_facts "Revenues" (JInt 2022)
           [annual_obs 100 2023 "CY2023"; annual_obs 80 2022 "CY2022"]
           (JInt 80) (JInt 2022));
    [reflexivity | discriminate | reflexivity | reflexivity | discriminate].
Defined.

(** Annual observations exist for 2023 and 2022, none for year 0, and
    the lookup for year 0 answers with 2023. *)
Lemma year_zero_counterexample :
  annual_observations scenario_facts "Revenues"
  = Ok [annual_obs 100 2023 "CY2023"; annual_obs 80 2022 "CY2022"]
  /\ fy_is (JInt 0) (annual_obs 100 2023 "CY2023") = Ok false
  /\ fy_is (JInt 0) (annual_obs 80 2022 "CY2022") = Ok false
  /\ get_latest_fact scenario_facts "Revenues" (JInt 0)
     = Ok (JInt 100, JInt 2023).
Proof. repeat split. Qed.

Lemma no_nearest_year_fallback_witness :
  annual_observations scenario_facts "Revenues"
  = Ok [annual_obs 100 2023 "CY2023"; annual_obs 80 2022 "CY2022"]
  /\ get_latest_fact scenario_facts "Revenues" (JInt 2021)
     = Ok (JNull, JNull).
Proof.
  split; [reflexivity|].
  apply (no_nearest_year_fallback
           scenario_facts "Revenues" (JInt 2021)
           [annual_obs 100 2023 "CY2023"; annual_obs 80 2022 "CY2022"]);
    [reflexivity | discriminate | reflexivity |].
  intros f y [<-|[<-|[]]] Hy; inversion Hy; reflexivity.
Defined.

Lemma get_latest_fact_never_raises_witness :
  us_gaap_facts scenario_facts
  = Ok (JDict
          [("Revenues",
            usd_concept [annual_obs 100 2023 "CY2023";
                         annual_obs 80 2022 "CY2022"]);
           ("SalesAndMarketingExpense",
            usd_concept [annual_obs 20 2023 "CY2023"])])
  /\ get_latest_fact scenario_facts "GrossProfit" JNull = Ok (JNull, JNull)
  /\ get_latest_fact
       (facts_doc [("Revenues", JDict [("units", JDict [])])])
       "Revenues" JNull
     = Ok (JNull, JNull).
Proof.
  split; [reflexivity | split].
  - apply (proj1 (proj2 (get_latest_fact_never_raises
                           scenario_facts "GrossProfit" JNull))
             (JDict
                [("Revenues",
                  usd_concept [annual_obs 100 2023 "CY2023";
                               annual_obs 80 2022 "CY2022"]);
                 ("SalesAndMarketingExpense",
                  usd_concept [annual_obs 20 2023 "CY2023"])]));
      reflexivity.
  - apply (proj2 (proj2 (get_latest_fact_never_raises
                           (facts_doc
                              [("Revenues", JDict [("units", JDict [])])])
                           "Revenues" JNull))
             (JDict [("Revenues", JDict [("units", JDict [])])])
             (JDict [("units", JDict [])])
             (JDict []));
      reflexivity.
Defined.

(** An annual observation without [fy], looked up with no year, and a
    quarterly observation without [fy], looked up for 2023: each lookup
    returns the observation's value with [None]. *)
Lemma value_without_fiscal_year_witness :
  get_latest_fact undated_facts "Revenues" JNull = Ok (JInt 100, JNull)
  /\ get_latest_fact
       (facts_doc
          [("Revenues",
            usd_concept [JDict [("val", JInt 7); ("form", JStr "10-Q")]])])
       "Revenues" (JInt 2023)
     = Ok (JInt 7, JNull).
Proof.
  pose proof (value_without_fiscal_year (TS := strict_timsort))
    as [Hannual [Hfallback _]].
  split.
  - apply (Hannual undated_facts "Revenues" JNull
             [JDict [("val", JInt 100); ("form", JStr "10-K");
                     ("frame", JStr "CY2023")]]
             [("val", JInt 100); ("form", JStr "10-K");
              ("frame", JStr "CY2023")]
             [] (JInt 100));
      reflexivity.
  - apply (Hfallback
             (facts_doc
                [("Revenues",
                  usd_concept [JDict [("val", JInt 7);
                                      ("form", JStr "10-Q")]])])
             "Revenues" (JInt 2023)
             [JDict [("val", JInt 7); ("form", JStr "10-Q")]]
             [("val", JInt 7); ("form", JStr "10-Q")]
             [] (JInt 7));
      reflexivity.
Defined.

(** ** build_features *)

Lemma kpi_null_propagation_witness :
  BuildFeatures.derive_kpis zero_prior_facts (JInt 100) (JInt 2023)
  = Ok (None, None)
  /\ get_latest_fact zero_prior_facts "Revenues" (JInt 2022)
     = Ok (JInt 0, JInt 2022)
  /\ BuildFeatures.not_strictly_positive (JInt 0)
  /\ (@None float = None /\ BuildFeatures.pct (@None float) = JNull).
Proof.
  split; [reflexivity | split; [reflexivity | split; [reflexivity|]]].
  apply (proj1 (proj2 (kpi_null_propagation
                         zero_prior_facts (JInt 100) (JInt 2023)))
           None None (JInt 2022) (JInt 0, JInt 2022));
    [reflexivity | reflexivity | reflexivity | right; reflexivity].
Defined.

Lemma scenario_feature_record_witness :
  exists features,
    outcome (build_features wrapped_event) = Ok (JDict features)
    /\ dict_lookup "latest_revenue_usd" features = Some (JInt 100)
    /\ dict_lookup "yoy_revenue_growth_pct" features
       = Some (JFloat (float_lit 25 1))
    /\ dict_lookup "sm_expense_as_pct_revenue" features
       = Some (JFloat (float_lit 20 1)).
Proof.
  apply (scenario_feature_record
           (TS := strict_timsort) (BI := builtins)
           (SV := services scenario_bucket (Raise (ServiceError "no model")))
           wrapped_event claim_check scenario_references
           (JStr "intermediate/320193-facts.json")
           (JStr "intermediate/320193-submissions.json")
           (Encoder.dumps scenario_facts)
           (Encoder.dumps
              (JDict [("sicDescription", JStr "Electronic Computers");
                      ("fiscalYearEnd", JStr "0930")]))
           [("sicDescription", JStr "Electronic Computers");
            ("fiscalYearEnd", JStr "0930")]
           true "CY2023" "CY2022" "CY2023");
    vm_compute; reflexivity.
Defined.

Lemma single_envelope_witness :
  dict_lookup "Payload" (invocation_result claim_check) = Some claim_check
  /\ build_features wrapped_event = build_features direct_event.
Proof.
  split; [reflexivity|].
  apply (single_envelope_is_transparent
           (TS := strict_timsort) (BI := builtins)
           (SV := services scenario_bucket (Raise (ServiceError "no model")))
           account (invocation_result claim_check)
           [("status", JStr "success"); ("cik", JInt 320193);
            ("s3_references", scenario_references)]);
    reflexivity.
Defined.

(** An envelope around the whole event, or a second envelope inside the
    first, is not removed: the references are not found and the stage
    fails, where the direct form yields a feature record. *)
Lemma nested_envelope_counterexample :
  outcome (build_features
             (JDict [("Payload", direct_event); ("StatusCode", JInt 200)]))
  = Raise (ValueError "Missing S3 references in the event payload")
  /\ outcome (build_features
                (BuildFeatures.with_edgar_data account
                   (JDict (invocation_result
                             (JDict (invocation_result claim_check))))))
     = Raise (ValueError "Missing S3 references in the event payload")
  /\ exists features, outcome (build_features direct_event) = Ok features.
Proof.
  split; [vm_compute; reflexivity | split; [vm_compute; reflexivity|]].
  eexists; vm_compute; reflexivity.
Qed.

(** ** generate_roi_brief *)

(** The model answers with the JSON text of an empty array. *)
Lemma non_object_reply_witness :
  json_loads (strip "[]") = Ok (JList [])
  /\ GenerateRoiBrief.parse_model_output "[]" = Ok (JList [])
  /\ GenerateRoiBrief.brief_output (JList []) = Raise AttributeError
  /\ GenerateRoiBrief.save_artifacts
       (SV := services scenario_bucket (Ok (text_response "[]")))
       features (JList [])
     = ([S3Client], Raise AttributeError).
Proof.
  split; [reflexivity|].
  destruct (non_object_reply_aborts
              (BI := builtins)
              (SV := services scenario_bucket (Ok (text_response "[]")))
              "[]" (JList []) features eq_refl eq_refl)
    as [Hparse [Hbrief [_ [_ Hsave]]]].
  split; [exact Hparse | split; [exact Hbrief|]].
  exact (Hsave tt eq_refl).
Defined.

(** The whole stage on that reply: the model is called, the S3 client is
    created, nothing is stored or sent, and the handler ends in
    [AttributeError]. *)
Lemma non_object_reply_run :
  let r := generate_roi_brief (text_response "[]")
               (JDict [("features", features); ("ses", contacts)]) in
  outcome r = Raise AttributeError
  /\ exists region model_id body,
       calls r = [BedrockClient region;
                  BedrockInvokeModel region model_id body;
                  S3Client].
Proof.
  split; [vm_compute; reflexivity|].
  do 3 eexists; vm_compute; reflexivity.
Qed.

(** The same stage on a reply that is no JSON at all: the fallback
    document is stored and sent. *)
Lemma malformed_reply_run :
  let r := generate_roi_brief (text_response "Sorry <no brief>")
               (JDict [("features", features); ("ses", contacts)]) in
  exists s3_path,
    outcome r = Ok (JDict [("status", JStr "success"); ("s3_path", s3_path)])
    /\ In (S3PutObject "example-bucket" "2024-01-31/apple-inc.-brief.html"
             "<html><body><h1>LLM output (non-JSON)</h1><pre>Sorry &lt;no brief&gt;</pre></body></html>"
             "text/html")
          (calls r).
Proof.
  eexists; split; [vm_compute; reflexivity|].
  vm_compute; do 3 right; left; reflexivity.
Qed.

Lemma simulation_witness :
  GenerateRoiBrief.simulation_enabled simulation_event = Ok true
  /\ offline (generate_roi_brief (text_response "unused") simulation_event)
  /\ exists output data document,
       outcome (GenerateRoiBrief.build_llm_output
                  (BI := builtins)
                  (SV := services scenario_bucket (Ok JNull))
                  (JDict [("simulate", JBool true)])
                  (JDict [("fiscal_year", JInt 2023)]) true)
       = Ok output
       /\ GenerateRoiBrief.brief_output output = Ok (data, document)
       /\ py_get data "account_name" JNull = Ok (JStr "unknown")
       /\ document
          = "<html><body><h1>Simulated ROI Brief: unknown</h1><p>Key hypothesis and actions.</p></body></html>".
Proof.
  pose proof (simulation_is_offline_and_deterministic
                builtins builtins
                (services scenario_bucket (Ok (text_response "unused")))
                (services scenario_bucket (Ok JNull))
                (JDict [("simulate", JBool true)])
                (JDict [("simulate", JBool true)])
                (JDict [("fiscal_year", JInt 2023)]))
    as [_ [_ [_ [_ [Hoffline Hname]]]]].
  split; [reflexivity | split].
  - apply Hoffline; reflexivity.
  - apply (Hname [("fiscal_year", JInt 2023)]); reflexivity.
Defined.

(** ** Configuration faults *)

(** analyze_and_notify without a sender: the model is called, then the
    handler returns an error value instead of raising. *)
Lemma error_value_counterexample :
  outcome (analyze_and_notify (text_response "<html>report</html>")
             (JDict [("aggregated", aggregated)]))
  = Ok (JDict [("error", JStr "SES sender or recipient missing")]).
Proof. vm_compute; reflexivity. Qed.

Lemma configuration_faults_witness :
  BuildFeatures.handler
    (TS := strict_timsort) (BI := builtins)
    (SV := services scenario_bucket (Ok JNull)) (JDict account)
  = ([], Raise (ValueError "Missing S3 references in the event payload"))
  /\ GenerateRoiBrief.handler
       (BI := builtins) (SV := services scenario_bucket (Ok JNull))
       (JDict [("ses", contacts)])
     = ([], Raise (ValueError "Features data is missing"))
  /\ exists e,
       outcome (GenerateRoiBrief.handler
                  (BI := builtins) (SV := services scenario_bucket (Ok JNull))
                  (JDict [("features", features);
                          ("bedrock", JDict [("simulate", JBool true)])]))
       = Raise e.
Proof.
  destruct (configuration_faults_are_raised
              strict_timsort builtins (services scenario_bucket (Ok JNull)))
    as [Hrefs [Hfeatures Hcontact]].
  split; [|split].
  - apply (Hrefs (JDict account) (JDict []) (JDict []) JNull JNull);
      try reflexivity.
    left; reflexivity.
  - refine (proj2 (Hfeatures (JDict [("ses", contacts)]) (JDict []) _ _)
                   (JDict []) contacts _ _);
      reflexivity.
  - apply (Hcontact _ (JDict []) JNull JNull); try reflexivity.
    left; reflexivity.
Defined.

(** In generate_roi_brief the check of sender and recipient comes after
    the artifacts are stored: the fault is raised with both objects
    already written. *)
Lemma missing_contact_run :
  let r := generate_roi_brief (text_response "unused")
               (JDict [("features", features);
                       ("bedrock", JDict [("simulate", JBool true)])]) in
  outcome r = Raise (ValueError "SES sender or recipient missing")
  /\ exists key1 document key2 data,
       calls r = [S3Client;
                  S3PutObject "example-bucket" key1 document "text/html";
                  S3PutObject "example-bucket" key2 data
                    "application/json"].
Proof.
  split; [vm_compute; reflexivity|].
  do 4 eexists; vm_compute; reflexivity.
Qed.

(** * Further properties of the stages *)

(** ** [get_latest_fact]: which observation is returned *)

Lemma mapM_combine_in {A B} (f : A -> result B) (l : list A)
    (ks : list B) (k : B) (x : A) :
  mapM f l = Ok ks -> In (k, x) (combine ks l) -> f x = Ok k.
Proof.
  revert ks; induction l as [|a l IH]; simpl; intros ks Hm Hin.
  - inversion Hm; subst; contradiction.
  - bind_inv Hm. bind_inv Hm. inversion Hm; subst; simpl in Hin.
    destruct Hin as [Heq|Hin]; [inversion Heq; subst; assumption|].
    eapply IH; eauto.
Qed.

Lemma mapM_total {A B} (f : A -> result B) (l : list A) :
  (forall x, In x l -> exists y, f x = Ok y) ->
  exists ys, mapM f l = Ok ys.
Proof.
  induction l as [|a l IH]; simpl; intros Hall; [eauto|].
  destruct (Hall a (or_introl eq_refl)) as [y ->]; simpl.
  destruct IH as [ys ->]; [intros x Hx; apply Hall; right; exact Hx|].
  simpl; eauto.
Qed.

Lemma filterM_raises {A} (p : A -> result bool) (l : list A) (x : A)
    (e : exn) :
  In x l -> p x = Raise e -> exists e', filterM p l = Raise e'.
Proof.
  induction l as [|a l IH]; simpl; intros Hin Hp; [contradiction|].
  destruct Hin as [->|Hin].
  - rewrite Hp; simpl; eauto.
  - destruct (p a) as [b|e0]; simpl; [|eauto].
    destruct (IH Hin Hp) as [e' ->]; simpl; eauto.
Qed.

Lemma sorted_head_is_greatest (l : list keyed) (x : keyed)
    (rest : list keyed) :
  Forall int_key l ->
  stable_sort_desc l = x :: rest ->
  In x l /\ forall y, In y l -> not_before x y.
Proof.
  intros Hkeys Hsort.
  pose proof (stable_sort_desc_perm l) as Hperm.
  destruct (stable_sort_desc_descending l Hkeys) as [Hk Hs].
  rewrite Hsort in Hperm, Hk, Hs.
  split.
  - apply (Permutation_in _ (Permutation_sym Hperm)); left; reflexivity.
  - intros y Hy.
    apply (Permutation_in _ Hperm) in Hy; destruct Hy as [<-|Hy].
    + inversion Hk as [|? ? [z Hz] _]; subst.
      unfold not_before; rewrite Hz, key_gtb_int; apply Z.ltb_irrefl.
    + inversion Hs as [|? ? _ Hall]; subst.
      rewrite Forall_forall in Hall; apply Hall; exact Hy.
Qed.

Section MostRecent.
Context {TS : Timsort}.

Lemma py_sort_desc_int_keys (l : list keyed) :
  Forall int_key l -> py_sort_desc l = Ok (stable_sort_desc l).
Proof.
  intros Hkeys; unfold py_sort_desc.
  destruct l as [|a [|b t]]; try reflexivity.
  assert (Hall : forallb (fun kx => ordered_number (fst kx)) (a :: b :: t)
                 = true).
  { apply forallb_forall; intros kx Hkx.
    rewrite Forall_forall in Hkeys.
    destruct (Hkeys kx Hkx) as [z Hz]; rewrite Hz; reflexivity. }
  rewrite Hall; reflexivity.
Qed.

(** With integer fiscal years the sort succeeds and puts first an element
    whose fiscal year no other element exceeds. *)
Lemma sort_by_fy_desc_greatest (l : list json) :
  l <> [] ->
  (forall f, In f l -> exists z, fy_key f = Ok (JInt z)) ->
  exists f0 rest z0,
    sort_by_fy_desc l = Ok (f0 :: rest)
    /\ In f0 l
    /\ fy_key f0 = Ok (JInt z0)
    /\ forall f z, In f l -> fy_key f = Ok (JInt z) -> z <= z0.
Proof.
  intros Hne Hint.
  destruct (mapM_total fy_key l) as [keys Hkeys];
    [intros x Hx; destruct (Hint x Hx) as [z Hz]; eauto|].
  assert (Hlen : List.length keys = List.length l)
    by (eapply mapM_length; eauto).
  assert (Hall : Forall int_key (combine keys l)).
  { apply Forall_forall; intros [k x] Hkx.
    pose proof (mapM_combine_in _ _ _ _ _ Hkeys Hkx) as Hk.
    destruct (Hint x (in_combine_r _ _ _ _ Hkx)) as [z Hz].
    exists z; simpl; congruence. }
  unfold sort_by_fy_desc; rewrite Hkeys; simpl.
  rewrite (py_sort_desc_int_keys _ Hall); simpl.
  destruct (stable_sort_desc (combine keys l)) as [|[k0 f0] rest] eqn:Hsort.
  - exfalso.
    pose proof (stable_sort_desc_perm (combine keys l)) as Hperm.
    rewrite Hsort in Hperm; apply Permutation_sym, Permutation_nil in Hperm.
    destruct l as [|a l']; [congruence|].
    destruct keys; simpl in *; discriminate.
  - destruct (sorted_head_is_greatest _ _ _ Hall Hsort) as [Hin Hmax].
    pose proof (mapM_combine_in _ _ _ _ _ Hkeys Hin) as Hk0.
    destruct (Hint f0 (in_combine_r _ _ _ _ Hin)) as [z0 Hz0].
    exists f0, (map snd rest), z0; simpl.
    split; [reflexivity|].
    split; [exact (in_combine_r _ _ _ _ Hin)|].
    split; [exact Hz0|].
    intros f z Hf Hz.
    assert (Hpair : In (JInt z, f) (combine keys l)).
    { clear - Hkeys Hf Hz. revert keys Hkeys.
      induction l as [|a l IH]; simpl; intros keys Hkeys; [contradiction|].
      bind_inv Hkeys. bind_inv Hkeys. inversion Hkeys; subst; simpl.
      destruct Hf as [->|Hf]; [left; congruence | right; auto]. }
    assert (k0 = JInt z0) by congruence; subst k0.
    specialize (Hmax _ Hpair); unfold not_before in Hmax.
    cbv beta iota delta [fst] in Hmax.
    rewrite key_gtb_int in Hmax; apply Z.ltb_ge in Hmax; exact Hmax.
Qed.

End MostRecent.

Section WhichObservation.
Context {TS : Timsort}.

Lemma fy_key_dict (f k : json) :
  fy_key f = Ok k -> exists d, f = JDict d.
Proof. destruct f; try discriminate; eauto. Qed.

Lemma val_and_fy_dict (d : list (string * json)) :
  exists v y, val_and_fy (JDict d) = Ok (v, y).
Proof. unfold val_and_fy, py_get; simpl; eauto. Qed.

Lemma val_and_fy_fields (x v y : json) :
  val_and_fy x = Ok (v, y) ->
  py_get x "val" JNull = Ok v /\ py_get x "fy" JNull = Ok y.
Proof.
  unfold val_and_fy; intros Hv.
  bind_inv Hv. bind_inv Hv. inversion Hv; subst; auto.
Qed.

(** X1: when annual observations exist for the concept, whatever
    [get_latest_fact] returns is either [(None, None)] or the value and
    fiscal year of one of those annual observations: data of a non-annual
    entry is never returned. *)
Theorem result_is_an_annual_observation
    (fd : json) (name : string) (fy : json) (annual : list json)
    (v y : json) :
  annual_observations fd name = Ok annual ->
  annual <> [] ->
  get_latest_fact fd name fy = Ok (v, y) ->
  (v, y) = (JNull, JNull)
  \/ exists f, In f annual
               /\ py_get f "val" JNull = Ok v
               /\ py_get f "fy" JNull = Ok y.
Proof.
  intros Ha Hne Hres.
  unfold get_latest_fact in Hres.
  apply try_except_ok in Hres; destruct Hres as [Hres|Hres]; [|auto].
  rewrite (annual_branch fd name fy annual Ha Hne) in Hres.
  bind_inv Hres.
  apply sort_by_fy_desc_perm in Hstep.
  destruct a as [|first sorted]; [discriminate|].
  assert (Hsub : forall f, In f (first :: sorted) -> In f annual)
    by (intros f Hf; apply (Permutation_in _ (Permutation_sym Hstep) Hf)).
  destruct (truthy fy).
  - bind_inv Hres.
    destruct a as [f|]; [|inversion Hres; auto].
    destruct (truthy f); [|inversion Hres; auto].
    apply findM_found in Hstep0; destruct Hstep0 as [Hin _].
    right; exists f; split; [auto | apply val_and_fy_fields; exact Hres].
  - right; exists first; split;
      [apply Hsub; left; reflexivity | apply val_and_fy_fields; exact Hres].
Qed.

(** X2: with no fiscal year requested, and annual observations whose
    fiscal years are integers (a missing one counting as 0),
    [get_latest_fact] returns the value and year of an annual observation
    whose fiscal year none of the others exceeds. *)
Theorem latest_annual_is_most_recent
    (fd : json) (name : string) (fy : json) (annual : list json) :
  annual_observations fd name = Ok annual ->
  annual <> [] ->
  truthy fy = false ->
  (forall f, In f annual -> exists z, fy_key f = Ok (JInt z)) ->
  exists f0 z0 v y,
    In f0 annual
    /\ fy_key f0 = Ok (JInt z0)
    /\ val_and_fy f0 = Ok (v, y)
    /\ get_latest_fact fd name fy = Ok (v, y)
    /\ forall f z, In f annual -> fy_key f = Ok (JInt z) -> z <= z0.
Proof.
  intros Ha Hne Hfy Hint.
  destruct (sort_by_fy_desc_greatest annual Hne Hint)
    as [f0 [rest [z0 [Hsort [Hin [Hz0 Hmax]]]]]].
  destruct (fy_key_dict f0 _ Hz0) as [d ->].
  destruct (val_and_fy_dict d) as [v [y Hvy]].
  exists (JDict d), z0, v, y; repeat split; auto.
  unfold get_latest_fact.
  rewrite (annual_branch fd name fy annual Ha Hne), Hsort; simpl rbind.
  rewrite Hfy, Hvy; reflexivity.
Qed.

(** X3: when the concept has no annual observation, the requested fiscal
    year plays no part: the lookup for any year gives what the lookup
    without a year gives. *)
Theorem fallback_ignores_requested_year
    (fd : json) (name : string) (fy : json) :
  annual_observations fd name = Ok [] ->
  get_latest_fact fd name fy = get_latest_fact fd name JNull.
Proof.
  unfold annual_observations, get_latest_fact, get_latest_fact_body.
  intros Ha.
  destruct (usd_fact_list fd name) as [[fl|]|e]; simpl in *;
    try reflexivity.
  unfold select_fact.
  destruct (py_iter fl) as [entries|e]; simpl in *; [|reflexivity].
  rewrite Ha; reflexivity.
Qed.

(** X4: one entry of the USD list that is [null], a boolean or a number
    makes the whole lookup absent, whatever the other entries hold. *)
Theorem damaged_entry_hides_the_concept
    (fd : json) (name : string) (fy : json) (l : list json) (x : json) :
  usd_fact_list fd name = Ok (Some (JList l)) ->
  In x l ->
  is_none x = true \/ as_num x <> None ->
  get_latest_fact fd name fy = Ok (JNull, JNull).
Proof.
  intros Hlist Hin Hbad.
  assert (Hraise : is_annual x = Raise TypeError).
  { destruct Hbad as [Hnone|Hnum]; destruct x; simpl in *;
      try discriminate; try congruence; reflexivity. }
  destruct (filterM_raises is_annual l x _ Hin Hraise) as [e He].
  unfold get_latest_fact, get_latest_fact_body.
  rewrite Hlist; simpl. unfold select_fact; simpl py_iter; simpl rbind.
  rewrite He; reflexivity.
Qed.

(** X5: when the USD list is a non-empty list without annual
    observations and its fiscal years are integers, the fallback returns
    the value and year of an entry whose fiscal year none of the others
    exceeds, for every requested year. *)
Theorem fallback_returns_most_recent
    (fd : json) (name : string) (fy : json) (l : list json) :
  usd_fact_list fd name = Ok (Some (JList l)) ->
  l <> [] ->
  filterM is_annual l = Ok [] ->
  (forall f, In f l -> exists z, fy_key f = Ok (JInt z)) ->
  exists f0 z0 v y,
    In f0 l
    /\ fy_key f0 = Ok (JInt z0)
    /\ val_and_fy f0 = Ok (v, y)
    /\ get_latest_fact fd name fy = Ok (v, y)
    /\ forall f z, In f l -> fy_key f = Ok (JInt z) -> z <= z0.
Proof.
  intros Hlist Hne Hnone Hint.
  destruct (sort_by_fy_desc_greatest l Hne Hint)
    as [f0 [rest [z0 [Hsort [Hin [Hz0 Hmax]]]]]].
  destruct (fy_key_dict f0 _ Hz0) as [d ->].
  destruct (val_and_fy_dict d) as [v [y Hvy]].
  exists (JDict d), z0, v, y; repeat split; auto.
  unfold get_latest_fact.
  rewrite (fallback_branch fd name fy l Hlist Hnone).
  destruct l as [|a l']; [congruence|].
  simpl truthy; cbv iota. rewrite Hsort; simpl rbind.
  rewrite Hvy; reflexivity.
Qed.

End WhichObservation.

(** ** build_features: the handler as a whole *)

Lemma calls_lift_bind {C A B} (r : result A) (k : A -> M C B) :
  calls (mbind (lift r) k) =
  match r with Ok a => calls (k a) | Raise _ => [] end.
Proof. rewrite mbind_lift; destruct r; reflexivity. Qed.

Lemma outcome_lift_bind {C A B} (r : result A) (k : A -> M C B) :
  outcome (mbind (lift r) k) =
  match r with Ok a => outcome (k a) | Raise e => Raise e end.
Proof. rewrite mbind_lift; destruct r; reflexivity. Qed.

Lemma calls_ext_bind {C A B} (c : C) (r : result A) (k : A -> M C B) :
  calls (mbind (ext c r) k) =
  c :: match r with Ok a => calls (k a) | Raise _ => [] end.
Proof. rewrite calls_mbind; destruct r; reflexivity. Qed.

(** A returning run went through each of its steps. *)
Lemma mbind_lift_returns {C A B} (r : result A) (k : A -> M C B)
    (log : list C) (b : B) :
  mbind (lift r) k = (log, Ok b) -> exists a, r = Ok a /\ k a = (log, Ok b).
Proof.
  rewrite mbind_lift; destruct r as [a|e]; intros Hk;
    [exists a; auto | discriminate].
Qed.

Lemma mbind_ext_returns {C A B} (c : C) (r : result A) (k : A -> M C B)
    (log : list C) (b : B) :
  mbind (ext c r) k = (log, Ok b) ->
  exists a log', r = Ok a /\ k a = (log', Ok b) /\ log = c :: log'.
Proof.
  unfold mbind, ext; destruct r as [a|e]; [|discriminate].
  destruct (k a) as [log' r'] eqn:Hka; intros Hk; inversion Hk; subst.
  exists a, log'; split; [reflexivity | split; [exact Hka | reflexivity]].
Qed.

Ltac lift_inv H :=
  let a := fresh "a" in
  let Ha := fresh "Hstep" in
  apply mbind_lift_returns in H; destruct H as [a [Ha H]].

Ltac ext_inv H :=
  let a := fresh "a" in
  let log := fresh "log" in
  let Ha := fresh "Hcall" in
  let Hlog := fresh "Hlog" in
  apply mbind_ext_returns in H; destruct H as [a [log [Ha [H Hlog]]]].

Section BuildFeaturesHandler.
Context {TS : Timsort} {BI : Builtins} {SV : Services}.
Import BuildFeatures.

Lemma calls_load_json_bind {B} (key : json) (k : json -> M call B) :
  calls (mbind (load_json key) k) =
  S3GetObject output_bucket key
  :: match outcome (load_json key) with
     | Ok v => calls (k v)
     | Raise _ => []
     end.
Proof.
  rewrite calls_mbind; unfold load_json.
  rewrite calls_ext_bind, outcome_ext_bind.
  destruct (s3_get_object output_bucket key) as [body|e]; simpl;
    [|reflexivity].
  destruct (json_loads body); reflexivity.
Qed.

(** X6: the handler only reads from the bucket, at most twice: first the
    facts object, then the submissions object, each under a key that is
    truthy.  It never writes and never calls another service. *)
Theorem build_features_only_reads (event : json) :
  calls (handler event) = []
  \/ exists facts_key submissions_key,
       truthy facts_key = true /\ truthy submissions_key = true
       /\ (calls (handler event) = [S3GetObject output_bucket facts_key]
           \/ calls (handler event)
              = [S3GetObject output_bucket facts_key;
                 S3GetObject output_bucket submissions_key]).
Proof.
  unfold handler.
  rewrite calls_lift_bind.
  destruct (unwrap_edgar event) as [edgar_obj|e]; [|auto].
  rewrite calls_lift_bind.
  destruct (s3_references event edgar_obj) as [s3_refs|e]; [|auto].
  rewrite calls_lift_bind.
  destruct (storage_keys s3_refs) as [[fk sk]|e] eqn:Hkeys; [|auto].
  right; exists fk, sk.
  assert (Htruthy : truthy fk = true /\ truthy sk = true).
  { unfold storage_keys in Hkeys.
    bind_inv Hkeys. bind_inv Hkeys.
    destruct (truthy a) eqn:Ha, (truthy a0) eqn:Ha0; simpl in Hkeys;
      try discriminate.
    inversion Hkeys; subst; auto. }
  destruct Htruthy as [Hfk Hsk]; split; [exact Hfk | split; [exact Hsk|]].
  cbv beta iota delta [fst snd].
  rewrite calls_load_json_bind.
  destruct (outcome (load_json fk)) as [facts_data|e]; [|auto].
  right; rewrite calls_load_json_bind.
  destruct (outcome (load_json sk)) as [submissions_data|e]; [|reflexivity].
  repeat (rewrite calls_lift_bind;
          match goal with
          | |- context [match ?r with Ok _ => _ | Raise _ => _ end] =>
              destruct r; [|reflexivity]
          end).
  reflexivity.
Qed.

(** Two events drive the handler alike when they resolve to the same
    references and the same company identifier and name. *)
Lemma handler_same_inputs (ev1 ev2 e1 e2 : json) :
  unwrap_edgar ev1 = Ok e1 ->
  unwrap_edgar ev2 = Ok e2 ->
  s3_references ev1 e1 = s3_references ev2 e2 ->
  py_get e1 "cik" JNull = py_get e2 "cik" JNull ->
  py_get ev1 "cik" JNull = py_get ev2 "cik" JNull ->
  py_get ev1 "name" JNull = py_get ev2 "name" JNull ->
  handler ev1 = handler ev2.
Proof.
  intros H1 H2 Hrefs Hcik Hevcik Hname; unfold handler.
  rewrite H1, H2, !mbind_lift_ok, Hrefs.
  apply mbind_ext; intros s3_refs.
  apply mbind_ext; intros keys.
  apply mbind_ext; intros facts_data.
  apply mbind_ext; intros submissions_data.
  rewrite Hevcik.
  apply mbind_ext; intros c.
  rewrite Hcik.
  apply mbind_ext; intros cik.
  rewrite Hname.
  reflexivity.
Qed.

(** X7: the older event shape is still accepted: an event that carries
    [s3_references] at top level and no [edgar_data] is handled exactly
    like the event that carries the same references under [edgar_data]. *)
Theorem top_level_references_are_accepted
    (d : list (string * json)) (refs : json) :
  dict_lookup "edgar_data" d = None ->
  dict_lookup "s3_references" d = Some refs ->
  handler (JDict d)
  = handler (with_edgar_data d (JDict [("s3_references", refs)])).
Proof.
  intros Hedgar Hrefs.
  apply (handler_same_inputs _ _ (JDict [])
           (JDict [("s3_references", refs)])).
  - unfold unwrap_edgar, py_get; rewrite Hedgar; reflexivity.
  - unfold unwrap_edgar, with_edgar_data, py_get.
    rewrite dict_lookup_set_same; reflexivity.
  - unfold s3_references, with_edgar_data, py_get; simpl.
    rewrite dict_lookup_set_other by discriminate.
    rewrite Hrefs; unfold py_or.
    destruct (truthy refs) eqn:Ht; simpl; rewrite Ht; reflexivity.
  - reflexivity.
  - unfold with_edgar_data, py_get.
    rewrite dict_lookup_set_other by discriminate; reflexivity.
  - unfold with_edgar_data, py_get.
    rewrite dict_lookup_set_other by discriminate; reflexivity.
Qed.

Lemma outcome_load_json_ok {B} (key : json) (k : json -> M call B) (b : B) :
  outcome (mbind (load_json key) k) = Ok b ->
  exists text v,
    s3_get_object output_bucket key = Ok text
    /\ json_loads text = Ok v
    /\ outcome (k v) = Ok b.
Proof.
  rewrite outcome_mbind; unfold load_json; rewrite outcome_ext_bind.
  destruct (s3_get_object output_bucket key) as [text|e] eqn:Hget;
    [|discriminate].
  cbv beta iota.
  destruct (json_loads text) as [v|e] eqn:Hloads; simpl; [|discriminate].
  intros Hk; exists text, v; repeat split; assumption.
Qed.

(** What a returning run went through. *)
Lemma handler_returns_record (event v : json) :
  outcome (handler event) = Ok v ->
  exists name cik year industry fiscal_year_end latest_revenue yoy sm
         facts_data,
    v = JDict
          [("company_name", name);
           ("cik", cik);
           ("fiscal_year", year);
           ("industry", industry);
           ("fiscal_year_end", fiscal_year_end);
           ("latest_revenue_usd", latest_revenue);
           ("yoy_revenue_growth_pct", pct yoy);
           ("sm_expense_as_pct_revenue", pct sm);
           ("data_source",
            JStr ("https://www.sec.gov/edgar/browse/?CIK=" ++ py_format cik))]
    /\ py_get event "name" JNull = Ok name
    /\ get_latest_fact facts_data "Revenues" JNull
       = Ok (latest_revenue, year)
    /\ derive_kpis facts_data latest_revenue year = Ok (yoy, sm).
Proof.
  unfold handler; intros Hrun.
  rewrite outcome_lift_bind in Hrun.
  destruct (unwrap_edgar event) as [edgar_obj|e]; [|discriminate].
  rewrite outcome_lift_bind in Hrun.
  destruct (s3_references event edgar_obj) as [s3_refs|e]; [|discriminate].
  rewrite outcome_lift_bind in Hrun.
  destruct (storage_keys s3_refs) as [[fk sk]|e]; [|discriminate].
  cbv beta iota delta [fst snd] in Hrun.
  apply outcome_load_json_ok in Hrun.
  destruct Hrun as [facts_text [facts_data [_ [_ Hrun]]]].
  apply outcome_load_json_ok in Hrun.
  destruct Hrun as [subs_text [subs [_ [_ Hrun]]]].
  rewrite outcome_lift_bind in Hrun.
  destruct (py_get event "cik" JNull) as [c|e]; [|discriminate].
  rewrite outcome_lift_bind in Hrun.
  destruct (if truthy c then _ else _) as [cik|e]; [|discriminate].
  rewrite outcome_lift_bind in Hrun.
  destruct (py_get event "name" JNull) as [name|e]; [|discriminate].
  rewrite outcome_lift_bind in Hrun.
  destruct (get_latest_fact facts_data "Revenues" JNull)
    as [[latest_revenue year]|e] eqn:Hlatest; [|discriminate].
  cbv beta iota delta [fst snd] in Hrun.
  rewrite outcome_lift_bind in Hrun.
  destruct (derive_kpis facts_data latest_revenue year)
    as [[yoy sm]|e] eqn:Hkpis; [|discriminate].
  rewrite outcome_lift_bind in Hrun.
  destruct (py_get subs "sicDescription" (JStr "N/A")) as [industry|e];
    [|discriminate].
  rewrite outcome_lift_bind in Hrun.
  destruct (py_get subs "fiscalYearEnd" (JStr "N/A")) as [fye|e];
    [|discriminate].
  simpl in Hrun; inversion Hrun; subst v; clear Hrun.
  exists name, cik, year, industry, fye, latest_revenue, yoy, sm, facts_data.
  repeat split; assumption.
Qed.

Lemma mbind_load_json_returns {B} (key : json) (k : json -> M call B)
    (log : list call) (b : B) :
  mbind (load_json key) k = (log, Ok b) ->
  exists text v log',
    s3_get_object output_bucket key = Ok text
    /\ json_loads text = Ok v
    /\ k v = (log', Ok b)
    /\ log = S3GetObject output_bucket key :: log'.
Proof.
  unfold load_json, ext, lift, mbind.
  destruct (s3_get_object output_bucket key) as [text|e]; [|discriminate].
  destruct (json_loads text) as [v|e] eqn:Hv; [|discriminate].
  destruct (k v) as [log' r] eqn:Hk; intros Hrun; inversion Hrun; subst.
  exists text, v, log'.
  split; [reflexivity | split; [exact Hv | split; [exact Hk|]]].
  reflexivity.
Qed.

(** X8: whenever the handler returns, it has read two objects from the
    output bucket, the facts and then the submissions, and the result is
    a record of exactly nine fields in a fixed order, built from what
    those two objects decode to and from the event.  The company name is
    the event's [name]; the revenue and fiscal year are what
    [get_latest_fact] found for [Revenues] in the decoded facts object;
    industry and fiscal year end are read from the decoded submissions
    object; the two percentages are the ratios derived from the decoded
    facts object, each a float or null, and both null when the fiscal
    year or the revenue is null. *)
Theorem feature_record_contract (event v : json) :
  outcome (handler event) = Ok v ->
  exists edgar_obj s3_refs facts_key submissions_key
         facts_text submissions_text facts_data submissions_data
         name cik year industry fiscal_year_end latest_revenue kpis,
    unwrap_edgar event = Ok edgar_obj
    /\ s3_references event edgar_obj = Ok s3_refs
    /\ storage_keys s3_refs = Ok (facts_key, submissions_key)
    /\ calls (handler event)
       = [S3GetObject output_bucket facts_key;
          S3GetObject output_bucket submissions_key]
    /\ s3_get_object output_bucket facts_key = Ok facts_text
    /\ json_loads facts_text = Ok facts_data
    /\ s3_get_object output_bucket submissions_key = Ok submissions_text
    /\ json_loads submissions_text = Ok submissions_data
    /\ py_get event "name" JNull = Ok name
    /\ get_latest_fact facts_data "Revenues" JNull
       = Ok (latest_revenue, year)
    /\ derive_kpis facts_data latest_revenue year = Ok kpis
    /\ py_get submissions_data "sicDescription" (JStr "N/A") = Ok industry
    /\ py_get submissions_data "fiscalYearEnd" (JStr "N/A")
       = Ok fiscal_year_end
    /\ v = JDict
             [("company_name", name);
              ("cik", cik);
              ("fiscal_year", year);
              ("industry", industry);
              ("fiscal_year_end", fiscal_year_end);
              ("latest_revenue_usd", latest_revenue);
              ("yoy_revenue_growth_pct", pct (fst kpis));
              ("sm_expense_as_pct_revenue", pct (snd kpis));
              ("data_source",
               JStr ("https://www.sec.gov/edgar/browse/?CIK="
                     ++ py_format cik))]
    /\ (pct (fst kpis) = JNull \/ exists f, pct (fst kpis) = JFloat f)
    /\ (pct (snd kpis) = JNull \/ exists f, pct (snd kpis) = JFloat f)
    /\ (year = JNull \/ latest_revenue = JNull ->
        pct (fst kpis) = JNull /\ pct (snd kpis) = JNull).
Proof.
  destruct (handler event) as [log r] eqn:Hrun.
  unfold outcome, calls; simpl; intros ->.
  unfold handler in Hrun.
  apply mbind_lift_returns in Hrun; destruct Hrun as [edgar_obj [Hu Hrun]].
  apply mbind_lift_returns in Hrun; destruct Hrun as [s3_refs [Hr Hrun]].
  apply mbind_lift_returns in Hrun; destruct Hrun as [[fk sk] [Hk Hrun]].
  cbv beta iota delta [fst snd] in Hrun.
  apply mbind_load_json_returns in Hrun.
  destruct Hrun as [facts_text [facts_data [log1 [Hft [Hfd [Hrun Hlog]]]]]].
  apply mbind_load_json_returns in Hrun.
  destruct Hrun as [subs_text [subs [log2 [Hst [Hsd [Hrun Hlog1]]]]]].
  apply mbind_lift_returns in Hrun; destruct Hrun as [c [_ Hrun]].
  apply mbind_lift_returns in Hrun; destruct Hrun as [cik [_ Hrun]].
  apply mbind_lift_returns in Hrun; destruct Hrun as [name [Hname Hrun]].
  apply mbind_lift_returns in Hrun;
    destruct Hrun as [[latest_revenue year] [Hlatest Hrun]].
  cbv beta iota delta [fst snd] in Hrun.
  apply mbind_lift_returns in Hrun; destruct Hrun as [kpis [Hkpis Hrun]].
  apply mbind_lift_returns in Hrun; destruct Hrun as [industry [Hind Hrun]].
  apply mbind_lift_returns in Hrun; destruct Hrun as [fye [Hfye Hrun]].
  unfold mret in Hrun; inversion Hrun; subst; clear Hrun.
  exists edgar_obj, s3_refs, fk, sk, facts_text, subs_text, facts_data, subs,
         name, cik, year, industry, fye, latest_revenue, kpis.
  repeat (split; [first [assumption | reflexivity]|]).
  split; [destruct (fst kpis); simpl; eauto|].
  split; [destruct (snd kpis); simpl; eauto|].
  intros Habsent.
  assert (Hnone : derive_kpis facts_data latest_revenue year
                  = Ok (None, None)).
  { unfold derive_kpis; destruct Habsent as [-> | ->]; simpl;
      [|rewrite andb_false_r]; reflexivity. }
  rewrite Hnone in Hkpis; inversion Hkpis; subst; auto.
Qed.

End BuildFeaturesHandler.

(** ** Text the brief stage builds *)

Lemma append_assoc (a b c : string) : ((a ++ b) ++ c = a ++ (b ++ c))%string.
Proof. induction a as [|x a IH]; simpl; [|rewrite IH]; reflexivity. Qed.

Lemma append_empty_r (a : string) : (a ++ "" = a)%string.
Proof. induction a as [|x a IH]; simpl; [|rewrite IH]; reflexivity. Qed.

Lemma chars_of_append (a b : string) :
  list_ascii_of_string (a ++ b)
  = (list_ascii_of_string a ++ list_ascii_of_string b)%list.
Proof. induction a as [|x a IH]; simpl; [|rewrite IH]; reflexivity. Qed.

(** The loop over the content blocks adds, block after block, what each
    block says. *)
Lemma text_of_blocks_said (blocks : list json)
    (segments : list (option string)) (acc : string) :
  Forall2 block_says blocks segments ->
  text_of_blocks blocks acc = Ok (acc ++ said segments)%string.
Proof.
  intros Hsays; revert acc.
  induction Hsays as [|b seg blocks segments Hb _ IH]; intros acc; simpl.
  - rewrite append_empty_r; reflexivity.
  - destruct Hb as [d ty s Hty Htext Hs | d ty Hty Htext Hs
                   | d ty Hty Hother]; unfold py_get in *.
    + rewrite Hty; simpl rbind. rewrite Htext, Hs; simpl rbind.
      rewrite IH, append_assoc; reflexivity.
    + rewrite Hty; simpl rbind. rewrite Htext, Hs; simpl rbind.
      rewrite IH, append_assoc; reflexivity.
    + rewrite Hty; simpl rbind. rewrite Hother. apply IH.
Qed.

Section ReplyText.
Context {BI : Builtins}.

(** X9: when the model response carries a list of content blocks, the
    reply text is what the text blocks say, in order and without a
    separator; blocks of any other type contribute nothing. *)
Theorem reply_is_the_text_blocks
    (d : list (string * json)) (blocks : list json)
    (segments : list (option string)) :
  dict_lookup "content" d = Some (JList blocks) ->
  Forall2 block_says blocks segments ->
  GenerateRoiBrief.reply_text (JDict d) = Ok (said segments).
Proof.
  intros Hcontent Hsays.
  unfold GenerateRoiBrief.reply_text, is_dict, py_in, py_index, dict_mem.
  rewrite Hcontent; simpl rbind; cbv iota.
  apply (text_of_blocks_said blocks segments "" Hsays).
Qed.

End ReplyText.

Lemma html_escape_char_clean (c x : ascii) :
  In x (list_ascii_of_string (html_escape_char c)) ->
  x <> "<"%char /\ x <> ">"%char /\ x <> "034"%char /\ x <> "'"%char.
Proof.
  destruct c as [[] [] [] [] [] [] [] []]; simpl;
    intros Hx;
    repeat match goal with
           | H : _ \/ _ |- _ => destruct H as [<-|H]
           | H : False |- _ => contradiction
           end;
    repeat split; discriminate.
Qed.

Lemma html_escape_clean (s : string) (x : ascii) :
  In x (list_ascii_of_string (html_escape s)) ->
  x <> "<"%char /\ x <> ">"%char /\ x <> "034"%char /\ x <> "'"%char.
Proof.
  induction s as [|c s IH]; simpl; [contradiction|].
  rewrite chars_of_append, in_app_iff; intros [Hx|Hx];
    [eapply html_escape_char_clean; eauto | auto].
Qed.

Lemma html_unescape_char (c : ascii) (s : string) :
  html_unescape (html_escape_char c ++ s) = String c (html_unescape s).
Proof.
  destruct c as [[] [] [] [] [] [] [] []]; reflexivity.
Qed.

Lemma html_unescape_escape (s : string) : html_unescape (html_escape s) = s.
Proof.
  induction s as [|c s IH]; simpl; [reflexivity|].
  rewrite html_unescape_char, IH; reflexivity.
Qed.

Section FallbackDocument.
Context {BI : Builtins}.

(** X10: the fallback document is a fixed frame around a body made from
    the model's text.  The body holds none of the characters [<], [>],
    double quote and apostrophe, so the text cannot open or close markup,
    and reading the entities back gives the text unchanged. *)
Theorem fallback_embeds_the_text_safely (text : string) :
  exists body,
    GenerateRoiBrief.fallback_document text
    = ("<html><body><h1>LLM output (non-JSON)</h1><pre>" ++ body
       ++ "</pre></body></html>")%string
    /\ (forall x, In x (list_ascii_of_string body) ->
          x <> "<"%char /\ x <> ">"%char /\ x <> "034"%char /\ x <> "'"%char)
    /\ html_unescape body = text.
Proof.
  exists (html_escape text); split; [reflexivity | split].
  - intros x; apply html_escape_clean.
  - apply html_unescape_escape.
Qed.

End FallbackDocument.

(** ** generate_roi_brief: the order of the external calls *)

Section BriefTrace.
Context {BI : Builtins} {SV : Services}.
Import GenerateRoiBrief.

(** Either the handler stops before any external call, or it runs its
    three stages: build the brief, store it, send it. *)
Lemma handler_stages (event : json) :
  (exists e, handler event = ([], Raise e))
  \/ exists features bedrock_cfg ses_cfg simulate,
       unwrap_features event = Ok features
       /\ truthy features = true
       /\ config event "bedrock" = Ok bedrock_cfg
       /\ config event "ses" = Ok ses_cfg
       /\ py_get bedrock_cfg "simulate" (JBool false) = Ok simulate
       /\ handler event
          = mbind (build_llm_output bedrock_cfg features (truthy simulate))
              (fun llm_output =>
                 mbind (save_artifacts features llm_output)
                   (fun _ =>
                      mbind (send_notification features ses_cfg llm_output)
                        (fun _ => mret success_value))).
Proof.
  unfold handler.
  destruct (unwrap_features event) as [features|e] eqn:Hf;
    [rewrite mbind_lift_ok | left; eexists; reflexivity].
  destruct (config event "bedrock") as [bedrock_cfg|e] eqn:Hb;
    [rewrite mbind_lift_ok | left; eexists; reflexivity].
  destruct (config event "ses") as [ses_cfg|e] eqn:Hs;
    [rewrite mbind_lift_ok | left; eexists; reflexivity].
  destruct (truthy features) eqn:Ht; simpl negb; cbv iota;
    [|left; eexists; reflexivity].
  destruct (py_get bedrock_cfg "simulate" (JBool false)) as [simulate|e]
    eqn:Hsim; [rewrite mbind_lift_ok | left; eexists; reflexivity].
  right; exists features, bedrock_cfg, ses_cfg, simulate.
  repeat split; try assumption; reflexivity.
Qed.

Lemma invoke_bedrock_calls (bedrock_cfg features : json) :
  forallb is_model_call (calls (invoke_bedrock bedrock_cfg features)) = true.
Proof.
  unfold invoke_bedrock.
  rewrite calls_lift_bind.
  destruct (py_get bedrock_cfg "model_id" _) as [model_id|e]; [|reflexivity].
  rewrite calls_lift_bind.
  destruct (py_get bedrock_cfg "region" _) as [region|e]; [|reflexivity].
  rewrite calls_ext_bind.
  destruct (bedrock_client region) as [u|e]; [|reflexivity].
  rewrite calls_lift_bind.
  destruct (py_get bedrock_cfg "max_tokens" _) as [mt|e]; [|reflexivity].
  rewrite calls_lift_bind.
  destruct (py_int mt) as [max_tokens|e]; [|reflexivity].
  rewrite calls_lift_bind.
  destruct (py_get bedrock_cfg "temperature" _) as [t|e]; [|reflexivity].
  rewrite calls_lift_bind.
  destruct (py_float t) as [temperature|e]; [|reflexivity].
  rewrite calls_ext_bind.
  destruct (bedrock_invoke_model _ _ _) as [response|e]; reflexivity.
Qed.

Lemma build_llm_output_calls (bedrock_cfg features : json) (simulate : bool) :
  forallb is_model_call
    (calls (build_llm_output bedrock_cfg features simulate)) = true.
Proof.
  unfold build_llm_output; destruct simulate; [reflexivity|].
  rewrite calls_mbind.
  destruct (outcome (invoke_bedrock bedrock_cfg features));
    simpl; rewrite app_nil_r; apply invoke_bedrock_calls.
Qed.

(** Storing begins with the creation of the S3 client.  After it:
    nothing, the document alone, or the document and then the data; the
    stage returns only in the last case, and the document it stored is
    the brief's [html_summary] ([""] when there is none). *)
Lemma save_artifacts_trace (features llm_output : json) :
  (calls (save_artifacts features llm_output) = [S3Client]
   /\ exists e, outcome (save_artifacts features llm_output) = Raise e)
  \/ (exists key document,
        calls (save_artifacts features llm_output)
        = [S3Client; S3PutObject output_bucket key document "text/html"]
        /\ exists e, outcome (save_artifacts features llm_output) = Raise e)
  \/ (exists key1 document key2 data,
        calls (save_artifacts features llm_output)
        = [S3Client;
           S3PutObject output_bucket key1 document "text/html";
           S3PutObject output_bucket key2 data "application/json"]
        /\ py_get llm_output "html_summary" (JStr "") = Ok (JStr document)).
Proof.
  unfold save_artifacts.
  rewrite calls_ext_bind, outcome_ext_bind.
  destruct s3_client as [u0|e]; [|left; eauto].
  rewrite calls_lift_bind, outcome_lift_bind.
  destruct (py_get features "company_name" _) as [cn|e]; [|left; eauto].
  rewrite calls_lift_bind, outcome_lift_bind.
  destruct (as_text cn) as [cn_text|e]; [|left; eauto].
  rewrite calls_lift_bind, outcome_lift_bind.
  destruct (py_get llm_output "html_summary" (JStr "")) as [html|e] eqn:Hhtml;
    [|left; eauto].
  rewrite calls_lift_bind, outcome_lift_bind.
  destruct (as_text html) as [html_body|e] eqn:Hbody; [|left; eauto].
  assert (html = JStr html_body)
    by (destruct html; try discriminate; inversion Hbody; reflexivity).
  subst html.
  rewrite calls_ext_bind, outcome_ext_bind.
  destruct (s3_put_object _ _ _ "text/html") as [u|e];
    [|right; left; eauto].
  rewrite calls_lift_bind, outcome_lift_bind.
  destruct (py_get llm_output "json_data" _) as [data|e];
    [|right; left; eauto].
  right; right; do 4 eexists; split; reflexivity.
Qed.

Lemma save_artifacts_ok (features llm_output : json) (u : unit) :
  outcome (save_artifacts features llm_output) = Ok u ->
  exists key1 document key2 data,
    calls (save_artifacts features llm_output)
    = [S3Client;
       S3PutObject output_bucket key1 document "text/html";
       S3PutObject output_bucket key2 data "application/json"]
    /\ py_get llm_output "html_summary" (JStr "") = Ok (JStr document).
Proof.
  intros Hok.
  destruct (save_artifacts_trace features llm_output)
    as [[_ [e He]]|[[k [doc [_ [e He]]]]|Hfull]];
    [congruence | congruence | exact Hfull].
Qed.

(** Sending: nothing, the client alone, or the client and then the email,
    which goes to a truthy sender and recipient and carries the brief's
    [html_summary] (a placeholder when there is none). *)
Lemma send_notification_trace (features ses_cfg llm_output : json) :
  (calls (send_notification features ses_cfg llm_output) = []
   /\ exists e,
        outcome (send_notification features ses_cfg llm_output) = Raise e)
  \/ (calls (send_notification features ses_cfg llm_output)
      = [SesClient None]
      /\ exists e,
           outcome (send_notification features ses_cfg llm_output) = Raise e)
  \/ (exists sender recipient subject html,
        calls (send_notification features ses_cfg llm_output)
        = [SesClient None; SesSendEmail sender recipient subject html]
        /\ truthy sender = true /\ truthy recipient = true
        /\ py_get llm_output "html_summary"
             (JStr "<p>Error generating HTML.</p>") = Ok html).
Proof.
  unfold send_notification.
  rewrite calls_lift_bind, outcome_lift_bind.
  destruct (py_get ses_cfg "sender" JNull) as [sender|e]; [|left; eauto].
  rewrite calls_lift_bind, outcome_lift_bind.
  destruct (py_get ses_cfg "recipient" JNull) as [recipient|e];
    [|left; eauto].
  rewrite calls_lift_bind, outcome_lift_bind.
  destruct (py_get features "company_name" _) as [cn|e]; [|left; eauto].
  destruct (truthy sender) eqn:Hs; simpl negb; cbv iota;
    [|left; split; [reflexivity | eexists; reflexivity]].
  destruct (truthy recipient) eqn:Hr; simpl negb; simpl orb; cbv iota;
    [|left; split; [reflexivity | eexists; reflexivity]].
  rewrite calls_ext_bind, outcome_ext_bind.
  destruct (ses_client None) as [u|e]; [|right; left; eauto].
  rewrite calls_lift_bind, outcome_lift_bind.
  destruct (py_get llm_output "html_summary" _) as [html|e] eqn:Hhtml;
    [|right; left; eauto].
  right; right; exists sender, recipient.
  do 2 eexists; split; [|repeat split; eauto].
  rewrite calls_ext_bind.
  destruct (ses_send_email _ _ _ _); reflexivity.
Qed.

Lemma send_notification_ok (features ses_cfg llm_output : json) (u : unit) :
  outcome (send_notification features ses_cfg llm_output) = Ok u ->
  exists sender recipient subject html,
    calls (send_notification features ses_cfg llm_output)
    = [SesClient None; SesSendEmail sender recipient subject html]
    /\ truthy sender = true /\ truthy recipient = true
    /\ py_get llm_output "html_summary"
         (JStr "<p>Error generating HTML.</p>") = Ok html.
Proof.
  intros Hok.
  destruct (send_notification_trace features ses_cfg llm_output)
    as [[_ [e He]]|[[_ [e He]]|Hfull]];
    [congruence | congruence | exact Hfull].
Qed.

(** X11: in every run, successful or not, the external calls are calls to
    the model followed by an initial part of the delivery sequence:
    create the S3 client, store the document, store the data, create the
    email client, send the email.  So no email goes out before both
    objects are stored, and the model is never called after the S3 client
    was created. *)
Theorem brief_calls_are_ordered (event : json) :
  exists model_calls delivery,
    calls (handler event) = (model_calls ++ delivery)%list
    /\ forallb is_model_call model_calls = true
    /\ delivery_shape delivery = true.
Proof.
  destruct (handler_stages event)
    as [[e He]|[features [bedrock_cfg [ses_cfg [simulate
          [_ [_ [_ [_ [_ Hrun]]]]]]]]]].
  - exists [], []; rewrite He; repeat split.
  - rewrite Hrun, calls_mbind.
    exists (calls (build_llm_output bedrock_cfg features (truthy simulate))).
    eexists; split; [reflexivity|].
    split; [apply build_llm_output_calls|].
    destruct (outcome (build_llm_output _ _ _)) as [llm_output|e];
      [|reflexivity].
    rewrite calls_mbind.
    destruct (save_artifacts_trace features llm_output)
      as [[Hc [e He]]|[[k [doc [Hc [e He]]]]|[k1 [doc [k2 [data [Hc _]]]]]]];
      rewrite Hc; try (rewrite He; reflexivity).
    destruct (outcome (save_artifacts features llm_output)) as [u|e];
      [|reflexivity].
    rewrite calls_mbind.
    destruct (send_notification_trace features ses_cfg llm_output)
      as [[Hs [e He]]|[[Hs [e He]]|[s [r [subj [html [Hs _]]]]]]];
      rewrite Hs; try (rewrite He; reflexivity).
    destruct (outcome (send_notification _ _ _)); reflexivity.
Qed.

(** X12: when the handler returns, its value is the success record, and
    after the model calls it made exactly five calls: the S3 client was
    created, the document was stored as [text/html], the data as
    [application/json], the email client was created and one email was
    sent to a truthy sender and recipient.  The emailed body is the
    stored document, except when the brief has no [html_summary]: then
    an empty document was stored and the placeholder was mailed. *)
Theorem brief_success_trace (event v : json) :
  outcome (handler event) = Ok v ->
  v = success_value
  /\ exists model_calls key1 document key2 data sender recipient subject html,
       calls (handler event)
       = (model_calls
          ++ [S3Client;
              S3PutObject output_bucket key1 document "text/html";
              S3PutObject output_bucket key2 data "application/json";
              SesClient None;
              SesSendEmail sender recipient subject html])%list
       /\ forallb is_model_call model_calls = true
       /\ truthy sender = true /\ truthy recipient = true
       /\ (html = JStr document
           \/ (document = ""
               /\ html = JStr "<p>Error generating HTML.</p>")).
Proof.
  intros Hok.
  destruct (handler_stages event)
    as [[e He]|[features [bedrock_cfg [ses_cfg [simulate
          [_ [_ [_ [_ [_ Hrun]]]]]]]]]];
    [rewrite He in Hok; discriminate|].
  rewrite Hrun in *; clear Hrun.
  apply outcome_mbind_ok in Hok; destruct Hok as [llm_output [Hbuild Hok]].
  apply outcome_mbind_ok in Hok; destruct Hok as [u1 [Hsave Hok]].
  apply outcome_mbind_ok in Hok; destruct Hok as [u2 [Hsend Hok]].
  simpl in Hok; inversion Hok; subst v; split; [reflexivity|].
  destruct (save_artifacts_ok _ _ _ Hsave)
    as [key1 [document [key2 [data [Hputs Hdoc]]]]].
  destruct (send_notification_ok _ _ _ _ Hsend)
    as [sender [recipient [subject [html [Hmail [Hs [Hr Hhtml]]]]]]].
  exists (calls (build_llm_output bedrock_cfg features (truthy simulate))),
         key1, document, key2, data, sender, recipient, subject, html.
  split.
  - rewrite calls_mbind, Hbuild, calls_mbind, Hsave, calls_mbind, Hsend.
    rewrite Hputs, Hmail; simpl; reflexivity.
  - split; [apply build_llm_output_calls|].
    split; [exact Hs | split; [exact Hr|]].
    destruct llm_output; try discriminate.
    unfold py_get in Hdoc, Hhtml.
    destruct (dict_lookup "html_summary" d) as [h|];
      inversion Hdoc; inversion Hhtml; subst; auto.
Qed.

(** The stage cannot finish when the feature record carries a company
    name that is not a string. *)
Lemma non_text_name_aborts (event : json) (d : list (string * json))
    (name : json) :
  unwrap_features event = Ok (JDict d) ->
  dict_lookup "company_name" d = Some name ->
  is_str name = false ->
  exists e, outcome (handler event) = Raise e.
Proof.
  intros Hf Hname Hstr.
  destruct (handler_stages event)
    as [[e He]|[features [bedrock_cfg [ses_cfg [simulate
          [Hf' [_ [_ [_ [_ Hrun]]]]]]]]]];
    [rewrite He; eexists; reflexivity|].
  assert (features = JDict d) by congruence; subst features.
  rewrite Hrun, outcome_mbind.
  destruct (outcome (build_llm_output _ _ _)) as [llm_output|e];
    [|eexists; reflexivity].
  rewrite outcome_mbind.
  destruct (save_artifacts_trace (JDict d) llm_output)
    as [[_ [e He]]|[[k [doc [_ [e He]]]]|[k1 [doc [k2 [data [Hc _]]]]]]];
    try (rewrite He; eexists; reflexivity).
  exfalso; revert Hc.
  unfold save_artifacts.
  rewrite calls_ext_bind.
  destruct s3_client as [u0|e0]; [|discriminate].
  unfold py_get; rewrite Hname, mbind_lift_ok.
  destruct name; try discriminate; simpl; discriminate.
Qed.

End BriefTrace.

(** ** The build stage feeding the brief stage *)

Section Pipeline.
Context {TS : Timsort} {BI : Builtins} {SV : Services}.

(** X13: build_features copies the event's [name] into [company_name]
    even when it is missing or not a string, and generate_roi_brief cannot
    finish on such a record: whatever else the brief event holds, the run
    ends in an exception. *)
Theorem unnamed_account_cannot_be_briefed
    (event record name : json) (rest : list (string * json)) :
  outcome (BuildFeatures.handler event) = Ok record ->
  py_get event "name" JNull = Ok name ->
  is_str name = false ->
  exists e,
    outcome (GenerateRoiBrief.handler
               (GenerateRoiBrief.with_features rest record))
    = Raise e.
Proof.
  intros Hbuild Hname Hstr.
  destruct (handler_returns_record event record Hbuild)
    as [name' [cik [year [industry [fye [latest_revenue [yoy [sm [facts_data
          [Hv [Hname' _]]]]]]]]]]].
  assert (name' = name) by congruence; subst name' record.
  match type of Hbuild with
  | _ = Ok (JDict ?fields) =>
      apply (non_text_name_aborts _ fields name);
        [|reflexivity | exact Hstr]
  end.
  unfold GenerateRoiBrief.unwrap_features, GenerateRoiBrief.with_features,
    py_get.
  rewrite dict_lookup_set_same; reflexivity.
Qed.

End Pipeline.

(** ** generate_roi_brief: a reply that is not JSON *)

Section FallbackDelivery.
Context {BI : Builtins} {SV : Services}.
Import GenerateRoiBrief.

(** X14: a model reply on which the decoder raises [JSONDecodeError]
    does not stop the stage.  When the model call yields such a text, the
    feature record names the company with a string (or not at all),
    sender and recipient are given, the S3 client can be created and S3
    and SES accept the requests, the handler returns the success record,
    having stored the fallback document and an empty mapping and mailed
    the fallback document.  (Text here is a string of characters with
    code points up to 255, which can always be encoded as UTF-8.) *)
Theorem non_json_reply_is_delivered
    (event bedrock_cfg ses_cfg simulate sender recipient : json)
    (d : list (string * json)) (company text : string) :
  unwrap_features event = Ok (JDict d) ->
  d <> [] ->
  py_get (JDict d) "company_name" (JStr "unknown") = Ok (JStr company) ->
  config event "bedrock" = Ok bedrock_cfg ->
  config event "ses" = Ok ses_cfg ->
  py_get bedrock_cfg "simulate" (JBool false) = Ok simulate ->
  truthy simulate = false ->
  outcome (invoke_bedrock bedrock_cfg (JDict d)) = Ok text ->
  json_loads (strip text) = Raise JSONDecodeError ->
  s3_client = Ok tt ->
  py_get ses_cfg "sender" JNull = Ok sender ->
  py_get ses_cfg "recipient" JNull = Ok recipient ->
  truthy sender = true ->
  truthy recipient = true ->
  (forall key body content_type,
     s3_put_object output_bucket key body content_type = Ok tt) ->
  ses_client None = Ok tt ->
  (forall subject html,
     exists response, ses_send_email sender recipient subject html
                      = Ok response) ->
  outcome (handler event) = Ok success_value
  /\ exists subject,
       calls (handler event)
       = (calls (invoke_bedrock bedrock_cfg (JDict d))
          ++ [S3Client;
              S3PutObject output_bucket
                (utc_today ++ "/" ++ spaces_to_dashes (lower company)
                 ++ "-brief.html")
                (fallback_document text) "text/html";
              S3PutObject output_bucket
                (utc_today ++ "/" ++ spaces_to_dashes (lower company)
                 ++ "-data.json")
                (json_dumps_indent (JDict [])) "application/json";
              SesClient None;
              SesSendEmail sender recipient subject
                (JStr (fallback_document text))])%list.
Proof.
  intros Hf Hne Hcompany Hb Hs Hsim Hreal Hinvoke Hbad Hs3 Hsender Hrecipient
         Hst Hrt Hput Hclient Hsend.
  assert (Htruthy : truthy (JDict d) = true)
    by (destruct d; [congruence | reflexivity]).
  assert (Hbuild :
    build_llm_output bedrock_cfg (JDict d) false
    = (calls (invoke_bedrock bedrock_cfg (JDict d)),
       Ok (JDict [("json_data", JDict []);
                  ("html_summary", JStr (fallback_document text))]))).
  { unfold build_llm_output, parse_model_output.
    destruct (invoke_bedrock bedrock_cfg (JDict d)) as [log r].
    simpl in Hinvoke; subst r; simpl.
    rewrite Hbad, app_nil_r; reflexivity. }
  assert (Hcn : exists cn, py_get (JDict d) "company_name" (JStr "N/A")
                           = Ok cn) by (simpl; eauto).
  destruct Hcn as [cn Hcn].
  destruct (Hsend (JStr ("Account ROI Brief: " ++ py_format cn))
                  (JStr (fallback_document text))) as [response Hresponse].
  assert (Hsave :
    save_artifacts (JDict d)
      (JDict [("json_data", JDict []);
              ("html_summary", JStr (fallback_document text))])
    = ([S3Client;
        S3PutObject output_bucket
          (utc_today ++ "/" ++ spaces_to_dashes (lower company)
           ++ "-brief.html")
          (fallback_document text) "text/html";
        S3PutObject output_bucket
          (utc_today ++ "/" ++ spaces_to_dashes (lower company)
           ++ "-data.json")
          (json_dumps_indent (JDict [])) "application/json"], Ok tt)).
  { unfold save_artifacts.
    rewrite Hs3; unfold ext at 1, mbind at 1.
    rewrite Hcompany, mbind_lift_ok; simpl as_text; rewrite mbind_lift_ok.
    unfold py_get at 1; simpl dict_lookup; rewrite mbind_lift_ok.
    simpl as_text; rewrite mbind_lift_ok.
    unfold ext, mbind at 1; rewrite Hput.
    unfold py_get at 1; simpl dict_lookup; rewrite mbind_lift_ok.
    rewrite Hput; reflexivity. }
  assert (Hmail :
    send_notification (JDict d) ses_cfg
      (JDict [("json_data", JDict []);
              ("html_summary", JStr (fallback_document text))])
    = ([SesClient None;
        SesSendEmail sender recipient
          (JStr ("Account ROI Brief: " ++ py_format cn))
          (JStr (fallback_document text))], Ok tt)).
  { unfold send_notification.
    rewrite Hsender, mbind_lift_ok, Hrecipient, mbind_lift_ok.
    rewrite Hcn, mbind_lift_ok, Hst, Hrt; simpl negb; simpl orb; cbv iota.
    unfold ext, mbind at 1; rewrite Hclient.
    unfold py_get at 1; simpl dict_lookup; rewrite mbind_lift_ok.
    rewrite Hresponse; reflexivity. }
  assert (Hrun :
    handler event
    = ((calls (invoke_bedrock bedrock_cfg (JDict d))
        ++ [S3Client;
            S3PutObject output_bucket
              (utc_today ++ "/" ++ spaces_to_dashes (lower company)
               ++ "-brief.html")
              (fallback_document text) "text/html";
            S3PutObject output_bucket
              (utc_today ++ "/" ++ spaces_to_dashes (lower company)
               ++ "-data.json")
              (json_dumps_indent (JDict [])) "application/json";
            SesClient None;
            SesSendEmail sender recipient
              (JStr ("Account ROI Brief: " ++ py_format cn))
              (JStr (fallback_document text))])%list,
       Ok success_value)).
  { unfold handler.
    rewrite Hf, mbind_lift_ok, Hb, mbind_lift_ok, Hs, mbind_lift_ok.
    rewrite Htruthy; simpl negb; cbv iota.
    rewrite Hsim, mbind_lift_ok, Hreal, Hbuild.
    unfold mbind at 1; rewrite Hsave.
    unfold mbind at 1; rewrite Hmail.
    reflexivity. }
  rewrite Hrun; split; [reflexivity | eexists; reflexivity].
Qed.

(** X27: only [JSONDecodeError] is caught.  When the decoder raises any
    other exception on the model's reply, the handler ends in that
    exception right after the model calls: the S3 client is not created,
    nothing is stored and nothing is sent. *)
Theorem other_decoder_failures_abort
    (event bedrock_cfg ses_cfg simulate : json)
    (d : list (string * json)) (text : string) (e : exn) :
  unwrap_features event = Ok (JDict d) ->
  d <> [] ->
  config event "bedrock" = Ok bedrock_cfg ->
  config event "ses" = Ok ses_cfg ->
  py_get bedrock_cfg "simulate" (JBool false) = Ok simulate ->
  truthy simulate = false ->
  outcome (invoke_bedrock bedrock_cfg (JDict d)) = Ok text ->
  json_loads (strip text) = Raise e ->
  e <> JSONDecodeError ->
  handler event = (calls (invoke_bedrock bedrock_cfg (JDict d)), Raise e).
Proof.
  intros Hf Hne Hb Hs Hsim Hreal Hinvoke Hbad Hother.
  assert (Htruthy : truthy (JDict d) = true)
    by (destruct d; [congruence | reflexivity]).
  assert (Hparse : parse_model_output text = Raise e).
  { unfold parse_model_output; rewrite Hbad.
    destruct e; try reflexivity; congruence. }
  unfold handler.
  rewrite Hf, mbind_lift_ok, Hb, mbind_lift_ok, Hs, mbind_lift_ok.
  rewrite Htruthy; simpl negb; cbv iota.
  rewrite Hsim, mbind_lift_ok, Hreal.
  unfold build_llm_output.
  destruct (invoke_bedrock bedrock_cfg (JDict d)) as [log r].
  simpl in Hinvoke; subst r; simpl.
  rewrite Hparse, app_nil_r; reflexivity.
Qed.

End FallbackDelivery.

(** ** analyze_and_notify *)

Lemma lower_append (a b : string) :
  lower (a ++ b) = (lower a ++ lower b)%string.
Proof. induction a as [|c a IH]; simpl; [|rewrite IH]; reflexivity. Qed.

Section AnalyzeAndNotifyFacts.
Context {BI : Builtins} {SV : Services}.
Import AnalyzeAndNotify.


(** X15: without content to analyze the handler makes no external call.
    When the prompt context is missing, the empty string or the empty
    list, it returns the error value; when it is [null], a boolean or a
    number, reading its length for the log raises [TypeError]. *)
Theorem no_content_no_call (d : list (string * json))
    (data : list (string * json)) (prompt_context : json) :
  aggregated_data (JDict d) = Ok (JDict data) ->
  py_get (JDict data) "prompt_context" (JStr "") = Ok prompt_context ->
  (prompt_context = JStr "" \/ prompt_context = JList [] ->
   handler (JDict d) = ([], Ok no_content))
  /\ (is_none prompt_context = true \/ as_num prompt_context <> None ->
      handler (JDict d) = ([], Raise TypeError)).
Proof.
  unfold aggregated_data; intros Hagg Hpc.
  unfold py_get at 1 in Hagg; simpl rbind in Hagg.
  set (agg := py_or _ (JDict [])) in Hagg.
  destruct (is_dict agg) eqn:Hdict; [|discriminate].
  destruct (py_in "Payload" agg) as [wrapped|e] eqn:Hwrapped;
    [|discriminate].
  simpl rbind in Hagg.
  split; intros Hcase;
    (unfold handler; cbv zeta;
     unfold py_get at 1 2 3; rewrite !mbind_lift_ok;
     fold agg; rewrite Hdict; simpl negb; cbv iota;
     rewrite Hwrapped, mbind_lift_ok, Hagg, mbind_lift_ok;
     rewrite Hpc, mbind_lift_ok;
     unfold py_get at 1; rewrite mbind_lift_ok).
  - destruct Hcase as [-> | ->]; reflexivity.
  - destruct Hcase as [Hnone|Hnum]; destruct prompt_context;
      simpl in Hnone || simpl in Hnum;
      try discriminate; try congruence; reflexivity.
Qed.


Lemma response_text_not_empty (resp : json) (t : string) :
  response_text resp = Ok t -> t <> "".
Proof.
  unfold response_text; intros Ht.
  destruct (is_dict resp); [|discriminate].
  bind_inv Ht. bind_inv Ht. inversion Ht; subst.
  destruct (String.eqb a0 "") eqn:He; [discriminate|].
  apply String.eqb_neq; exact He.
Qed.

(** X17: the text taken from a model response is never empty.  When the
    response carries content blocks it is what the text blocks say, in
    order; when they say nothing, or there are none, it is the
    placeholder paragraph. *)
Theorem response_text_is_never_empty
    (resp : json) (t : string) :
  (response_text resp = Ok t -> t <> "")
  /\ (forall d blocks segments,
        resp = JDict d ->
        dict_lookup "content" d = Some (JList blocks) ->
        Forall2 block_says blocks segments ->
        response_text resp
        = Ok (if String.eqb (said segments) ""
              then "<p>No response text produced.</p>"
              else said segments))
  /\ (forall d, resp = JDict d -> dict_lookup "content" d = None ->
        response_text resp = Ok "<p>No response text produced.</p>").
Proof.
  split; [apply response_text_not_empty | split].
  - intros d blocks segments -> Hcontent Hsays.
    unfold response_text, is_dict, py_in, py_index, dict_mem.
    rewrite Hcontent; cbv beta iota delta [rbind].
    destruct blocks as [|b bs].
    + inversion Hsays; subst; reflexivity.
    + rewrite (text_of_blocks_said (b :: bs) segments "" Hsays).
      reflexivity.
  - intros d -> Hcontent.
    unfold response_text, is_dict, py_in, dict_mem.
    rewrite Hcontent; reflexivity.
Qed.

Lemma html_body_looks_like_html (llm_text : string) :
  str_contains "<html" (lower (html_body_of llm_text)) = true.
Proof.
  unfold html_body_of.
  destruct (str_contains "<html" (lower llm_text)) eqn:Hc; [exact Hc|].
  reflexivity.
Qed.

(** X18: the email body always contains ["<html"], in any letter case.
    A reply that already does is sent as it is; any other reply is put
    between a heading with today's date and the closing tags. *)
Theorem email_body_is_a_document (llm_text : string) :
  str_contains "<html" (lower (html_body_of llm_text)) = true
  /\ (str_contains "<html" (lower llm_text) = true ->
      html_body_of llm_text = llm_text)
  /\ (str_contains "<html" (lower llm_text) = false ->
      exists head, html_body_of llm_text
                   = (head ++ llm_text ++ "
</body></html>")%string
                   /\ str_contains utc_today head = true).
Proof.
  split; [apply html_body_looks_like_html | split].
  - unfold html_body_of; intros ->; reflexivity.
  - unfold html_body_of; intros ->.
    exists ("<html><body>
<h1>Daily Web Intel - " ++ utc_today ++ "</h1>
")%string.
    split.
    + rewrite !append_assoc; reflexivity.
    + apply str_contains_middle.
Qed.

(** X19: what a returning run did.  The error value for missing content
    comes with no external call at all.  The error value for a missing
    sender or recipient comes after the model was invoked: the contact is
    only looked at once the reply is there, and no email client is
    created.  Otherwise the result is the [sent] record, after exactly
    four calls in this order: Bedrock client, model invocation, SES
    client, one email, sent for a truthy sender to a truthy recipient with
    a body that contains ["<html"]; the record names the model that was
    invoked and the recipient and subject of that email. *)
Theorem notify_result_kinds (event v : json) :
  outcome (handler event) = Ok v ->
  (v = no_content /\ calls (handler event) = [])
  \/ exists region model_id body,
       (v = no_contact
        /\ calls (handler event)
           = [BedrockClient region; BedrockInvokeModel region model_id body])
       \/ exists ses_region sender recipient subject html message_id,
            v = JDict [("status", JStr "sent");
                       ("recipient", recipient);
                       ("subject", subject);
                       ("model", model_id);
                       ("message_id", message_id)]
            /\ calls (handler event)
               = [BedrockClient region;
                  BedrockInvokeModel region model_id body;
                  SesClient ses_region;
                  SesSendEmail sender recipient subject (JStr html)]
            /\ truthy sender = true /\ truthy recipient = true
            /\ str_contains "<html" (lower html) = true.
Proof.
  destruct (handler event) as [log r] eqn:Hrun.
  unfold outcome, calls; simpl; intros ->.
  unfold handler in Hrun; cbv zeta in Hrun.
  lift_inv Hrun. lift_inv Hrun. lift_inv Hrun.
  destruct (negb (is_dict _)); [discriminate|].
  lift_inv Hrun. lift_inv Hrun. lift_inv Hrun. lift_inv Hrun.
  lift_inv Hrun. lift_inv Hrun.
  destruct (negb (truthy _)).
  { left; inversion Hrun; auto. }
  right.
  lift_inv Hrun. lift_inv Hrun. lift_inv Hrun. lift_inv Hrun.
  lift_inv Hrun. lift_inv Hrun. lift_inv Hrun.
  ext_inv Hrun. ext_inv Hrun.
  lift_inv Hrun. lift_inv Hrun. lift_inv Hrun. lift_inv Hrun.
  do 3 eexists.
  match goal with
  | Hs : py_get _ "sender" JNull = Ok ?sender,
    Hr : py_get _ "recipient" JNull = Ok ?recipient |- _ =>
      destruct (truthy sender) eqn:Hsender;
      [destruct (truthy recipient) eqn:Hrecipient|]
  end; cbn [negb orb] in Hrun.
  2:{ left; inversion Hrun; subst; split; reflexivity. }
  2:{ left; inversion Hrun; subst; split; reflexivity. }
  right.
  ext_inv Hrun. ext_inv Hrun. lift_inv Hrun.
  inversion Hrun; subst.
  do 6 eexists.
  split; [reflexivity|].
  split; [reflexivity|].
  split; [exact Hsender|].
  split; [exact Hrecipient|].
  apply html_body_looks_like_html.
Qed.

(** X26: what the model is asked.  Whenever the handler invokes the
    model, the request carries the fixed system prompt and one user
    message whose text is the prompt context.  The context goes out
    unchanged, except when [source_count] equals 0, which is also the
    default when the field is missing: then the fixed test passage is
    appended to it. *)
Theorem test_passage_reaches_the_model
    (d data : list (string * json)) (prompt_context source_count : json)
    (first_call : call) (region model_id body : json) (others : list call) :
  aggregated_data (JDict d) = Ok (JDict data) ->
  py_get (JDict data) "prompt_context" (JStr "") = Ok prompt_context ->
  py_get (JDict data) "source_count" (JInt 0) = Ok source_count ->
  calls (handler (JDict d))
  = first_call :: BedrockInvokeModel region model_id body :: others ->
  exists text max_tokens temperature,
    body = JDict
             [("anthropic_version", JStr "bedrock-2023-05-31");
              ("system", JStr system_prompt);
              ("messages",
               JList [JDict [("role", JStr "user");
                             ("content",
                              JList [JDict [("type", JStr "text");
                                            ("text", text)]])]]);
              ("max_tokens", max_tokens);
              ("temperature", temperature)]
    /\ (py_eq source_count (JInt 0) = true ->
        iadd_text prompt_context test_content = Ok text)
    /\ (py_eq source_count (JInt 0) = false -> text = prompt_context).
Proof.
  unfold aggregated_data; intros Hagg Hpc Hsc Hcalls.
  unfold py_get at 1 in Hagg; simpl rbind in Hagg.
  set (agg := py_or _ (JDict [])) in Hagg.
  destruct (is_dict agg) eqn:Hdict; [|discriminate].
  destruct (py_in "Payload" agg) as [wrapped|e] eqn:Hwrapped;
    [|discriminate].
  simpl rbind in Hagg.
  unfold handler in Hcalls; cbv zeta in Hcalls.
  unfold py_get at 1 2 3 in Hcalls; rewrite !mbind_lift_ok in Hcalls.
  fold agg in Hcalls; rewrite Hdict in Hcalls.
  simpl negb in Hcalls; cbv iota in Hcalls.
  rewrite Hwrapped, mbind_lift_ok, Hagg, mbind_lift_ok in Hcalls.
  rewrite Hpc, mbind_lift_ok, Hsc, mbind_lift_ok in Hcalls.
  rewrite calls_lift_bind in Hcalls.
  destruct (check_len prompt_context); [|discriminate].
  rewrite calls_lift_bind in Hcalls.
  destruct (check_slice prompt_context); [|discriminate].
  destruct (negb (truthy prompt_context)); [discriminate|].
  rewrite calls_lift_bind in Hcalls.
  destruct (if py_eq source_count (JInt 0) then _ else _)
    as [text|e] eqn:Htext; [|discriminate].
  rewrite calls_lift_bind in Hcalls.
  destruct (resolve_region _) as [bedrock_region|e]; [|discriminate].
  rewrite calls_lift_bind in Hcalls.
  destruct (py_get _ "model_id" JNull) as [m|e]; [|discriminate].
  rewrite calls_lift_bind in Hcalls.
  destruct (py_get _ "max_tokens" _) as [mt|e]; [|discriminate].
  rewrite calls_lift_bind in Hcalls.
  destruct (py_int mt) as [max_tokens|e]; [|discriminate].
  rewrite calls_lift_bind in Hcalls.
  destruct (py_get _ "temperature" _) as [t|e]; [|discriminate].
  rewrite calls_lift_bind in Hcalls.
  destruct (py_float t) as [temperature|e]; [|discriminate].
  rewrite calls_ext_bind in Hcalls.
  destruct (bedrock_client _) as [u|e]; [|discriminate].
  rewrite calls_ext_bind in Hcalls.
  inversion Hcalls; subst.
  exists text, max_tokens, temperature.
  split; [reflexivity|].
  split; intros Hzero; rewrite Hzero in Htext;
    [exact Htext | inversion Htext; reflexivity].
Qed.

End AnalyzeAndNotifyFacts.

(** ** fetch_edgar_data *)

Lemma zeros_length (n : nat) : String.length (zeros n) = n.
Proof. induction n as [|n IH]; simpl; [|rewrite IH]; reflexivity. Qed.

Lemma append_length (a b : string) :
  String.length (a ++ b) = (String.length a + String.length b)%nat.
Proof. induction a as [|c a IH]; simpl; [|rewrite IH]; reflexivity. Qed.

Lemma zfill_length (width : nat) (s : string) :
  String.length (zfill width s) = Nat.max width (String.length s).
Proof.
  unfold zfill; destruct s as [|c rest].
  - simpl; rewrite zeros_length; lia.
  - destruct (Ascii.eqb c "+" || Ascii.eqb c "-")%bool; simpl;
      rewrite append_length, zeros_length; simpl; lia.
Qed.

Lemma zfill_unsigned (width : nat) (c : ascii) (rest : string) :
  c <> "+"%char -> c <> "-"%char ->
  zfill width (String c rest)
  = (zeros (width - String.length (String c rest)) ++ String c rest)%string.
Proof.
  intros Hplus Hminus; unfold zfill.
  apply Ascii.eqb_neq in Hplus, Hminus; rewrite Hplus, Hminus; reflexivity.
Qed.

Section FetchFacts.
Context {BI : Builtins} {FE : Fetcher}.
Import FetchEdgarData.

(** The four calls of a full run for the company identifier [cik], with
    the bodies [facts] and [submissions]. *)
Lemma handler_with_cik (event account cik : json) :
  py_get event "account" (JDict []) = Ok account ->
  py_get account "cik" JNull = Ok cik ->
  truthy cik = true ->
  handler event
  = mbind (ext (HttpGet (facts_url (zfill 10 (py_format cik))))
               (http_get (facts_url (zfill 10 (py_format cik)))))
      (fun facts =>
         mbind (ext (PutObject OUTPUT_BUCKET (facts_key cik) facts)
                    (put_object OUTPUT_BUCKET (facts_key cik) facts))
           (fun _ =>
              mbind (ext (HttpGet (submissions_url (zfill 10 (py_format cik))))
                         (http_get
                            (submissions_url (zfill 10 (py_format cik)))))
                (fun submissions =>
                   mbind (ext (PutObject OUTPUT_BUCKET (submissions_key cik)
                                 submissions)
                              (put_object OUTPUT_BUCKET (submissions_key cik)
                                 submissions))
                     (fun _ => mret (claim_check cik))))).
Proof.
  intros Haccount Hcik Htruthy; unfold handler.
  rewrite Haccount, mbind_lift_ok, Hcik, mbind_lift_ok, Htruthy.
  reflexivity.
Qed.

(** Either the handler stops before any request, or the event names a
    truthy company identifier. *)
Lemma handler_needs_cik (event : json) :
  (exists e, handler event = ([], Raise e))
  \/ exists account cik,
       py_get event "account" (JDict []) = Ok account
       /\ py_get account "cik" JNull = Ok cik
       /\ truthy cik = true.
Proof.
  unfold handler.
  destruct (py_get event "account" (JDict [])) as [account|e] eqn:Ha;
    [rewrite mbind_lift_ok | left; eexists; reflexivity].
  destruct (py_get account "cik" JNull) as [cik|e] eqn:Hc;
    [rewrite mbind_lift_ok | left; eexists; reflexivity].
  destruct (truthy cik) eqn:Ht; [|left; eexists; reflexivity].
  right; exists account, cik; auto.
Qed.

Lemma handler_returns (event v : json) :
  outcome (handler event) = Ok v ->
  exists cik facts submissions,
    truthy cik = true
    /\ http_get (facts_url (zfill 10 (py_format cik))) = Ok facts
    /\ http_get (submissions_url (zfill 10 (py_format cik)))
       = Ok submissions
    /\ v = claim_check cik
    /\ calls (handler event)
       = [HttpGet (facts_url (zfill 10 (py_format cik)));
          PutObject OUTPUT_BUCKET (facts_key cik) facts;
          HttpGet (submissions_url (zfill 10 (py_format cik)));
          PutObject OUTPUT_BUCKET (submissions_key cik) submissions].
Proof.
  intros Hok.
  destruct (handler_needs_cik event)
    as [[e He]|[account [cik [Ha [Hc Ht]]]]];
    [rewrite He in Hok; discriminate|].
  rewrite (handler_with_cik event account cik Ha Hc Ht) in *.
  destruct (mbind _ _) as [log r] eqn:Hrun in Hok |- *.
  unfold outcome, calls in *; simpl in Hok |- *; subst r.
  ext_inv Hrun. ext_inv Hrun. ext_inv Hrun. ext_inv Hrun.
  inversion Hrun; subst.
  exists cik, a, a1; repeat split; assumption.
Qed.

(** X20: no request leaves the stage unless the event's account names a
    truthy company identifier.  An account without [cik], or with one
    that is [null], [0], [false] or empty, stops the run with the
    [ValueError]; an account that is not a mapping stops it with an
    [AttributeError]. *)
Theorem no_identifier_no_request (event : json) :
  (calls (handler event) <> [] ->
   exists account cik,
     py_get event "account" (JDict []) = Ok (JDict account)
     /\ dict_lookup "cik" account = Some cik
     /\ truthy cik = true)
  /\ (forall account cik,
        py_get event "account" (JDict []) = Ok account ->
        py_get account "cik" JNull = Ok cik ->
        truthy cik = false ->
        handler event
        = ([], Raise (ValueError "Missing 'cik' in account object")))
  /\ (forall account,
        py_get event "account" (JDict []) = Ok account ->
        is_dict account = false ->
        handler event = ([], Raise AttributeError)).
Proof.
  split; [|split].
  - intros Hcalls.
    destruct (handler_needs_cik event)
      as [[e He]|[account [cik [Ha [Hc Ht]]]]];
      [rewrite He in Hcalls; contradiction Hcalls; reflexivity|].
    destruct account as [| | | | | |fields]; try discriminate.
    exists fields, cik; split; [exact Ha|].
    unfold py_get in Hc.
    destruct (dict_lookup "cik" fields) as [c|];
      inversion Hc; subst; [auto | discriminate].
  - intros account cik Ha Hc Ht; unfold handler.
    rewrite Ha, mbind_lift_ok, Hc, mbind_lift_ok, Ht; reflexivity.
  - intros account Ha Hd; unfold handler.
    rewrite Ha, mbind_lift_ok.
    destruct account; try discriminate; reflexivity.
Qed.

(** X21: a run that returns made exactly four calls: it fetched the facts
    and stored them, then fetched the submissions and stored them.  Each
    object stored is the body the matching address answered with, both go
    to the output bucket, and the claim check returned names exactly the
    two keys written and carries the identifier unchanged. *)
Theorem fetch_stores_what_it_fetched (event v : json) :
  outcome (handler event) = Ok v ->
  exists cik facts submissions,
    truthy cik = true
    /\ http_get (facts_url (zfill 10 (py_format cik))) = Ok facts
    /\ http_get (submissions_url (zfill 10 (py_format cik)))
       = Ok submissions
    /\ v = JDict [("status", JStr "success");
                  ("cik", cik);
                  ("s3_references",
                   JDict [("facts_key", JStr (facts_key cik));
                          ("submissions_key",
                           JStr (submissions_key cik))])]
    /\ calls (handler event)
       = [HttpGet (facts_url (zfill 10 (py_format cik)));
          PutObject OUTPUT_BUCKET (facts_key cik) facts;
          HttpGet (submissions_url (zfill 10 (py_format cik)));
          PutObject OUTPUT_BUCKET (submissions_key cik) submissions].
Proof. apply handler_returns. Qed.

(** X22: a failure is handed on as it is and ends the run where it
    happened; nothing stored before is taken back.  In particular a
    failing request for the submissions leaves the facts object in the
    bucket. *)
Theorem fetch_failure_stops_the_run
    (event account cik : json) (e : exn) :
  py_get event "account" (JDict []) = Ok account ->
  py_get account "cik" JNull = Ok cik ->
  truthy cik = true ->
  let facts_address := facts_url (zfill 10 (py_format cik)) in
  let submissions_address := submissions_url (zfill 10 (py_format cik)) in
  (http_get facts_address = Raise e ->
   handler event = ([HttpGet facts_address], Raise e))
  /\ (forall facts,
        http_get facts_address = Ok facts ->
        put_object OUTPUT_BUCKET (facts_key cik) facts = Raise e ->
        handler event
        = ([HttpGet facts_address;
            PutObject OUTPUT_BUCKET (facts_key cik) facts], Raise e))
  /\ (forall facts u,
        http_get facts_address = Ok facts ->
        put_object OUTPUT_BUCKET (facts_key cik) facts = Ok u ->
        http_get submissions_address = Raise e ->
        handler event
        = ([HttpGet facts_address;
            PutObject OUTPUT_BUCKET (facts_key cik) facts;
            HttpGet submissions_address], Raise e))
  /\ (forall facts u submissions,
        http_get facts_address = Ok facts ->
        put_object OUTPUT_BUCKET (facts_key cik) facts = Ok u ->
        http_get submissions_address = Ok submissions ->
        put_object OUTPUT_BUCKET (submissions_key cik) submissions
        = Raise e ->
        handler event
        = ([HttpGet facts_address;
            PutObject OUTPUT_BUCKET (facts_key cik) facts;
            HttpGet submissions_address;
            PutObject OUTPUT_BUCKET (submissions_key cik) submissions],
           Raise e)).
Proof.
  intros Ha Hc Ht facts_address submissions_address.
  subst facts_address submissions_address.
  rewrite (handler_with_cik event account cik Ha Hc Ht).
  split; [|split; [|split]].
  - intros ->; reflexivity.
  - intros facts -> Hput; unfold ext, mbind; rewrite Hput; reflexivity.
  - intros facts u -> Hput Hget; unfold ext, mbind.
    rewrite Hput, Hget; reflexivity.
  - intros facts u submissions -> Hput Hget Hput2; unfold ext, mbind.
    rewrite Hput, Hget, Hput2; reflexivity.
Qed.

(** X23: the identifier is padded for the addresses only.  When its text
    carries no sign, the address requested first ends in the text
    preceded by zeros, [max 10 (length text)] characters together, while
    the storage key holds the text as it is. *)
Theorem identifier_is_padded_in_addresses_only
    (event account cik : json) (c : ascii) (rest : string) :
  py_get event "account" (JDict []) = Ok account ->
  py_get account "cik" JNull = Ok cik ->
  truthy cik = true ->
  py_format cik = String c rest ->
  c <> "+"%char -> c <> "-"%char ->
  exists padding others,
    calls (handler event)
    = HttpGet ("https://data.sec.gov/api/xbrl/companyfacts/CIK"
               ++ zeros padding ++ String c rest ++ ".json") :: others
    /\ (padding + String.length (String c rest)
        = Nat.max 10 (String.length (String c rest)))%nat
    /\ facts_key cik = ("intermediate/" ++ String c rest ++ "-facts.json")%string
    /\ submissions_key cik
       = ("intermediate/" ++ String c rest ++ "-submissions.json")%string.
Proof.
  intros Ha Hc Ht Htext Hplus Hminus.
  exists (10 - String.length (String c rest))%nat.
  rewrite (handler_with_cik event account cik Ha Hc Ht).
  rewrite calls_ext_bind.
  eexists; split; [|split; [lia | split]].
  - unfold facts_url.
    rewrite Htext, (zfill_unsigned 10 c rest Hplus Hminus), append_assoc.
    reflexivity.
  - unfold facts_key; rewrite Htext; reflexivity.
  - unfold submissions_key; rewrite Htext; reflexivity.
Qed.

End FetchFacts.

(** ** The fetch stage feeding the build stage *)

Section ClaimCheck.
Context {TS : Timsort} {BI : Builtins} {SV : Services} {FE : Fetcher}.

Lemma claim_check_is_unwrapped (d : list (string * json))
    (holder cik : json) :
  dict_lookup "edgar_data" d = Some holder ->
  (holder = FetchEdgarData.claim_check cik
   \/ exists envelope,
        holder = JDict envelope
        /\ dict_lookup "Payload" envelope
           = Some (FetchEdgarData.claim_check cik)) ->
  BuildFeatures.unwrap_edgar (JDict d) = Ok (FetchEdgarData.claim_check cik).
Proof.
  intros Hd Hholder; unfold BuildFeatures.unwrap_edgar, py_get.
  rewrite Hd; simpl rbind.
  destruct Hholder as [-> | [envelope [-> Hp]]].
  - reflexivity.
  - assert (Hne : truthy (JDict envelope) = true)
      by (destruct envelope; [discriminate | reflexivity]).
    unfold py_or; rewrite Hne; simpl.
    unfold dict_mem; rewrite Hp; simpl. reflexivity.
Qed.

(** The requests of the build stage, once its two keys are known. *)
Lemma build_requests (event edgar_obj s3_refs facts_key submissions_key : json) :
  BuildFeatures.unwrap_edgar event = Ok edgar_obj ->
  BuildFeatures.s3_references event edgar_obj = Ok s3_refs ->
  BuildFeatures.storage_keys s3_refs = Ok (facts_key, submissions_key) ->
  calls (BuildFeatures.handler event)
  = [S3GetObject output_bucket facts_key]
  \/ calls (BuildFeatures.handler event)
     = [S3GetObject output_bucket facts_key;
        S3GetObject output_bucket submissions_key].
Proof.
  intros Hunwrap Hrefs Hkeys; unfold BuildFeatures.handler.
  rewrite Hunwrap, mbind_lift_ok, Hrefs, mbind_lift_ok, Hkeys, mbind_lift_ok.
  cbv beta iota delta [fst snd].
  rewrite calls_load_json_bind.
  destruct (outcome (BuildFeatures.load_json facts_key)) as [facts_data|e];
    [|left; reflexivity].
  right; rewrite calls_load_json_bind.
  destruct (outcome (BuildFeatures.load_json submissions_key))
    as [submissions_data|e]; [|reflexivity].
  repeat (rewrite calls_lift_bind;
          match goal with
          | |- context [match ?r with Ok _ => _ | Raise _ => _ end] =>
              destruct r; [|reflexivity]
          end).
  reflexivity.
Qed.

(** X24: the build stage reads what the fetch stage wrote.  When the
    fetch stage returned and its result is handed over under
    [edgar_data], bare or inside one [Payload] envelope, the build stage's
    first request is for the facts key the fetch stage stored under, and
    its second, if it gets that far, is for the submissions key; it makes
    no other request. *)
Theorem build_reads_what_fetch_wrote
    (event v holder : json) (d : list (string * json)) :
  outcome (FetchEdgarData.handler event) = Ok v ->
  dict_lookup "edgar_data" d = Some holder ->
  (holder = v
   \/ exists envelope,
        holder = JDict envelope /\ dict_lookup "Payload" envelope = Some v) ->
  exists facts_address facts_key facts submissions_address submissions_key
         submissions,
    calls (FetchEdgarData.handler event)
    = [HttpGet facts_address;
       PutObject OUTPUT_BUCKET facts_key facts;
       HttpGet submissions_address;
       PutObject OUTPUT_BUCKET submissions_key submissions]
    /\ (calls (BuildFeatures.handler (JDict d))
        = [S3GetObject output_bucket (JStr facts_key)]
        \/ calls (BuildFeatures.handler (JDict d))
           = [S3GetObject output_bucket (JStr facts_key);
              S3GetObject output_bucket (JStr submissions_key)]).
Proof.
  intros Hok Hd Hholder.
  destruct (handler_returns event v Hok)
    as [cik [facts [submissions [_ [_ [_ [Hv Hcalls]]]]]]].
  subst v.
  do 6 eexists; split; [exact Hcalls|].
  apply (build_requests (JDict d) (FetchEdgarData.claim_check cik)
           (JDict [("facts_key", JStr (FetchEdgarData.facts_key cik));
                   ("submissions_key",
                    JStr (FetchEdgarData.submissions_key cik))])).
  - exact (claim_check_is_unwrapped d holder cik Hd Hholder).
  - reflexivity.
  - reflexivity.
Qed.

End ClaimCheck.

(** ** generate_roi_brief: the envelope around the feature record *)

Section BriefEnvelope.
Context {BI : Builtins} {SV : Services}.
Import GenerateRoiBrief.

(** X25: the brief stage takes the build stage's result bare or inside
    one [Payload] envelope: on an event whose [features] is an envelope
    around a feature record it makes the same calls and ends in the same
    way as on the event that carries the record itself. *)
Theorem brief_envelope_is_transparent
    (rest envelope payload : list (string * json)) :
  dict_lookup "Payload" envelope = Some (JDict payload) ->
  dict_lookup "Payload" payload = None ->
  handler (with_features rest (JDict envelope))
  = handler (with_features rest (JDict payload)).
Proof.
  intros Henv Hpayload.
  apply brief_handler_ext.
  - unfold unwrap_features, with_features, py_get.
    rewrite !dict_lookup_set_same; simpl rbind.
    assert (Hne : truthy (JDict envelope) = true)
      by (destruct envelope; [discriminate | reflexivity]).
    unfold py_or at 1 2 3; rewrite Hne; simpl.
    unfold dict_mem; rewrite Henv; simpl.
    destruct payload as [|kv payload']; [reflexivity|].
    unfold py_or; simpl truthy; cbv iota; simpl is_dict; cbv iota.
    simpl rbind. unfold dict_mem; rewrite Hpayload; reflexivity.
  - intros k Hk; unfold config, with_features, py_get.
    rewrite !dict_lookup_set_other by congruence.
    reflexivity.
Qed.

End BriefEnvelope.

(** * Worked instances of the further properties *)

(** ** [get_latest_fact] *)

Lemma result_is_an_annual_observation_witness :
  annual_observations scenario_facts "Revenues"
  = Ok [annual_obs 100 2023 "CY2023"; annual_obs 80 2022 "CY2022"]
  /\ get_latest_fact scenario_facts "Revenues" (JInt 2022)
     = Ok (JInt 80, JInt 2022)
  /\ ((JInt 80, JInt 2022) = (JNull, JNull)
      \/ exists f,
           In f [annual_obs 100 2023 "CY2023"; annual_obs 80 2022 "CY2022"]
           /\ py_get f "val" JNull = Ok (JInt 80)
           /\ py_get f "fy" JNull = Ok (JInt 2022)).
Proof.
  split; [reflexivity | split; [reflexivity|]].
  apply (result_is_an_annual_observation
           scenario_facts "Revenues" (JInt 2022)
           [annual_obs 100 2023 "CY2023"; annual_obs 80 2022 "CY2022"]
           (JInt 80) (JInt 2022));
    [reflexivity | discriminate | reflexivity].
Defined.

(** The older observation is listed first; the newer one is returned. *)
Lemma latest_annual_is_most_recent_witness :
  annual_observations
    (scenario_facts_with false "CY2023" "CY2022" "CY2023") "Revenues"
  = Ok [annual_obs 80 2022 "CY2022"; annual_obs 100 2023 "CY2023"]
  /\ exists f0 z0 v y,
       In f0 [annual_obs 80 2022 "CY2022"; annual_obs 100 2023 "CY2023"]
       /\ fy_key f0 = Ok (JInt z0)
       /\ val_and_fy f0 = Ok (v, y)
       /\ get_latest_fact
            (scenario_facts_with false "CY2023" "CY2022" "CY2023")
            "Revenues" JNull
          = Ok (v, y)
       /\ forall f z,
            In f [annual_obs 80 2022 "CY2022"; annual_obs 100 2023 "CY2023"] ->
            fy_key f = Ok (JInt z) -> z <= z0.
Proof.
  split; [reflexivity|].
  apply (latest_annual_is_most_recent
           (scenario_facts_with false "CY2023" "CY2022" "CY2023")
           "Revenues" JNull
           [annual_obs 80 2022 "CY2022"; annual_obs 100 2023 "CY2023"]);
    [reflexivity | discriminate | reflexivity |].
  intros f [<-|[<-|[]]]; eexists; reflexivity.
Defined.

Lemma fallback_ignores_requested_year_witness :
  annual_observations quarterly_only_facts "Revenues" = Ok []
  /\ get_latest_fact quarterly_only_facts "Revenues" (JInt 1999)
     = get_latest_fact quarterly_only_facts "Revenues" JNull.
Proof.
  split; [reflexivity|].
  apply (fallback_ignores_requested_year
           quarterly_only_facts "Revenues" (JInt 1999)).
  reflexivity.
Defined.

Lemma damaged_entry_hides_the_concept_witness :
  usd_fact_list damaged_facts "Revenues"
  = Ok (Some (JList [annual_obs 100 2023 "CY2023"; JNull;
                     annual_obs 80 2022 "CY2022"]))
  /\ get_latest_fact damaged_facts "Revenues" JNull = Ok (JNull, JNull).
Proof.
  split; [reflexivity|].
  apply (damaged_entry_hides_the_concept
           damaged_facts "Revenues" JNull
           [annual_obs 100 2023 "CY2023"; JNull; annual_obs 80 2022 "CY2022"]
           JNull);
    [reflexivity | right; left; reflexivity | left; reflexivity].
Defined.

Lemma fallback_returns_most_recent_witness :
  filterM is_annual
    [quarterly_obs 5 2022; quarterly_obs 7 2024; quarterly_obs 6 2023]
  = Ok []
  /\ exists f0 z0 v y,
       In f0 [quarterly_obs 5 2022; quarterly_obs 7 2024; quarterly_obs 6 2023]
       /\ fy_key f0 = Ok (JInt z0)
       /\ val_and_fy f0 = Ok (v, y)
       /\ get_latest_fact quarterly_history_facts "Revenues" (JInt 2022)
          = Ok (v, y)
       /\ forall f z,
            In f [quarterly_obs 5 2022; quarterly_obs 7 2024;
                  quarterly_obs 6 2023] ->
            fy_key f = Ok (JInt z) -> z <= z0.
Proof.
  split; [reflexivity|].
  apply (fallback_returns_most_recent
           quarterly_history_facts "Revenues" (JInt 2022)
           [quarterly_obs 5 2022; quarterly_obs 7 2024; quarterly_obs 6 2023]);
    [reflexivity | discriminate | reflexivity |].
  intros f [<-|[<-|[<-|[]]]]; eexists; reflexivity.
Defined.

(** ** build_features *)

Lemma top_level_references_are_accepted_witness :
  dict_lookup "edgar_data"
    [("name", JStr "Apple Inc."); ("s3_references", scenario_references)]
  = None
  /\ build_features
       (JDict [("name", JStr "Apple Inc.");
               ("s3_references", scenario_references)])
     = build_features
         (BuildFeatures.with_edgar_data
            [("name", JStr "Apple Inc.");
             ("s3_references", scenario_references)]
            (JDict [("s3_references", scenario_references)])).
Proof.
  split; [reflexivity|].
  apply (top_level_references_are_accepted
           (TS := strict_timsort) (BI := builtins)
           (SV := services scenario_bucket (Raise (ServiceError "no model")))
           [("name", JStr "Apple Inc."); ("s3_references", scenario_references)]
           scenario_references);
    reflexivity.
Defined.

(** The event the state machine passes on: the two objects of the
    scenario are read, and the record is built from what they decode to. *)
Lemma feature_record_contract_witness :
  exists v,
    outcome (build_features wrapped_event) = Ok v
    /\ exists edgar_obj s3_refs facts_key submissions_key
              facts_text submissions_text facts_data submissions_data
              name cik year industry fiscal_year_end latest_revenue kpis,
         BuildFeatures.unwrap_edgar wrapped_event = Ok edgar_obj
         /\ BuildFeatures.s3_references wrapped_event edgar_obj = Ok s3_refs
         /\ BuildFeatures.storage_keys s3_refs
            = Ok (facts_key, submissions_key)
         /\ calls (build_features wrapped_event)
            = [S3GetObject "example-bucket" facts_key;
               S3GetObject "example-bucket" submissions_key]
         /\ s3_get_object
              (Services := services scenario_bucket
                             (Raise (ServiceError "no model")))
              "example-bucket" facts_key
            = Ok facts_text
         /\ json_loads facts_text = Ok facts_data
         /\ s3_get_object
              (Services := services scenario_bucket
                             (Raise (ServiceError "no model")))
              "example-bucket" submissions_key
            = Ok submissions_text
         /\ json_loads submissions_text = Ok submissions_data
         /\ py_get wrapped_event "name" JNull = Ok name
         /\ get_latest_fact facts_data "Revenues" JNull
            = Ok (latest_revenue, year)
         /\ BuildFeatures.derive_kpis facts_data latest_revenue year = Ok kpis
         /\ py_get submissions_data "sicDescription" (JStr "N/A")
            = Ok industry
         /\ py_get submissions_data "fiscalYearEnd" (JStr "N/A")
            = Ok fiscal_year_end
         /\ v = JDict
                  [("company_name", name);
                   ("cik", cik);
                   ("fiscal_year", year);
                   ("industry", industry);
                   ("fiscal_year_end", fiscal_year_end);
                   ("latest_revenue_usd", latest_revenue);
                   ("yoy_revenue_growth_pct", BuildFeatures.pct (fst kpis));
                   ("sm_expense_as_pct_revenue",
                    BuildFeatures.pct (snd kpis));
                   ("data_source",
                    JStr ("https://www.sec.gov/edgar/browse/?CIK="
                          ++ py_format cik))]
         /\ (BuildFeatures.pct (fst kpis) = JNull
             \/ exists f, BuildFeatures.pct (fst kpis) = JFloat f)
         /\ (BuildFeatures.pct (snd kpis) = JNull
             \/ exists f, BuildFeatures.pct (snd kpis) = JFloat f)
         /\ (year = JNull \/ latest_revenue = JNull ->
             BuildFeatures.pct (fst kpis) = JNull
             /\ BuildFeatures.pct (snd kpis) = JNull).
Proof.
  eexists; split; [vm_compute; reflexivity|].
  apply (feature_record_contract
           (TS := strict_timsort) (BI := builtins)
           (SV := services scenario_bucket (Raise (ServiceError "no model")))
           wrapped_event).
  vm_compute; reflexivity.
Defined.

(** ** generate_roi_brief *)

Lemma reply_is_the_text_blocks_witness :
  GenerateRoiBrief.reply_text
    (JDict [("content",
             JList [JDict [("type", JStr "text"); ("text", JStr "Hello, ")];
                    JDict [("type", JStr "tool_use"); ("text", JStr "skip")];
                    JDict [("type", JStr "text")];
                    JDict [("type", JStr "text"); ("text", JStr "world")]])])
  = Ok "Hello, world".
Proof.
  apply (reply_is_the_text_blocks
           (BI := builtins)
           [("content",
             JList [JDict [("type", JStr "text"); ("text", JStr "Hello, ")];
                    JDict [("type", JStr "tool_use"); ("text", JStr "skip")];
                    JDict [("type", JStr "text")];
                    JDict [("type", JStr "text"); ("text", JStr "world")]])]
           [JDict [("type", JStr "text"); ("text", JStr "Hello, ")];
            JDict [("type", JStr "tool_use"); ("text", JStr "skip")];
            JDict [("type", JStr "text")];
            JDict [("type", JStr "text"); ("text", JStr "world")]]
           [Some "Hello, "; None; Some ""; Some "world"]);
    [reflexivity|].
  repeat constructor.
  - eapply says_text; reflexivity.
  - eapply says_nothing; reflexivity.
  - eapply says_empty; reflexivity.
  - eapply says_text; reflexivity.
Defined.

(** A reply that is not JSON: the stage returns after the two model
    calls and the five delivery calls. *)
Lemma brief_success_trace_witness :
  outcome (generate_roi_brief (text_response "Sorry <no brief>")
             (JDict [("features", features); ("ses", contacts)]))
  = Ok (JDict [("status", JStr "success");
               ("s3_path", JStr "s3://example-bucket/2024-01-31/")])
  /\ exists model_calls key1 document key2 data sender recipient subject html,
       calls (generate_roi_brief (text_response "Sorry <no brief>")
                (JDict [("features", features); ("ses", contacts)]))
       = (model_calls
          ++ [S3Client;
              S3PutObject "example-bucket" key1 document "text/html";
              S3PutObject "example-bucket" key2 data "application/json";
              SesClient None;
              SesSendEmail sender recipient subject html])%list
       /\ forallb is_model_call model_calls = true
       /\ truthy sender = true /\ truthy recipient = true
       /\ (html = JStr document
           \/ (document = ""
               /\ html = JStr "<p>Error generating HTML.</p>")).
Proof.
  split; [vm_compute; reflexivity|].
  apply (brief_success_trace
           (BI := builtins)
           (SV := services scenario_bucket
                    (Ok (text_response "Sorry <no brief>")))
           (JDict [("features", features); ("ses", contacts)])
           (JDict [("status", JStr "success");
                   ("s3_path", JStr "s3://example-bucket/2024-01-31/")])).
  vm_compute; reflexivity.
Defined.

(** An account without a name: the build stage returns a record, on
    which the brief stage cannot finish. *)
Lemma unnamed_account_cannot_be_briefed_witness :
  exists record,
    outcome (BuildFeatures.handler
               (TS := strict_timsort) (BI := builtins)
               (SV := services scenario_bucket (Ok (text_response "{}")))
               (BuildFeatures.with_edgar_data [] claim_check))
    = Ok record
    /\ py_get (BuildFeatures.with_edgar_data [] claim_check) "name" JNull
       = Ok JNull
    /\ exists e,
         outcome (GenerateRoiBrief.handler
                    (BI := builtins)
                    (SV := services scenario_bucket
                             (Ok (text_response "{}")))
                    (GenerateRoiBrief.with_features
                       [("ses", contacts)] record))
         = Raise e.
Proof.
  eexists; split; [vm_compute; reflexivity | split; [reflexivity|]].
  apply (unnamed_account_cannot_be_briefed
           (TS := strict_timsort) (BI := builtins)
           (SV := services scenario_bucket (Ok (text_response "{}")))
           (BuildFeatures.with_edgar_data [] claim_check) _ JNull
           [("ses", contacts)]);
    [vm_compute; reflexivity | reflexivity | reflexivity].
Defined.

(** The reply ["Sorry <no brief>"] is stored and mailed as the fallback
    document. *)
Lemma non_json_reply_is_delivered_witness :
  json_loads (strip "Sorry <no brief>") = Raise JSONDecodeError
  /\ outcome (generate_roi_brief (text_response "Sorry <no brief>")
                (JDict [("features", features); ("ses", contacts)]))
     = Ok (JDict [("status", JStr "success");
                  ("s3_path", JStr "s3://example-bucket/2024-01-31/")])
  /\ exists subject,
       calls (generate_roi_brief (text_response "Sorry <no brief>")
                (JDict [("features", features); ("ses", contacts)]))
       = (calls (GenerateRoiBrief.invoke_bedrock
                   (BI := builtins)
                   (SV := services scenario_bucket
                            (Ok (text_response "Sorry <no brief>")))
                   (JDict []) features)
          ++ [S3Client;
              S3PutObject "example-bucket" "2024-01-31/apple-inc.-brief.html"
                (GenerateRoiBrief.fallback_document "Sorry <no brief>")
                "text/html";
              S3PutObject "example-bucket" "2024-01-31/apple-inc.-data.json"
                "{}" "application/json";
              SesClient None;
              SesSendEmail (JStr "briefs@example.com")
                (JStr "sales@example.com") subject
                (JStr (GenerateRoiBrief.fallback_document
                         "Sorry <no brief>"))])%list.
Proof.
  split; [reflexivity|].
  apply (non_json_reply_is_delivered
           (BI := builtins)
           (SV := services scenario_bucket
                    (Ok (text_response "Sorry <no brief>")))
           (JDict [("features", features); ("ses", contacts)])
           (JDict []) contacts (JBool false)
           (JStr "briefs@example.com") (JStr "sales@example.com")
           [("company_name", JStr "Apple Inc."); ("cik", JInt 320193);
            ("fiscal_year", JInt 2023); ("latest_revenue_usd", JInt 100)]
           "Apple Inc." "Sorry <no brief>");
    try reflexivity.
  - discriminate.
  - intros subject html; eexists; reflexivity.
Defined.

(** The decoder gives up with [RecursionError]: the handler ends in it
    after the two model calls. *)
Lemma other_decoder_failures_abort_witness :
  exists region model_id body,
    GenerateRoiBrief.handler
      (BI := GivingUp.builtins)
      (SV := services scenario_bucket (Ok (text_response "[[[[ ... ]]]]")))
      (JDict [("features", features); ("ses", contacts)])
    = ([BedrockClient region; BedrockInvokeModel region model_id body],
       Raise RecursionError).
Proof.
  do 3 eexists.
  rewrite (other_decoder_failures_abort
             (BI := GivingUp.builtins)
             (SV := services scenario_bucket
                      (Ok (text_response "[[[[ ... ]]]]")))
             (JDict [("features", features); ("ses", contacts)])
             (JDict []) contacts (JBool false)
             [("company_name", JStr "Apple Inc."); ("cik", JInt 320193);
              ("fiscal_year", JInt 2023); ("latest_revenue_usd", JInt 100)]
             "[[[[ ... ]]]]" RecursionError
             eq_refl ltac:(discriminate) eq_refl eq_refl eq_refl eq_refl
             eq_refl eq_refl ltac:(discriminate)).
  vm_compute; reflexivity.
Defined.

(** ** analyze_and_notify *)

Lemma no_content_no_call_witness :
  analyze_and_notify (text_response "unused")
    (JDict [("aggregated", JDict [("source_count", JInt 3)])])
  = ([], Ok AnalyzeAndNotify.no_content)
  /\ analyze_and_notify (text_response "unused")
       (JDict [("aggregated", JDict [("prompt_context", JInt 7)])])
     = ([], Raise TypeError).
Proof.
  split.
  - apply (proj1 (no_content_no_call
                    (BI := builtins)
                    (SV := services scenario_bucket
                             (Ok (text_response "unused")))
                    [("aggregated", JDict [("source_count", JInt 3)])]
                    [("source_count", JInt 3)] (JStr "")
                    eq_refl eq_refl)).
    left; reflexivity.
  - apply (proj2 (no_content_no_call
                    (BI := builtins)
                    (SV := services scenario_bucket
                             (Ok (text_response "unused")))
                    [("aggregated", JDict [("prompt_context", JInt 7)])]
                    [("prompt_context", JInt 7)] (JInt 7)
                    eq_refl eq_refl)).
    right; discriminate.
Defined.


Lemma response_text_is_never_empty_witness :
  AnalyzeAndNotify.response_text
    (JDict [("content",
             JList [JDict [("type", JStr "thinking")];
                    JDict [("type", JStr "text"); ("text", JStr "")]])])
  = Ok "<p>No response text produced.</p>"
  /\ "<p>No response text produced.</p>" <> ""
  /\ AnalyzeAndNotify.response_text (JDict [("id", JStr "msg_1")])
     = Ok "<p>No response text produced.</p>".
Proof.
  pose proof (response_text_is_never_empty
                (JDict [("content",
                         JList [JDict [("type", JStr "thinking")];
                                JDict [("type", JStr "text");
                                       ("text", JStr "")]])])
                "<p>No response text produced.</p>")
    as [Hne [Hcontent _]].
  pose proof (response_text_is_never_empty
                (JDict [("id", JStr "msg_1")])
                "<p>No response text produced.</p>")
    as [_ [_ Habsent]].
  split; [|split].
  - apply (Hcontent _ _ [None; Some ""] eq_refl eq_refl).
    repeat constructor.
    + eapply says_nothing; reflexivity.
    + eapply says_text; reflexivity.
  - apply Hne; reflexivity.
  - apply (Habsent _ eq_refl); reflexivity.
Defined.

Lemma email_body_is_a_document_witness :
  AnalyzeAndNotify.html_body_of
    (SV := services scenario_bucket (Ok JNull)) "<HTML>ready</HTML>"
  = "<HTML>ready</HTML>"
  /\ exists head,
       AnalyzeAndNotify.html_body_of
         (SV := services scenario_bucket (Ok JNull)) "<p>plain</p>"
       = (head ++ "<p>plain</p>" ++ "
</body></html>")%string
       /\ str_contains "2024-01-31" head = true.
Proof.
  split.
  - apply (proj1 (proj2 (email_body_is_a_document
                           (SV := services scenario_bucket (Ok JNull))
                           "<HTML>ready</HTML>"))).
    reflexivity.
  - apply (proj2 (proj2 (email_body_is_a_document
                           (SV := services scenario_bucket (Ok JNull))
                           "<p>plain</p>"))).
    reflexivity.
Defined.

Lemma notify_result_kinds_witness :
  outcome (analyze_and_notify (text_response "<html>report</html>")
             (JDict [("aggregated", aggregated); ("ses", contacts)]))
  = Ok (JDict [("status", JStr "sent");
               ("recipient", JStr "sales@example.com");
               ("subject", JStr "Daily Web Intel");
               ("model", JStr "anthropic.claude-3-sonnet-20240229-v1:0");
               ("message_id", JStr "example-message-id")])
  /\ List.length
       (calls (analyze_and_notify (text_response "<html>report</html>")
                 (JDict [("aggregated", aggregated); ("ses", contacts)])))
     = 4%nat.
Proof.
  split; [vm_compute; reflexivity|].
  destruct (notify_result_kinds
              (BI := builtins)
              (SV := services scenario_bucket
                       (Ok (text_response "<html>report</html>")))
              (JDict [("aggregated", aggregated); ("ses", contacts)])
              (JDict [("status", JStr "sent");
                      ("recipient", JStr "sales@example.com");
                      ("subject", JStr "Daily Web Intel");
                      ("model",
                       JStr "anthropic.claude-3-sonnet-20240229-v1:0");
                      ("message_id", JStr "example-message-id")]))
    as [[Hv _]|[region [model_id [body
          [[Hv _]|[ses_region [sender [recipient [subject [html [message_id
             [_ [Hcalls _]]]]]]]]]]]]].
  - vm_compute; reflexivity.
  - discriminate Hv.
  - discriminate Hv.
  - unfold analyze_and_notify; rewrite Hcalls; reflexivity.
Defined.

(** An event with findings and no [source_count]: the model is asked
    about the findings followed by the test passage. *)
Lemma test_passage_reaches_the_model_witness :
  exists region model_id body others text,
    calls (analyze_and_notify (text_response "<html>report</html>")
             (JDict [("aggregated",
                      JDict [("prompt_context", JStr "real findings")]);
                     ("ses", contacts)]))
    = BedrockClient region :: BedrockInvokeModel region model_id body
      :: others
    /\ (exists max_tokens temperature,
          body = JDict
                   [("anthropic_version", JStr "bedrock-2023-05-31");
                    ("system", JStr AnalyzeAndNotify.system_prompt);
                    ("messages",
                     JList [JDict [("role", JStr "user");
                                   ("content",
                                    JList [JDict [("type", JStr "text");
                                                  ("text", text)]])]]);
                    ("max_tokens", max_tokens);
                    ("temperature", temperature)])
    /\ text = JStr ("real findings" ++ AnalyzeAndNotify.test_content).
Proof.
  assert (Hcalls :
    exists region model_id body others,
      calls (analyze_and_notify (text_response "<html>report</html>")
               (JDict [("aggregated",
                        JDict [("prompt_context", JStr "real findings")]);
                       ("ses", contacts)]))
      = BedrockClient region :: BedrockInvokeModel region model_id body
        :: others)
    by (do 4 eexists; vm_compute; reflexivity).
  destruct Hcalls as [region [model_id [body [others Hcalls]]]].
  destruct (test_passage_reaches_the_model
              (BI := builtins)
              (SV := services scenario_bucket
                       (Ok (text_response "<html>report</html>")))
              [("aggregated",
                JDict [("prompt_context", JStr "real findings")]);
               ("ses", contacts)]
              [("prompt_context", JStr "real findings")]
              (JStr "real findings") (JInt 0)
              (BedrockClient region) region model_id body others
              eq_refl eq_refl eq_refl Hcalls)
    as [text [max_tokens [temperature [Hbody [Hzero _]]]]].
  exists region, model_id, body, others, text.
  split; [exact Hcalls | split].
  - exists max_tokens, temperature; exact Hbody.
  - specialize (Hzero eq_refl); inversion Hzero; reflexivity.
Defined.

Lemma brief_envelope_is_transparent_witness :
  dict_lookup "Payload" (invocation_result features) = Some features
  /\ generate_roi_brief (text_response "{}")
       (GenerateRoiBrief.with_features [("ses", contacts)]
          (JDict (invocation_result features)))
     = generate_roi_brief (text_response "{}")
         (GenerateRoiBrief.with_features [("ses", contacts)] features).
Proof.
  split; [reflexivity|].
  apply (brief_envelope_is_transparent
           (BI := builtins)
           (SV := services scenario_bucket (Ok (text_response "{}")))
           [("ses", contacts)] (invocation_result features)
           [("company_name", JStr "Apple Inc."); ("cik", JInt 320193);
            ("fiscal_year", JInt 2023); ("latest_revenue_usd", JInt 100)]);
    reflexivity.
Defined.

(** ** fetch_edgar_data *)

Import FetchExample.

Lemma no_identifier_no_request_witness :
  fetch_edgar_data (account_event (JInt 0))
  = ([], Raise (ValueError "Missing 'cik' in account object"))
  /\ fetch_edgar_data (JDict [("account", JStr "Apple Inc.")])
     = ([], Raise AttributeError)
  /\ exists account cik,
       py_get (account_event (JInt 320193)) "account" (JDict [])
       = Ok (JDict account)
       /\ dict_lookup "cik" account = Some cik
       /\ truthy cik = true.
Proof.
  split; [|split].
  - apply (proj1 (proj2 (no_identifier_no_request
                           (BI := builtins) (FE := fetcher sec_pages)
                           (account_event (JInt 0))))
             (JDict [("name", JStr "Apple Inc."); ("cik", JInt 0)])
             (JInt 0));
      reflexivity.
  - apply (proj2 (proj2 (no_identifier_no_request
                           (BI := builtins) (FE := fetcher sec_pages)
                           (JDict [("account", JStr "Apple Inc.")])))
             (JStr "Apple Inc."));
      reflexivity.
  - apply (proj1 (no_identifier_no_request
                    (BI := builtins) (FE := fetcher sec_pages)
                    (account_event (JInt 320193)))).
    vm_compute; discriminate.
Defined.

Lemma fetch_stores_what_it_fetched_witness :
  outcome (fetch_edgar_data (account_event (JInt 320193))) = Ok claim_check
  /\ exists cik facts submissions,
       truthy cik = true
       /\ http_get (Fetcher := fetcher sec_pages)
            (FetchEdgarData.facts_url (zfill 10 (py_format cik)))
          = Ok facts
       /\ http_get (Fetcher := fetcher sec_pages)
            (FetchEdgarData.submissions_url (zfill 10 (py_format cik)))
          = Ok submissions
       /\ claim_check
          = JDict [("status", JStr "success");
                   ("cik", cik);
                   ("s3_references",
                    JDict [("facts_key",
                            JStr (FetchEdgarData.facts_key cik));
                           ("submissions_key",
                            JStr (FetchEdgarData.submissions_key cik))])]
       /\ calls (fetch_edgar_data (account_event (JInt 320193)))
          = [HttpGet (FetchEdgarData.facts_url (zfill 10 (py_format cik)));
             PutObject "example-bucket" (FetchEdgarData.facts_key cik) facts;
             HttpGet (FetchEdgarData.submissions_url
                        (zfill 10 (py_format cik)));
             PutObject "example-bucket" (FetchEdgarData.submissions_key cik)
               submissions].
Proof.
  split; [vm_compute; reflexivity|].
  apply (fetch_stores_what_it_fetched
           (BI := builtins) (FE := fetcher sec_pages)
           (account_event (JInt 320193)) claim_check).
  vm_compute; reflexivity.
Defined.

(** The data source does not know company 1: the run ends with the HTTP
    error after one request, and nothing is stored. *)
Lemma fetch_failure_stops_the_run_witness :
  fetch_edgar_data (account_event (JInt 1))
  = ([HttpGet "https://data.sec.gov/api/xbrl/companyfacts/CIK0000000001.json"],
     Raise (ServiceError "HTTP Error 404: Not Found")).
Proof.
  apply (proj1 (fetch_failure_stops_the_run
                  (BI := builtins) (FE := fetcher sec_pages)
                  (account_event (JInt 1))
                  (JDict [("name", JStr "Apple Inc."); ("cik", JInt 1)])
                  (JInt 1) (ServiceError "HTTP Error 404: Not Found")
                  eq_refl eq_refl eq_refl)).
  reflexivity.
Defined.

Lemma identifier_is_padded_in_addresses_only_witness :
  py_format (JInt 320193) = "320193"
  /\ exists padding others,
       calls (fetch_edgar_data (account_event (JInt 320193)))
       = HttpGet ("https://data.sec.gov/api/xbrl/companyfacts/CIK"
                  ++ zeros padding ++ "320193" ++ ".json") :: others
       /\ (padding + String.length "320193"
           = Nat.max 10 (String.length "320193"))%nat
       /\ FetchEdgarData.facts_key (JInt 320193)
          = "intermediate/320193-facts.json"
       /\ FetchEdgarData.submissions_key (JInt 320193)
          = "intermediate/320193-submissions.json".
Proof.
  split; [reflexivity|].
  apply (identifier_is_padded_in_addresses_only
           (BI := builtins) (FE := fetcher sec_pages)
           (account_event (JInt 320193))
           (JDict [("name", JStr "Apple Inc."); ("cik", JInt 320193)])
           (JInt 320193) "3"%char "20193");
    try reflexivity; discriminate.
Defined.

(** The fetch stage's result, handed over by the state machine inside an
    invocation result: the build stage asks for the two objects the fetch
    stage stored. *)
Lemma build_reads_what_fetch_wrote_witness :
  outcome (fetch_edgar_data (account_event (JInt 320193))) = Ok claim_check
  /\ exists facts_address facts_key facts submissions_address submissions_key
            submissions,
       calls (fetch_edgar_data (account_event (JInt 320193)))
       = [HttpGet facts_address;
          PutObject "example-bucket" facts_key facts;
          HttpGet submissions_address;
          PutObject "example-bucket" submissions_key submissions]
       /\ (calls (build_features wrapped_event)
           = [S3GetObject "example-bucket" (JStr facts_key)]
           \/ calls (build_features wrapped_event)
              = [S3GetObject "example-bucket" (JStr facts_key);
                 S3GetObject "example-bucket" (JStr submissions_key)]).
Proof.
  split; [vm_compute; reflexivity|].
  apply (build_reads_what_fetch_wrote
           (TS := strict_timsort) (BI := builtins)
           (SV := services scenario_bucket (Raise (ServiceError "no model")))
           (FE := fetcher sec_pages)
           (account_event (JInt 320193)) claim_check
           (JDict (invocation_result claim_check))
           (dict_set "edgar_data" (JDict (invocation_result claim_check))
              account)).
  - vm_compute; reflexivity.
  - reflexivity.
  - right; exists (invocation_result claim_check); split; reflexivity.
Defined.
